(** * NCAA statistics collection: pagination, concatenation and merge

    A shallow embedding of the three collection scripts of the repository

      - [data_collection.py]           (the first script: [get_df] only),
      - [src/data_collection.py]       (the same plus [get_full_data]),
      - [src/data_collection_updated.py] (class [NCAADataCollector]),

    and the properties of the pagination-aware collection and merge
    pipeline that the specification states about them.

    The scripts are written against three libraries: [requests] (pages are
    fetched), [bs4] (anchors and the first table of a page are looked up)
    and [pandas] (tables are concatenated, merged and filled).  The network
    and the markup are inputs of the model: a page is the ordered list of
    the [href]s of its anchors together with what [pd.read_html] makes of
    its first table, and the web is a function from URLs to pages.  The
    pandas operations the scripts call are written out below on a data frame
    given by its ordered column names and its ordered rows. *)

From Stdlib Require Import ZArith DecimalString.
From stdpp Require Import gmap strings list sorting.

Open Scope string_scope.
Open Scope list_scope.

#[local] Set Warnings "-clear-no-such-hyp".

(** ** Cells, rows and data frames *)

(** A cell of a frame, as the pipeline sees it: a Python string, a number
    or the missing value [NaN].  Numbers are only moved around and, in the
    key column, printed; they are carried as integers. *)
Inductive cell : Type :=
  | CStr (s : string)
  | CNum (z : Z)
  | CNaN.

Global Instance cell_eq_dec : EqDecision cell.
Proof. solve_decision. Defined.

(** Python's [str(x)] on a cell, which is what [Series.astype(str)] applies
    to every element (pandas 1.x and 2.x): a string is itself, a number is
    printed in decimal and the missing value becomes the text [nan]. *)
Definition py_str (c : cell) : string :=
  match c with
  | CStr s => s
  | CNum z => NilZero.string_of_int (Z.to_int z)
  | CNaN => "nan"
  end.

(** A row maps column names to cells. *)
Abbreviation Row := (gmap string cell).

(** A data frame: the ordered column index and the ordered rows.  The row
    labels are not modelled: every [concat] of the scripts passes
    [ignore_index=True] and [merge] renumbers its result. *)
Record DataFrame : Type := mkDataFrame {
  columns : list string;
  rows : list Row
}.

Global Instance DataFrame_eq_dec : EqDecision DataFrame.
Proof. solve_decision. Defined.

(** [row[c]], with the missing value where the row has no such label. *)
Definition at_col (c : string) (r : Row) : cell := default CNaN (r !! c).

(** A row over exactly the labels [cols]. *)
Definition row_over (cols : list string) (r : Row) : Prop :=
  ∀ c, is_Some (r !! c) ↔ c ∈ cols.

(** The frames pandas builds have unique column labels and rows over
    exactly these labels ([read_html] renames repeated headers). *)
Definition wf_frame (df : DataFrame) : Prop :=
  NoDup (columns df) ∧ Forall (row_over (columns df)) (rows df).

(** The join key of a row. *)
Definition team (r : Row) : cell := at_col "Team" r.

(** What the collection loops hand to the merge: a frame with a [Team]
    column that went through [astype(str)]. *)
Definition category_table (df : DataFrame) : Prop :=
  wf_frame df ∧ "Team" ∈ columns df ∧
  Forall (λ r : Row, ∃ s, r !! "Team" = Some (CStr s)) (rows df).

(** ** Exceptions *)

(** The exceptions the scripts can end with; [ReError] is [re.error]. *)
Inductive exn : Type :=
  | KeyError
  | ValueError
  | AttributeError
  | RequestException
  | ReError.

Inductive result (A : Type) : Type :=
  | Ok (a : A)
  | Raise (e : exn).
Arguments Ok {A} a.
Arguments Raise {A} e.

Global Instance result_ret : MRet result := λ A a, Ok a.
Global Instance result_bind : MBind result := λ A B f m,
  match m with
  | Ok a => f a
  | Raise e => Raise e
  end.

(** A [for] loop whose body may raise: the first exception ends it. *)
Fixpoint for_each {A S : Type} (body : S → A → result S) (s : S) (l : list A)
    : result S :=
  match l with
  | [] => Ok s
  | x :: l' => s' ← body s x; for_each body s' l'
  end.

(** ** The pandas operations the scripts use *)

Module pd.

(** [pd.DataFrame()] *)
Definition empty : DataFrame := mkDataFrame [] [].

(** The labels of [new] that [acc] lacks, appended in order: how the
    column indexes of the pieces of a [concat] are united ([sort=False]). *)
Definition union_index (acc new : list string) : list string :=
  foldl (λ acc c, if decide (c ∈ acc) then acc else acc ++ [c]) acc new.

(** [row.reindex(cols)]: the row over the labels [cols], missing where
    the row had no value. *)
Definition reindex (cols : list string) (r : Row) : Row :=
  list_to_map ((λ c, (c, at_col c r)) <$> cols).

(** The column index of a concatenation: the labels of the pieces, each
    once, in the order of first appearance. *)
Definition concat_columns (dfs : list DataFrame) : list string :=
  foldl (λ acc df, union_index acc (columns df)) [] dfs.

(** [pd.concat(dfs, ignore_index=True)] with the default outer join on
    the columns: the rows of every piece, in order, over the union of the
    column indexes.  An empty list of pieces is a [ValueError]. *)
Definition concat (dfs : list DataFrame) : result DataFrame :=
  match dfs with
  | [] => Raise ValueError
  | _ =>
      let cols := concat_columns dfs in
      Ok (mkDataFrame cols (df ← dfs; reindex cols <$> rows df))
  end.

(** [errors=] of [DataFrame.drop] *)
Inductive errors_mode : Type := errors_raise | errors_ignore.

(** A row without the labels [labels]. *)
Definition drop_row (labels : list string) (r : Row) : Row :=
  filter (λ kv : string * cell, kv.1 ∉ labels) r.

(** [df.drop(columns=labels, errors=...)] *)
Definition drop (labels : list string) (errors : errors_mode)
    (df : DataFrame) : result DataFrame :=
  let dropped :=
    mkDataFrame (filter (λ c, c ∉ labels) (columns df))
                (drop_row labels <$> rows df) in
  match errors with
  | errors_ignore => Ok dropped
  | errors_raise =>
      if decide (Forall (λ c, c ∈ columns df) labels) then Ok dropped
      else Raise KeyError
  end.

(** [df.fillna(v)]: every missing cell, in every column, becomes [v]. *)
Definition fill (v c : cell) : cell :=
  match c with CNaN => v | _ => c end.

Definition fillna (v : cell) (df : DataFrame) : DataFrame :=
  mkDataFrame (columns df) ((λ r : Row, fill v <$> r) <$> rows df).

(** A row with its cell in column [col] printed. *)
Definition astype_str_at (col : string) (r : Row) : Row :=
  <[col := CStr (py_str (at_col col r))]> r.

(** [df[col] = df[col].astype(str)]: a [KeyError] when the frame has no
    such column, else the column is replaced in place by its printed
    form. *)
Definition set_astype_str (col : string) (df : DataFrame)
    : result DataFrame :=
  if decide (col ∈ columns df)
  then Ok (mkDataFrame (columns df) (astype_str_at col <$> rows df))
  else Raise KeyError.

(** The order in which an outer merge lists its keys ("sort keys
    lexicographically").  Every merge of the scripts is on a column that
    went through [astype(str)], so that the keys are strings; numbers
    are put before them and the missing value last, which only keeps the
    order total. *)
Definition key_leb (a b : cell) : bool :=
  match a, b with
  | CNum x, CNum y => (x <=? y)%Z
  | CNum _, _ => true
  | CStr _, CNum _ => false
  | CStr s, CStr t => String.leb s t
  | CStr _, CNaN => true
  | CNaN, CNaN => true
  | CNaN, _ => false
  end.

Definition key_le (a b : cell) : Prop := key_leb a b = true.

Global Instance key_le_dec : RelDecision key_le.
Proof. intros a b. unfold key_le. apply _. Defined.

(** The labels of [cols], each at the missing value. *)
Definition nan_row (cols : list string) : Row :=
  list_to_map ((λ c, (c, CNaN)) <$> cols).

(** The rows of an outer merge for one key [k]: every pairing of a left
    row and a right row with that key; where one side has none, the
    other side's rows with the absent side's columns missing. *)
Definition merge_key (on : string) (left right : DataFrame) (k : cell)
    : list Row :=
  let ls := filter (λ a : Row, at_col on a = k) (rows left) in
  let rs := filter (λ b : Row, at_col on b = k) (rows right) in
  match ls, rs with
  | [], _ => (λ b : Row, b ∪ nan_row (columns left)) <$> rs
  | _, [] => (λ a : Row, a ∪ nan_row (columns right)) <$> ls
  | _, _ => a ← ls; b ← rs; [a ∪ b]
  end.

(** The keys of either side, each once, in sorted order. *)
Definition merge_keys (on : string) (left right : DataFrame) : list cell :=
  merge_sort key_le
    (remove_dups ((at_col on <$> rows left) ++ (at_col on <$> rows right))).

(** [pd.merge(left, right, on=on, how='outer')] for two frames that
    share no column but the key (the scripts drop every other shared
    column from [right] first, so that no [_x]/[_y] suffix is ever
    made).  A frame without the key column is a [KeyError].  The result
    has the columns of [left], then those of [right] but the key, and
    for every key of either side, in sorted order, the rows of
    [merge_key]. *)
Definition merge (left right : DataFrame) (on : string)
    : result DataFrame :=
  if decide (on ∈ columns left ∧ on ∈ columns right) then
    Ok (mkDataFrame
          (columns left ++ filter (λ c, c ≠ on) (columns right))
          (k ← merge_keys on left right; merge_key on left right k))
  else Raise KeyError.

End pd.

(** ** Pages and the web *)

(** What the scripts look up in the markup of a page: every anchor in
    document order with its [href] attribute, if it has one, and the first
    [<table>]: absent ([None]), present but rejected by [pd.read_html]
    ([Some None]), or read as a frame.  The frame is the one
    [pd.read_html] built; what this says of its cells is
    [read_html_frame] below. *)
Record Soup : Type := mkSoup {
  a_tags : list (option string);
  first_table : option (option DataFrame)
}.

(** [s1 in s2] for Python strings; [re.search] of a pattern without
    metacharacters is this test. *)
Definition contains (s1 s2 : string) : bool :=
  match String.index 0 s1 s2 with Some _ => true | None => false end.

(** [soup.find_all("a", attrs={"href": re.compile(...)})]: the anchors
    that have an [href] the pattern finds a match in, in document order;
    [search] is the compiled pattern's [search]. *)
Definition find_all_a (search : string → bool) (soup : Soup)
    : list (option string) :=
  filter (λ item : option string,
            match item with Some href => search href | None => false end
              = true)
         (a_tags soup).

(** What the bracket methods look up in one game block: the texts of its
    descendants of class [team-name|participant-name], those of class
    [score|team-score], and the text of the nearest element before it of
    class [round-name|bracket-round-title], resp.
    [region-name|bracket-region-title], if there is one; every text
    stripped ([get_text(strip=True)]). *)
Record GameBlock : Type := mkGameBlock {
  team_names : list string;
  scores : list string;
  round_info : option string;
  region_info : option string
}.

(** ... and in one team element: the text of its first descendant of
    class [seed] and of class [team-name|participant-name], if any. *)
Record TeamSeedElement : Type := mkTeamSeedElement {
  seed_text : option string;
  team_name_text : option string
}.

(** A bracket page: its elements of class [game-pod|game-details] and
    those of class [team-item|bracket-team], in document order. *)
Record BracketSoup : Type := mkBracketSoup {
  game_blocks : list GameBlock;
  team_seed_elements : list TeamSeedElement
}.

(** [pd.DataFrame(records)] for a list of dicts that all have the keys
    [keys], in this order: the empty frame when there is no record. *)
Definition DataFrame_of_records (keys : list string) (records : list Row)
    : DataFrame :=
  match records with
  | [] => pd.empty
  | _ => mkDataFrame keys records
  end.

(** ** The first scripts: [data_collection.py] and [src/data_collection.py]

    Both start with the same four functions; the second adds
    [get_full_data], the table of statistic ids and the run itself. *)

(** [[col for col in df.columns if col in master_df.columns and col !=
    'Team']], the list both merge loops drop from the incoming frame. *)
Definition dup_cols (master_df df : DataFrame) : list string :=
  filter (λ col, col ∈ columns master_df ∧ col ≠ "Team") (columns df).

Module Legacy.
Section Legacy.

(** [requests.get]: the page at a URL, [None] when the request raises. *)
Variable web : string → option Soup.

(** [get_data(url)]: nothing is caught: a page without a table fails on
    [table.prettify()], a table [read_html] rejects fails there. *)
Definition get_data (url : string) : result DataFrame :=
  match web url with
  | None => Raise RequestException
  | Some text =>
      match first_table text with
      | None => Raise AttributeError
      | Some None => Raise ValueError
      | Some (Some df) => Ok df
      end
  end.

(** [get_subsequent_links(text, base_url)]: every anchor whose [href]
    contains [stats], made absolute, in document order. *)
Definition get_subsequent_links (text : Soup) (base_url : string)
    : list string :=
  let alltags := find_all_a (contains "stats") text in
  foldl (λ links item,
           match item with
           | Some href =>
               if decide (href ≠ "") then links ++ [base_url +:+ href]
               else links
           | None => links
           end) [] alltags.

(** [get_text(url)] *)
Definition get_text (url : string) : result Soup :=
  match web url with
  | None => Raise RequestException
  | Some text => Ok text
  end.

(** [get_df(url)]: the pages linked from [url] but the last link, each
    read with [get_data], concatenated. *)
Definition get_df (url : string) : result DataFrame :=
  text ← get_text url;
  let link_list := get_subsequent_links text "https://www.ncaa.com" in
  df_list ← for_each (λ df_list link, df ← get_data link;
                                       Ok (df_list ++ [df]))
                     [] (removelast link_list);
  pd.concat df_list.

(** The module-level list of statistic ids. *)
Definition all_stats : list string :=
  [ "474"; "216"; "1284"; "214"; "1288"; "1285"; "148"; "149"; "286";
    "638"; "150"; "633"; "151"; "859"; "857"; "932"; "146"; "147";
    "145"; "215"; "625"; "152"; "518"; "153"; "519"; "931"; "217"; "168" ].

(** The body of the second loop of [get_full_data]: [master_df] is
    [None] until the first frame is taken. *)
Definition merge_step (master_df : option DataFrame) (df : DataFrame)
    : result (option DataFrame) :=
  df ← pd.set_astype_str "Team" df;
  match master_df with
  | None => Ok (Some df)
  | Some master_df =>
      df ← pd.drop (dup_cols master_df df) pd.errors_raise df;
      master_df ← pd.merge master_df df "Team";
      Ok (Some master_df)
  end.

(** The second loop of [get_full_data], over the frames collected. *)
Definition merge_all (all_dfs : list DataFrame)
    : result (option DataFrame) :=
  for_each merge_step None all_dfs.

(** The body of the first loop of [get_full_data]. *)
Definition collect_stat (all_dfs : list DataFrame) (num : string)
    : result (list DataFrame) :=
  let link :=
    "https://www.ncaa.com/stats/basketball-men/d1/current/team/" +:+ num in
  df ← get_df link;
  df ← pd.set_astype_str "Team" df;
  Ok (all_dfs ++ [df]).

(** [get_full_data(urls)]: both loops; the first runs over the global
    [all_stats]. *)
Definition get_full_data (urls : list string) : result (option DataFrame) :=
  all_dfs ← for_each collect_stat [] all_stats;
  merge_all all_dfs.

(** [master_df.fillna(0, inplace=True)] at the end of the file; on
    [None] the attribute lookup fails. *)
Definition fill_master (master_df : option DataFrame) : result DataFrame :=
  match master_df with
  | None => Raise AttributeError
  | Some master_df => Ok (pd.fillna (CNum 0) master_df)
  end.

(** The run at the end of the file:
    [master_df = get_full_data(all_stats)], then the fill. *)
Definition master_df : result DataFrame :=
  master_df ← get_full_data all_stats;
  fill_master master_df.

End Legacy.
End Legacy.

(** ** [src/data_collection_updated.py]: class [NCAADataCollector] *)

Module NCAADataCollector.
Section NCAADataCollector.

(** [self.session.get] followed by [raise_for_status]: the page at a
    URL, [None] when either raises. *)
Variable web : string → option Soup.

(** [re.compile(pattern)]: [None] when the text is no regular expression
    and [re.error] is raised, else the [search] of the compiled pattern,
    as the test whether it finds a match. *)
Variable re_compile : string → option (string → bool).

(** [self.base_url] *)
Definition base_url : string := "https://www.ncaa.com".

(** [_get_soup(url)]: the exception is caught and [None] returned. *)
Definition _get_soup (url : string) : option Soup := web url.

(** [get_team_stats_data(url)] *)
Definition get_team_stats_data (url : string) : option DataFrame :=
  match _get_soup url with
  | Some soup =>
      match first_table soup with
      | Some table =>
          match table with
          | Some df => Some df
          | None => None
          end
      | None => None
      end
  | None => None
  end.

(** The first loop of [_get_subsequent_links]: the [href]s kept, for the
    compiled pattern's [search]. *)
Definition links (search : string → bool) (soup : Soup)
    (base_url_prefix : string) : list string :=
  let all_a_tags := find_all_a search soup in
  foldl (λ links item,
           match item with
           | Some href =>
               if bool_decide (href ≠ "") && String.prefix base_url_prefix href
               then links ++ [href] else links
           | None => links
           end) [] all_a_tags.

(** Its second loop: [unique_links] and [seen] after the links
    [links]. *)
Definition unique_loop (links : list string)
    : list string * gset string :=
  foldl (λ '(unique_links, seen) link,
           if decide (link ∈ seen) then (unique_links, seen)
           else (unique_links ++ [link], seen ∪ {[ link ]}))
        ([], ∅) links.

(** [_get_subsequent_links(soup, base_url_prefix)]: the pattern is
    built from the prefix as it stands, nothing is escaped, and compiled
    before anything else; nothing catches its [re.error]. *)
Definition _get_subsequent_links (soup : Soup) (base_url_prefix : string)
    : result (list string) :=
  match re_compile ("^" +:+ base_url_prefix +:+ ".*stats") with
  | None => Raise ReError
  | Some search =>
      let '(unique_links, seen) :=
        unique_loop (links search soup base_url_prefix) in
      Ok unique_links
  end.

(** [initial_url] in the loop of [get_full_stat_dataframe] *)
Definition initial_url (stat_id : string) : string :=
  base_url +:+ "/stats/basketball-men/d1/current/team/" +:+ stat_id.

(** The pages of one statistic: the links found on the first page, with
    [initial_url] put in front when it is not among them. *)
Definition subsequent_links (initial_soup : Soup) (stat_id : string)
    : result (list string) :=
  subsequent_links ←
    _get_subsequent_links initial_soup
      (base_url +:+ "/stats/basketball-men/d1/current/team/" +:+ stat_id
         +:+ "/");
  if decide (initial_url stat_id ∈ subsequent_links) then Ok subsequent_links
  else Ok (initial_url stat_id :: subsequent_links).

(** The inner loop: the frame of every page that gives one. *)
Definition df_list_for_stat (links : list string) : list DataFrame :=
  foldl (λ df_list link,
           match get_team_stats_data link with
           | Some df => df_list ++ [df]
           | None => df_list
           end) [] links.

(** The table of one statistic: the frames of its pages concatenated,
    the key column made strings. *)
Definition combined_df_for_stat (df_list : list DataFrame)
    : result DataFrame :=
  combined_df_for_stat ← pd.concat df_list;
  pd.set_astype_str "Team" combined_df_for_stat.

(** The body of the loop over [stat_ids]. *)
Definition collect_stat (all_dfs : list DataFrame) (stat_id : string)
    : result (list DataFrame) :=
  match _get_soup (initial_url stat_id) with
  | None => Ok all_dfs
  | Some initial_soup =>
      subsequent_links ← subsequent_links initial_soup stat_id;
      let df_list := df_list_for_stat subsequent_links in
      if decide (df_list ≠ []) then
        combined ← combined_df_for_stat df_list;
        Ok (all_dfs ++ [combined])
      else Ok all_dfs
  end.

(** The body of the loop that merges [all_dfs[1:]] into [master_df]. *)
Definition merge_step (master_df df : DataFrame) : result DataFrame :=
  df_to_merge ← pd.drop (dup_cols master_df df) pd.errors_ignore df;
  pd.merge master_df df_to_merge "Team".

(** The second half of [get_full_stat_dataframe], from
    [if not all_dfs] on. *)
Definition merge_all (all_dfs : list DataFrame) : result DataFrame :=
  match all_dfs with
  | [] => Ok pd.empty
  | first :: rest =>
      master_df ← for_each merge_step first rest;
      Ok (pd.fillna (CNum 0) master_df)
  end.

(** [get_full_stat_dataframe(stat_ids)] *)
Definition get_full_stat_dataframe (stat_ids : list string)
    : result DataFrame :=
  all_dfs ← for_each collect_stat [] stat_ids;
  merge_all all_dfs.

(** [_get_soup] on a bracket URL, as the bracket methods read the page:
    [None] when the request raises. *)
Variable bracket_page : string → option BracketSoup.

(** Python's [int(s)] on a string: [None] when it raises [ValueError]. *)
Variable py_int : string → option Z.

(** [bracket_url] in [get_tournament_bracket_data] *)
Definition bracket_url (year : Z) : string :=
  base_url +:+ "/brackets/basketball-men/d1/" +:+ py_str (CNum year)
    +:+ "/full-bracket".

(** The columns of the frames the bracket methods build. *)
Definition game_columns : list string :=
  ["Year"; "Round"; "Region"; "Team1"; "Team2"; "Score1"; "Score2";
   "Winner"; "Loser"].

Definition seed_columns : list string := ["Year"; "Team"; "Seed"].

(** The body of the [try] in the loop over the game blocks: the dict that
    is appended, [None] when the block has not two names and two scores
    or a score is no integer (the exception is caught and the block
    skipped). *)
Definition game_record (year : Z) (block : GameBlock) : option Row :=
  match team_names block, scores block with
  | [team1; team2], [s1; s2] =>
      match py_int s1, py_int s2 with
      | Some score1, Some score2 =>
          let winner := if (score1 >? score2)%Z then team1 else team2 in
          let loser := if (score1 >? score2)%Z then team2 else team1 in
          let round_name := default "Unknown Round" (round_info block) in
          let region_name := default "Unknown Region" (region_info block) in
          Some (list_to_map
                  [ ("Year", CNum year); ("Round", CStr round_name);
                    ("Region", CStr region_name);
                    ("Team1", CStr team1); ("Team2", CStr team2);
                    ("Score1", CNum score1); ("Score2", CNum score2);
                    ("Winner", CStr winner); ("Loser", CStr loser) ])
      | _, _ => None
      end
  | _, _ => None
  end.

(** [tournament_data] after the loop over the game blocks. *)
Definition tournament_data (year : Z) (blocks : list GameBlock) : list Row :=
  foldl (λ tournament_data block,
           match game_record year block with
           | Some record => tournament_data ++ [record]
           | None => tournament_data
           end) [] blocks.

(** [seed_data] after the loop of [_get_tournament_seeds_and_teams]. *)
Definition seed_data (year : Z) (elements : list TeamSeedElement)
    : list Row :=
  foldl (λ seed_data element,
           match seed_text element, team_name_text element with
           | Some seed, Some team_name =>
               if bool_decide (seed ≠ "") && bool_decide (team_name ≠ "")
               then seed_data ++
                      [list_to_map [ ("Year", CNum year);
                                     ("Team", CStr team_name);
                                     ("Seed", CStr seed) ]]
               else seed_data
           | _, _ => seed_data
           end) [] elements.

(** [_get_tournament_seeds_and_teams(soup, year)] *)
Definition _get_tournament_seeds_and_teams (soup : BracketSoup) (year : Z)
    : DataFrame :=
  DataFrame_of_records seed_columns
    (seed_data year (team_seed_elements soup)).

(** [get_tournament_bracket_data(year)]: [None] when the page cannot be
    fetched. *)
Definition get_tournament_bracket_data (year : Z) : option DataFrame :=
  match bracket_page (bracket_url year) with
  | None => None
  | Some soup =>
      if decide (game_blocks soup = []) then
        Some (_get_tournament_seeds_and_teams soup year)
      else
        let tournament_data := tournament_data year (game_blocks soup) in
        if decide (tournament_data = []) then
          Some (_get_tournament_seeds_and_teams soup year)
        else Some (DataFrame_of_records game_columns tournament_data)
  end.

End NCAADataCollector.
End NCAADataCollector.

(** * Notions used in the statements *)

(** The frame that is merged in: [df] without the columns the master
    frame has already. *)
Definition df_to_merge (master_df df : DataFrame) : DataFrame :=
  mkDataFrame (filter (λ c, c ∉ dup_cols master_df df) (columns df))
              (pd.drop_row (dup_cols master_df df) <$> rows df).

(** The frame one step of the loop makes of the master frame and the next
    frame. *)
Definition merged (master_df df : DataFrame) : DataFrame :=
  mkDataFrame
    (columns master_df
       ++ filter (λ c, c ≠ "Team") (columns (df_to_merge master_df df)))
    (k ← pd.merge_keys "Team" master_df (df_to_merge master_df df);
     pd.merge_key "Team" master_df (df_to_merge master_df df) k).

(** The master frame of a run: what [get_full_stat_dataframe] returns for
    the collected frames, which is also what the first script's
    [get_full_data] and the [fillna] after it leave in [master_df]. *)
Definition master_of (all_dfs : list DataFrame) (master_df : DataFrame)
    : Prop :=
  NCAADataCollector.merge_all all_dfs = Ok master_df ∧
  Legacy.merge_all all_dfs ≫= Legacy.fill_master = Ok master_df.

(** Before the fill: the row holds, in column [c], the value of a row of
    [A] of the same team, or the missing value when [A] has no such
    team. *)
Definition won_by (A : DataFrame) (c : string) (m : Row) : Prop :=
  (∃ a, a ∈ rows A ∧ team a = team m ∧ m !! c = a !! c)
  ∨ ((∀ a, a ∈ rows A → team a ≠ team m) ∧ m !! c = Some CNaN).

(** After the fill: the value of [A]'s row of the same team, filled, or
    zero when [A] has no such team. *)
Definition first_seen_value (A : DataFrame) (c : string)
    (master_df : DataFrame) : Prop :=
  ∀ m, m ∈ rows master_df →
    (∃ a, a ∈ rows A ∧ team a = team m ∧
          m !! c = pd.fill (CNum 0) <$> a !! c)
    ∨ ((∀ a, a ∈ rows A → team a ≠ team m) ∧ m !! c = Some (CNum 0)).

(** ... and the column is there, once, with every row of [A] in it: each
    row of [A] has a row of its team in the master frame that holds its
    value, filled. *)
Definition first_seen_kept (A : DataFrame) (c : string)
    (master_df : DataFrame) : Prop :=
  c ∈ columns master_df ∧ NoDup (columns master_df) ∧
  ∀ a, a ∈ rows A →
    ∃ m, m ∈ rows master_df ∧ team m = team a ∧
         m !! c = pd.fill (CNum 0) <$> a !! c.

(** The CONCAT step in the specification's words: the rows of the pages
    whose column set equals that of the first page, in order; the rows of
    the other pages are dropped. *)
Definition spec_concat_rows (df_list : list DataFrame) : list Row :=
  match df_list with
  | [] => []
  | first :: _ =>
      df ← df_list;
      if decide ((list_to_set (columns df) : gset string)
                 = list_to_set (columns first))
      then rows df else []
  end.











(** The pattern [_get_subsequent_links] compiles for a statistic. *)
Definition stat_pattern (stat_id : string) : string :=
  "^" +:+ (NCAADataCollector.base_url
             +:+ "/stats/basketball-men/d1/current/team/" +:+ stat_id
             +:+ "/") +:+ ".*stats".

(** A statistic whose first page is fetched and whose pattern is no
    regular expression. *)
Definition bad_pattern (web : string → option Soup)
    (re_compile : string → option (string → bool)) (stat_id : string)
    : Prop :=
  is_Some (web (NCAADataCollector.initial_url stat_id)) ∧
  re_compile (stat_pattern stat_id) = None.

(** A list without its repetitions: of every element the first
    occurrence, in order. *)
Fixpoint first_occurrences (l : list string) : list string :=
  match l with
  | [] => []
  | x :: l' => x :: filter (λ y, y ≠ x) (first_occurrences l')
  end.

(** How many rows of a frame have the team [k]. *)
Definition team_count (k : cell) (df : DataFrame) : nat :=
  length (filter (λ r : Row, team r = k) (rows df)).

(** When a game block gives no row. *)
Definition malformed_block (py_int : string → option Z) (block : GameBlock)
    : Prop :=
  length (team_names block) ≠ 2 ∨ length (scores block) ≠ 2 ∨
  ∃ s, s ∈ scores block ∧ py_int s = None.

(** ** Checking the frame predicates by computation *)

Definition check_frame (df : DataFrame) : bool :=
  bool_decide (NoDup (columns df))
  && forallb (λ r : Row,
                bool_decide (dom r = (list_to_set (columns df) : gset string)))
             (rows df).

Definition check_table (df : DataFrame) : bool :=
  check_frame df
  && bool_decide ("Team" ∈ columns df)
  && forallb (λ r : Row,
                match r !! "Team" with Some (CStr _) => true | _ => false end)
             (rows df).


Ltac by_compute := apply (bool_decide_unpack _); vm_compute; exact I.

Ltac by_check sound :=
  repeat match goal with |- Forall _ _ => constructor end;
  apply sound; vm_compute; reflexivity.

(** * Example inputs *)

Definition row_of (l : list (string * cell)) : Row := list_to_map l.

(** Two categories that both have a [Pts] column. *)
Definition ex_A : DataFrame :=
  mkDataFrame ["Team"; "Pts"]
    [ row_of [("Team", CStr "Duke"); ("Pts", CNum 80)];
      row_of [("Team", CStr "UNC"); ("Pts", CNum 75)] ].

Definition ex_B : DataFrame :=
  mkDataFrame ["Team"; "Pts"; "Reb"]
    [ row_of [("Team", CStr "Duke"); ("Pts", CNum 61); ("Reb", CNum 30)];
      row_of [("Team", CStr "Kansas"); ("Pts", CNum 58); ("Reb", CNum 28)] ].

(** A category that lists a team twice. *)
Definition ex_dup : DataFrame :=
  mkDataFrame ["Team"; "Pts"]
    [ row_of [("Team", CStr "Duke"); ("Pts", CNum 80)];
      row_of [("Team", CStr "Duke"); ("Pts", CNum 81)] ].


(** Two pages of one category, the second with another column set. *)
Definition ex_page1 : DataFrame :=
  mkDataFrame ["Team"; "Rank"; "Value"]
    [ row_of [("Team", CStr "Duke"); ("Rank", CNum 1); ("Value", CNum 80)] ].

Definition ex_page2 : DataFrame :=
  mkDataFrame ["Team"; "Rank"; "Other"]
    [ row_of [("Team", CStr "UNC"); ("Rank", CNum 2); ("Other", CNum 7)] ].

Definition ex_start : string :=
  "https://www.ncaa.com/stats/basketball-men/d1/current/team/474".

Definition ex_href (page : string) : string :=
  "/stats/basketball-men/d1/current/team/474/" +:+ page.

Definition ex_url (page : string) : string :=
  "https://www.ncaa.com" +:+ ex_href page.

(** A first page whose pagination shows page 2 twice, then page 3,
    between an anchor without [href] and one to another part of the
    site. *)
Definition ex_soup_dupe : Soup :=
  mkSoup [ None; Some (ex_href "p2"); Some (ex_href "p2");
           Some (ex_href "p3"); Some "/about" ]
         (Some (Some ex_A)).

(** A site on which the first page links to pages 2, 3 and 4. *)
Definition ex_soup_three : Soup :=
  mkSoup [ Some (ex_href "p2"); Some (ex_href "p3"); Some (ex_href "p4") ]
         (Some (Some ex_A)).

(** ... and all of them can be read, *)
Definition ex_web_ok (url : string) : option Soup :=
  if String.eqb url ex_start then Some ex_soup_three
  else if String.eqb url (ex_url "p2") then Some (mkSoup [] (Some (Some ex_A)))
  else if String.eqb url (ex_url "p3") then Some (mkSoup [] (Some (Some ex_A)))
  else None.

(** ... page 3 cannot be fetched, *)
Definition ex_web_fetch_fails (url : string) : option Soup :=
  if String.eqb url ex_start then Some ex_soup_three
  else if String.eqb url (ex_url "p2") then Some (mkSoup [] (Some (Some ex_A)))
  else None.

(** ... page 3 has no table. *)
Definition ex_web_no_table (url : string) : option Soup :=
  if String.eqb url ex_start then Some ex_soup_three
  else if String.eqb url (ex_url "p2") then Some (mkSoup [] (Some (Some ex_A)))
  else if String.eqb url (ex_url "p3") then Some (mkSoup [] None)
  else None.

(** A statistic of one page: a table and no pagination link. *)
Definition ex_web_single (url : string) : option Soup :=
  if String.eqb url ex_start then Some (mkSoup [Some "/about"] (Some (Some ex_A)))
  else None.

(** The same site with a page 4. *)
Definition ex_web_p4 (url : string) : option Soup :=
  if String.eqb url (ex_url "p4") then Some (mkSoup [] (Some (Some ex_B)))
  else ex_web_ok url.

(** A category in which Duke is listed twice, once more. *)
Definition ex_dup2 : DataFrame :=
  mkDataFrame ["Team"; "Reb"]
    [ row_of [("Team", CStr "Duke"); ("Reb", CNum 30)];
      row_of [("Team", CStr "Duke"); ("Reb", CNum 31)] ].



(** The characters of the prefixes that are regular expressions in the
    examples: letters, digits and [- . / : _]. *)
Definition plain_char (a : Ascii.ascii) : bool :=
  let n := Ascii.nat_of_ascii a in
  (Nat.leb 45 n && Nat.leb n 58)
  || (Nat.leb 65 n && Nat.leb n 90)
  || Nat.eqb n 95
  || (Nat.leb 97 n && Nat.leb n 122).

Definition line_break (a : Ascii.ascii) : bool :=
  Nat.eqb (Ascii.nat_of_ascii a) 10.

(** The text left when the prefix matches at the start of the text. *)
Fixpoint match_prefix (p text : string) : option string :=
  match p, text with
  | EmptyString, _ => Some text
  | String _ _, EmptyString => None
  | String c p', String d text' =>
      if (Nat.eqb (Ascii.nat_of_ascii c) 46 && negb (line_break d))
         || Ascii.eqb c d
      then match_prefix p' text' else None
  end.

Fixpoint first_line (text : string) : string :=
  match text with
  | EmptyString => EmptyString
  | String d text' =>
      if line_break d then EmptyString else String d (first_line text')
  end.

(** [re.compile] on the two kinds of pattern that occur in the examples,
    both of the shape that [_get_subsequent_links] builds, [^] followed
    by a prefix and [.*stats].  When the prefix is made of the characters
    above, only its dots are special: the pattern finds a match in a text
    that starts with the prefix, a dot standing for any character but a
    line break, and has [stats] after it on the same line.  The other
    prefixes of the examples have a parenthesis that is not closed, which
    [re.compile] rejects; the function is not meant for other texts. *)
Definition ex_re_compile (pattern : string) : option (string → bool) :=
  let prefix := String.substring 1 (String.length pattern - 8) pattern in
  if String.eqb pattern ("^" +:+ prefix +:+ ".*stats")
     && forallb plain_char (String.list_ascii_of_string prefix)
  then Some (λ text,
               match match_prefix prefix text with
               | Some rest => contains "stats" (first_line rest)
               | None => false
               end)
  else None.

(** A site that answers every request with the same page: a table and
    no anchor. *)
Definition ex_web_any (url : string) : option Soup :=
  Some (mkSoup [] (Some (Some ex_A))).

(** A site on which the first page of statistic 999 has no table. *)
Definition ex_web_bare (url : string) : option Soup :=
  if String.eqb url
       "https://www.ncaa.com/stats/basketball-men/d1/current/team/999"
  then Some (mkSoup [] None)
  else ex_web_single url.


(** [int] on plain decimal numerals. *)
Definition ex_int (s : string) : option Z :=
  Z.of_int <$> NilZero.int_of_string s.

(** A bracket page with a game, a block with one team only and a game
    that ended level, and with two team elements, one without a seed. *)
Definition ex_game : GameBlock :=
  mkGameBlock ["Duke"; "UNC"] ["80"; "75"] (Some "First Round") None.

Definition ex_half_block : GameBlock :=
  mkGameBlock ["Kansas"] ["70"] None None.

Definition ex_level_game : GameBlock :=
  mkGameBlock ["Gonzaga"; "Baylor"] ["60"; "60"] None (Some "West").

Definition ex_elements : list TeamSeedElement :=
  [ mkTeamSeedElement (Some "1") (Some "Gonzaga");
    mkTeamSeedElement None (Some "Baylor") ].

Definition ex_bracket_url : string :=
  "https://www.ncaa.com/brackets/basketball-men/d1/2024/full-bracket".

Definition ex_bracket (url : string) : option BracketSoup :=
  if String.eqb url ex_bracket_url
  then Some (mkBracketSoup [ex_game; ex_half_block; ex_level_game] ex_elements)
  else None.

Definition ex_bracket_short (url : string) : option BracketSoup :=
  if String.eqb url ex_bracket_url
  then Some (mkBracketSoup [ex_game; ex_level_game] ex_elements)
  else None.

Definition ex_level_row : Row :=
  row_of [ ("Year", CNum 2024); ("Round", CStr "Unknown Round");
           ("Region", CStr "West");
           ("Team1", CStr "Gonzaga"); ("Team2", CStr "Baylor");
           ("Score1", CNum 60); ("Score2", CNum 60);
           ("Winner", CStr "Baylor"); ("Loser", CStr "Gonzaga") ].

(** * Properties *)

(** ** Rows *)

Lemma lookup_reindex (cols : list string) (r : Row) (c : string) :
  pd.reindex cols r !! c
  = if decide (c ∈ cols) then Some (at_col c r) else None.
Proof.
  unfold pd.reindex. induction cols as [|c' cols IH].
  - rewrite fmap_nil, list_to_map_nil, lookup_empty.
    case_decide; [set_solver|done].
  - rewrite fmap_cons, list_to_map_cons, lookup_insert, IH.
    destruct (decide (c ∈ cols)), (decide (c ∈ c' :: cols)),
      (decide (c' = c)); set_solver.
Qed.

Lemma lookup_nan_row (cols : list string) (c : string) :
  pd.nan_row cols !! c = if decide (c ∈ cols) then Some CNaN else None.
Proof.
  unfold pd.nan_row. induction cols as [|c' cols IH].
  - rewrite fmap_nil, list_to_map_nil, lookup_empty.
    case_decide; [set_solver|done].
  - rewrite fmap_cons, list_to_map_cons, lookup_insert, IH.
    destruct (decide (c ∈ cols)), (decide (c ∈ c' :: cols)),
      (decide (c' = c)); set_solver.
Qed.

Lemma lookup_drop_row (labels : list string) (r : Row) (c : string) :
  pd.drop_row labels r !! c = if decide (c ∈ labels) then None else r !! c.
Proof.
  unfold pd.drop_row. rewrite map_lookup_filter. destruct (r !! c) as [v|] eqn:Hr; simpl.
  - destruct (decide (c ∈ labels)).
    + by rewrite option_guard_False by (simpl; tauto).
    + by rewrite option_guard_True.
  - by destruct (decide (c ∈ labels)).
Qed.

Lemma at_col_lookup (c : string) (r : Row) (v : cell) :
  r !! c = Some v → at_col c r = v.
Proof. unfold at_col. by intros ->. Qed.

Lemma at_col_union_l (c : string) (a b : Row) :
  is_Some (a !! c) → at_col c (a ∪ b) = at_col c a.
Proof. intros H. unfold at_col. by rewrite lookup_union_l'. Qed.

Lemma reindex_id (cols : list string) (r : Row) :
  row_over cols r → pd.reindex cols r = r.
Proof.
  intros Hr. apply map_eq. intros c. rewrite lookup_reindex.
  destruct (decide (c ∈ cols)) as [Hc|Hc].
  - apply Hr in Hc as [v Hv]. by rewrite (at_col_lookup _ _ _ Hv).
  - symmetry. apply eq_None_not_Some. intros Hs. by apply Hc, Hr.
Qed.

Lemma row_over_reindex (cols : list string) (r : Row) :
  row_over cols (pd.reindex cols r).
Proof.
  intros c. rewrite lookup_reindex. destruct (decide (c ∈ cols)).
  - split; [done|]. by eexists.
  - split; [|done]. by intros [? ?].
Qed.

(** ** The column index of a concatenation *)

Lemma elem_of_union_index (acc new : list string) (c : string) :
  c ∈ pd.union_index acc new ↔ c ∈ acc ∨ c ∈ new.
Proof.
  unfold pd.union_index. revert acc.
  induction new as [|x new IH]; intros acc; simpl.
  - set_solver.
  - rewrite IH. destruct (decide (x ∈ acc)); set_solver.
Qed.

Lemma NoDup_union_index (acc new : list string) :
  NoDup acc → NoDup (pd.union_index acc new).
Proof.
  unfold pd.union_index. revert acc.
  induction new as [|x new IH]; intros acc Hacc; simpl; [done|].
  apply IH. destruct (decide (x ∈ acc)); [done|].
  apply NoDup_app. split_and!; [done| |apply NoDup_singleton].
  intros y Hy ->%list_elem_of_singleton. done.
Qed.

Lemma union_index_subseteq (acc new : list string) :
  new ⊆ acc → pd.union_index acc new = acc.
Proof.
  unfold pd.union_index. revert acc.
  induction new as [|x new IH]; intros acc Hsub; simpl; [done|].
  rewrite decide_True by set_solver. apply IH. set_solver.
Qed.

Lemma union_index_nil (new : list string) :
  NoDup new → pd.union_index [] new = new.
Proof.
  intros Hnd. unfold pd.union_index.
  assert (∀ acc, NoDup (acc ++ new) →
    foldl (λ acc c, if decide (c ∈ acc) then acc else acc ++ [c]) acc new
    = acc ++ new) as H.
  { clear Hnd. induction new as [|x new IH]; intros acc Hnd; simpl.
    - by rewrite app_nil_r.
    - apply NoDup_app in Hnd as (Hacc & Hdisj & Hnew).
      rewrite decide_False by (intros Hx; eapply Hdisj; [done|set_solver]).
      rewrite IH; [by rewrite <- app_assoc|].
      apply NoDup_cons in Hnew as [Hx Hnew].
      apply NoDup_app. split_and!; [|set_solver|done].
      apply NoDup_app. split_and!; [done| |apply NoDup_singleton].
      intros y Hy ->%list_elem_of_singleton. eapply Hdisj; [done|set_solver]. }
  by apply (H []).
Qed.

Lemma elem_of_concat_columns (dfs : list DataFrame) (c : string) :
  c ∈ pd.concat_columns dfs ↔ ∃ df, df ∈ dfs ∧ c ∈ columns df.
Proof.
  unfold pd.concat_columns.
  assert (∀ acc, c ∈ foldl (λ acc df, pd.union_index acc (columns df)) acc dfs
                 ↔ c ∈ acc ∨ ∃ df, df ∈ dfs ∧ c ∈ columns df) as H.
  { induction dfs as [|d dfs IH]; intros acc; simpl.
    - set_solver.
    - rewrite IH, elem_of_union_index. set_solver. }
  rewrite H. set_solver.
Qed.

Lemma NoDup_concat_columns (dfs : list DataFrame) :
  NoDup (pd.concat_columns dfs).
Proof.
  unfold pd.concat_columns.
  assert (∀ acc, NoDup acc →
    NoDup (foldl (λ acc df, pd.union_index acc (columns df)) acc dfs)) as H.
  { induction dfs as [|d dfs IH]; intros acc Hacc; simpl; [done|].
    by apply IH, NoDup_union_index. }
  apply H, NoDup_nil_2.
Qed.

(** When no later page brings a new label, the index of the first page is
    the index of the concatenation. *)
Lemma concat_columns_same (first : DataFrame) (rest : list DataFrame) :
  NoDup (columns first) →
  Forall (λ df, columns df ⊆ columns first) rest →
  pd.concat_columns (first :: rest) = columns first.
Proof.
  intros Hnd Hrest. unfold pd.concat_columns. simpl.
  rewrite union_index_nil by done.
  induction Hrest as [|d rest Hd Hrest IH]; simpl; [done|].
  by rewrite union_index_subseteq.
Qed.

Lemma concat_Ok (dfs : list DataFrame) :
  dfs ≠ [] →
  pd.concat dfs
  = Ok (mkDataFrame (pd.concat_columns dfs)
          (df ← dfs; pd.reindex (pd.concat_columns dfs) <$> rows df)).
Proof. by destruct dfs. Qed.

(** ** The rows of an outer merge *)

Lemma filter_eq_nil {A} (P : A → Prop) `{∀ x, Decision (P x)} (l : list A) :
  filter P l = [] ↔ ∀ x, x ∈ l → ¬ P x.
Proof.
  split.
  - intros Hnil x Hx HP. by eapply filter_nil_not_elem_of.
  - intros Hall. induction l as [|x l IH]; [done|].
    rewrite filter_cons_False by (apply Hall; set_solver).
    apply IH. intros y Hy. apply Hall. set_solver.
Qed.

Lemma elem_of_merge_key (on : string) (left right : DataFrame) (k : cell)
    (m : Row) :
  m ∈ pd.merge_key on left right k ↔
    (∃ a b, a ∈ rows left ∧ b ∈ rows right ∧ at_col on a = k ∧
            at_col on b = k ∧ m = a ∪ b)
    ∨ (∃ a, a ∈ rows left ∧ at_col on a = k ∧
            (∀ b, b ∈ rows right → at_col on b ≠ k) ∧
            m = a ∪ pd.nan_row (columns right))
    ∨ (∃ b, b ∈ rows right ∧ at_col on b = k ∧
            (∀ a, a ∈ rows left → at_col on a ≠ k) ∧
            m = b ∪ pd.nan_row (columns left)).
Proof.
  unfold pd.merge_key.
  destruct (filter (λ a : Row, at_col on a = k) (rows left))
    as [|a0 ls] eqn:Hls.
  - rewrite filter_eq_nil in Hls. rewrite list_elem_of_fmap. split.
    + intros (b & -> & [Hb Hin]%list_elem_of_filter).
      right; right. exists b. split_and!; try done.
    + intros [(a & b & Ha & _ & Hk & _)|[(a & Ha & Hk & _)|(b & Hb & Hk & _ & ->)]].
      * by destruct (Hls a).
      * by destruct (Hls a).
      * exists b. split; [done|]. by apply list_elem_of_filter.
  - destruct (filter (λ b : Row, at_col on b = k) (rows right))
      as [|b0 rs] eqn:Hrs.
    + rewrite filter_eq_nil in Hrs. rewrite <- Hls.
      rewrite list_elem_of_fmap. split.
      * intros (a & -> & [Ha Hin]%list_elem_of_filter).
        right; left. exists a. split_and!; try done.
      * intros [(a & b & _ & Hb & _ & Hk & _)|[(a & Ha & Hk & _ & ->)|(b & Hb & Hk & _)]].
        -- by destruct (Hrs b).
        -- exists a. split; [done|]. by apply list_elem_of_filter.
        -- by destruct (Hrs b).
    + rewrite <- Hls, <- Hrs. rewrite list_elem_of_bind. split.
      * intros (a & (b & Hm & Hb)%list_elem_of_bind & Ha).
        apply list_elem_of_singleton in Hm as ->.
        apply list_elem_of_filter in Ha as [Hka Ha].
        apply list_elem_of_filter in Hb as [Hkb Hb].
        left. by exists a, b.
      * intros [(a & b & Ha & Hb & Hka & Hkb & ->)|[(a & Ha & Hk & Hno & _)|(b & Hb & Hk & Hno & _)]].
        -- exists a. split; [|by apply list_elem_of_filter].
           apply list_elem_of_bind. exists b.
           split; [set_solver|by apply list_elem_of_filter].
        -- assert (b0 ∈ filter (λ b : Row, at_col on b = k) (rows right))
             as [? ?]%list_elem_of_filter by (rewrite Hrs; set_solver).
           by destruct (Hno b0).
        -- assert (a0 ∈ filter (λ a : Row, at_col on a = k) (rows left))
             as [? ?]%list_elem_of_filter by (rewrite Hls; set_solver).
           by destruct (Hno a0).
Qed.

Lemma elem_of_merge_keys (on : string) (left right : DataFrame) (k : cell) :
  k ∈ pd.merge_keys on left right ↔
    (∃ a, a ∈ rows left ∧ at_col on a = k)
    ∨ (∃ b, b ∈ rows right ∧ at_col on b = k).
Proof.
  unfold pd.merge_keys. rewrite merge_sort_Permutation.
  rewrite elem_of_remove_dups, elem_of_app, !list_elem_of_fmap.
  naive_solver.
Qed.

Lemma merge_Ok (left right : DataFrame) (on : string) :
  on ∈ columns left → on ∈ columns right →
  pd.merge left right on
  = Ok (mkDataFrame
          (columns left ++ filter (λ c, c ≠ on) (columns right))
          (k ← pd.merge_keys on left right; pd.merge_key on left right k)).
Proof. intros Hl Hr. unfold pd.merge. by rewrite decide_True. Qed.

(** The rows of an outer merge: the pairings of rows with equal keys, the
    left rows without a partner and the right rows without a partner. *)
Lemma elem_of_merge_rows (on : string) (left right : DataFrame) (m : Row) :
  m ∈ (k ← pd.merge_keys on left right; pd.merge_key on left right k) ↔
    (∃ a b, a ∈ rows left ∧ b ∈ rows right ∧ at_col on a = at_col on b ∧
            m = a ∪ b)
    ∨ (∃ a, a ∈ rows left ∧
            (∀ b, b ∈ rows right → at_col on b ≠ at_col on a) ∧
            m = a ∪ pd.nan_row (columns right))
    ∨ (∃ b, b ∈ rows right ∧
            (∀ a, a ∈ rows left → at_col on a ≠ at_col on b) ∧
            m = b ∪ pd.nan_row (columns left)).
Proof.
  rewrite list_elem_of_bind. split.
  - intros (k & Hm & _). apply elem_of_merge_key in Hm.
    destruct Hm as [(a & b & Ha & Hb & <- & Hkb & ->)
                   |[(a & Ha & <- & Hno & ->)|(b & Hb & <- & Hno & ->)]].
    + left. by exists a, b.
    + right; left. by exists a.
    + right; right. by exists b.
  - intros [(a & b & Ha & Hb & Hk & ->)|[(a & Ha & Hno & ->)|(b & Hb & Hno & ->)]].
    + exists (at_col on a). split.
      * apply elem_of_merge_key. left. by exists a, b.
      * apply elem_of_merge_keys. left. by exists a.
    + exists (at_col on a). split.
      * apply elem_of_merge_key. right; left. by exists a.
      * apply elem_of_merge_keys. left. by exists a.
    + exists (at_col on b). split.
      * apply elem_of_merge_key. right; right. by exists b.
      * apply elem_of_merge_keys. right. by exists b.
Qed.

(** ** One step of the merge loop *)

Lemma elem_of_dup_cols (master_df df : DataFrame) (c : string) :
  c ∈ dup_cols master_df df ↔
    c ∈ columns df ∧ c ∈ columns master_df ∧ c ≠ "Team".
Proof. unfold dup_cols. rewrite list_elem_of_filter. tauto. Qed.

Lemma elem_of_columns_df_to_merge (master_df df : DataFrame) (c : string) :
  c ∈ columns (df_to_merge master_df df) ↔
    c ∈ columns df ∧ (c ∈ columns master_df → c = "Team").
Proof.
  simpl. rewrite list_elem_of_filter, elem_of_dup_cols.
  destruct (decide (c = "Team")); naive_solver.
Qed.

Lemma drop_ignore_Ok (master_df df : DataFrame) :
  pd.drop (dup_cols master_df df) pd.errors_ignore df
  = Ok (df_to_merge master_df df).
Proof. done. Qed.

Lemma drop_raise_Ok (master_df df : DataFrame) :
  pd.drop (dup_cols master_df df) pd.errors_raise df
  = Ok (df_to_merge master_df df).
Proof.
  unfold pd.drop. rewrite decide_True; [done|].
  apply Forall_forall. intros c Hc. by apply elem_of_dup_cols in Hc as [? _].
Qed.

Lemma team_drop_row (master_df df : DataFrame) (b : Row) :
  team (pd.drop_row (dup_cols master_df df) b) = team b.
Proof.
  unfold team, at_col. rewrite lookup_drop_row.
  rewrite decide_False; [done|]. rewrite elem_of_dup_cols. naive_solver.
Qed.

(** The three shapes of a row of the merged frame, read column by
    column. *)
Lemma lookup_matched_row (master_df df : DataFrame) (a b : Row) (c : string) :
  row_over (columns master_df) a → row_over (columns df) b →
  (a ∪ pd.drop_row (dup_cols master_df df) b) !! c
  = if decide (c ∈ columns master_df) then a !! c else b !! c.
Proof.
  intros Ha Hb. destruct (decide (c ∈ columns master_df)) as [Hc|Hc].
  - apply lookup_union_l'. by apply Ha.
  - rewrite lookup_union_r by (apply eq_None_not_Some; by rewrite (Ha c)).
    rewrite lookup_drop_row. rewrite decide_False; [done|].
    rewrite elem_of_dup_cols. tauto.
Qed.

Lemma lookup_left_only_row (master_df df : DataFrame) (a : Row) (c : string) :
  row_over (columns master_df) a →
  (a ∪ pd.nan_row (columns (df_to_merge master_df df))) !! c
  = if decide (c ∈ columns master_df) then a !! c
    else if decide (c ∈ columns df) then Some CNaN else None.
Proof.
  intros Ha. destruct (decide (c ∈ columns master_df)) as [Hc|Hc].
  - apply lookup_union_l'. by apply Ha.
  - rewrite lookup_union_r by (apply eq_None_not_Some; by rewrite (Ha c)).
    rewrite lookup_nan_row.
    destruct (decide (c ∈ columns df)) as [Hd|Hd].
    + rewrite decide_True; [done|].
      apply elem_of_columns_df_to_merge. tauto.
    + rewrite decide_False; [done|].
      rewrite elem_of_columns_df_to_merge. tauto.
Qed.

Lemma lookup_right_only_row (master_df df : DataFrame) (b : Row) (c : string) :
  "Team" ∈ columns df → row_over (columns df) b →
  (pd.drop_row (dup_cols master_df df) b ∪ pd.nan_row (columns master_df)) !! c
  = if decide (c = "Team") then b !! c
    else if decide (c ∈ columns master_df) then Some CNaN else b !! c.
Proof.
  intros Ht Hb. rewrite lookup_union, lookup_drop_row, lookup_nan_row.
  destruct (decide (c = "Team")) as [->|Hne].
  - rewrite decide_False by (rewrite elem_of_dup_cols; naive_solver).
    apply Hb in Ht as [v ->]. by destruct (decide _).
  - destruct (decide (c ∈ columns master_df)) as [Hc|Hc].
    + destruct (decide (c ∈ dup_cols master_df df)) as [Hd|Hd]; [done|].
      rewrite elem_of_dup_cols in Hd.
      assert (b !! c = None) as ->; [|done].
      apply eq_None_not_Some. rewrite (Hb c). tauto.
    + rewrite decide_False by (rewrite elem_of_dup_cols; tauto).
      by destruct (b !! c).
Qed.

Lemma Team_in_df_to_merge (master_df df : DataFrame) :
  "Team" ∈ columns df → "Team" ∈ columns (df_to_merge master_df df).
Proof. intros H. apply elem_of_columns_df_to_merge. tauto. Qed.

Lemma merge_step_Ok (master_df df : DataFrame) :
  "Team" ∈ columns master_df → "Team" ∈ columns df →
  NCAADataCollector.merge_step master_df df = Ok (merged master_df df).
Proof.
  intros Hm Hd. unfold NCAADataCollector.merge_step.
  rewrite drop_ignore_Ok. simpl.
  rewrite merge_Ok; [done|done|by apply Team_in_df_to_merge].
Qed.

Lemma elem_of_columns_merged (master_df df : DataFrame) (c : string) :
  "Team" ∈ columns master_df →
  c ∈ columns (merged master_df df) ↔ c ∈ columns master_df ∨ c ∈ columns df.
Proof.
  intros Ht. unfold merged. cbn [columns].
  rewrite elem_of_app, list_elem_of_filter, elem_of_columns_df_to_merge.
  destruct (decide (c = "Team")) as [->|?]; [tauto|].
  destruct (decide (c ∈ columns master_df)); tauto.
Qed.

Lemma NoDup_columns_merged (master_df df : DataFrame) :
  "Team" ∈ columns master_df →
  NoDup (columns master_df) → NoDup (columns df) →
  NoDup (columns (merged master_df df)).
Proof.
  intros Ht Hm Hd. unfold merged. cbn [columns].
  apply NoDup_app. split_and!; [done| |].
  - intros c Hc [Hne Hin]%list_elem_of_filter.
    apply elem_of_columns_df_to_merge in Hin as [_ Hin]. by apply Hne, Hin.
  - unfold df_to_merge. cbn [columns]. by do 2 apply NoDup_filter.
Qed.

(** The rows of a step, in terms of the rows of its two frames. *)
Lemma elem_of_rows_merged (master_df df : DataFrame) (m : Row) :
  m ∈ rows (merged master_df df) ↔
    (∃ a b, a ∈ rows master_df ∧ b ∈ rows df ∧ team a = team b ∧
            m = a ∪ pd.drop_row (dup_cols master_df df) b)
    ∨ (∃ a, a ∈ rows master_df ∧ (∀ b, b ∈ rows df → team b ≠ team a) ∧
            m = a ∪ pd.nan_row (columns (df_to_merge master_df df)))
    ∨ (∃ b, b ∈ rows df ∧ (∀ a, a ∈ rows master_df → team a ≠ team b) ∧
            m = pd.drop_row (dup_cols master_df df) b
                  ∪ pd.nan_row (columns master_df)).
Proof.
  unfold merged. cbn [rows]. rewrite elem_of_merge_rows.
  fold team. unfold df_to_merge at 1 3 5. cbn [rows]. split.
  - intros [(a & b' & Ha & Hb' & Hk & ->)|[(a & Ha & Hno & ->)|(b' & Hb' & Hno & ->)]].
    + apply list_elem_of_fmap in Hb' as (b & -> & Hb).
      left. exists a, b. split_and!; try done.
      by rewrite <- (team_drop_row master_df df b).
    + right; left. exists a. split_and!; try done.
      intros b Hb. rewrite <- (team_drop_row master_df df b).
      apply Hno. by apply list_elem_of_fmap_2.
    + apply list_elem_of_fmap in Hb' as (b & -> & Hb).
      right; right. exists b. split_and!; try done.
      intros a Ha. rewrite <- (team_drop_row master_df df b). by apply Hno.
  - intros [(a & b & Ha & Hb & Hk & ->)|[(a & Ha & Hno & ->)|(b & Hb & Hno & ->)]].
    + left. exists a, (pd.drop_row (dup_cols master_df df) b).
      split_and!; try done; [by apply list_elem_of_fmap_2|].
      by rewrite team_drop_row.
    + right; left. exists a. split_and!; try done.
      intros b' (b & -> & Hb)%list_elem_of_fmap.
      rewrite team_drop_row. by apply Hno.
    + right; right. exists (pd.drop_row (dup_cols master_df df) b).
      split_and!; try done; [by apply list_elem_of_fmap_2|].
      intros a Ha. rewrite team_drop_row. by apply Hno.
Qed.

Lemma wf_frame_row (df : DataFrame) (r : Row) :
  wf_frame df → r ∈ rows df → row_over (columns df) r.
Proof. intros [_ Hrows] Hr. by eapply Forall_forall in Hrows. Qed.

Lemma team_eq_lookup (m a : Row) :
  m !! "Team" = a !! "Team" → team m = team a.
Proof. unfold team, at_col. by intros ->. Qed.

(** Where a row of a step comes from: it extends a row of the master
    frame, by the other frame's row of the same team or by missing values,
    or it is a row of a team new to the master frame. *)
Lemma merged_row_inv (master_df df : DataFrame) (m : Row) :
  wf_frame master_df → wf_frame df →
  "Team" ∈ columns master_df → "Team" ∈ columns df →
  m ∈ rows (merged master_df df) →
    (∃ a, a ∈ rows master_df ∧ team m = team a ∧
          (∀ c, c ∈ columns master_df → m !! c = a !! c) ∧
          ((∃ b, b ∈ rows df ∧ team b = team a ∧
                 ∀ c, c ∈ columns df → c ∉ columns master_df →
                      m !! c = b !! c)
           ∨ ((∀ b, b ∈ rows df → team b ≠ team a) ∧
              ∀ c, c ∈ columns df → c ∉ columns master_df →
                   m !! c = Some CNaN)))
    ∨ (∃ b, b ∈ rows df ∧ team m = team b ∧
            (∀ a, a ∈ rows master_df → team a ≠ team b) ∧
            (∀ c, c ∈ columns master_df → c ≠ "Team" → m !! c = Some CNaN) ∧
            (∀ c, c ∈ columns df → c ∉ columns master_df → m !! c = b !! c)).
Proof.
  intros Hwm Hwd Htm Htd Hm. apply elem_of_rows_merged in Hm.
  destruct Hm as [(a & b & Ha & Hb & Hk & ->)|[(a & Ha & Hno & ->)|(b & Hb & Hno & ->)]].
  - pose proof (wf_frame_row _ _ Hwm Ha) as Hra.
    pose proof (wf_frame_row _ _ Hwd Hb) as Hrb.
    left. exists a. split_and!; [done| | |].
    + apply team_eq_lookup. rewrite lookup_matched_row by done.
      by rewrite decide_True.
    + intros c Hc. rewrite lookup_matched_row by done. by rewrite decide_True.
    + left. exists b. split_and!; [done|done|].
      intros c Hc Hnc. rewrite lookup_matched_row by done.
      by rewrite decide_False.
  - pose proof (wf_frame_row _ _ Hwm Ha) as Hra.
    left. exists a. split_and!; [done| | |].
    + apply team_eq_lookup. rewrite lookup_left_only_row by done.
      by rewrite decide_True.
    + intros c Hc. rewrite lookup_left_only_row by done.
      by rewrite decide_True.
    + right. split; [done|]. intros c Hc Hnc.
      rewrite lookup_left_only_row by done.
      rewrite decide_False by done. by rewrite decide_True.
  - pose proof (wf_frame_row _ _ Hwd Hb) as Hrb.
    right. exists b. split_and!; [done| |done| |].
    + apply team_eq_lookup. rewrite lookup_right_only_row by done.
      by rewrite decide_True.
    + intros c Hc Hne. rewrite lookup_right_only_row by done.
      rewrite decide_False by done. by rewrite decide_True.
    + intros c Hc Hnc. rewrite lookup_right_only_row by done.
      destruct (decide (c = "Team")); [done|]. by rewrite decide_False.
Qed.

(** Every row of the master frame lives on in the step's frame. *)
Lemma merged_extends (master_df df : DataFrame) (a : Row) :
  wf_frame master_df → wf_frame df →
  "Team" ∈ columns master_df → "Team" ∈ columns df →
  a ∈ rows master_df →
  ∃ m, m ∈ rows (merged master_df df) ∧ team m = team a ∧
       ∀ c, c ∈ columns master_df → m !! c = a !! c.
Proof.
  intros Hwm Hwd Htm Htd Ha.
  pose proof (wf_frame_row _ _ Hwm Ha) as Hra.
  destruct (decide (Exists (λ b, team a = team b) (rows df))) as [Hex|Hno].
  - apply Exists_exists in Hex as (b & Hb & Hk).
    pose proof (wf_frame_row _ _ Hwd Hb) as Hrb.
    exists (a ∪ pd.drop_row (dup_cols master_df df) b). split_and!.
    + apply elem_of_rows_merged. left. by exists a, b.
    + apply team_eq_lookup. rewrite lookup_matched_row by done.
      by rewrite decide_True.
    + intros c Hc. rewrite lookup_matched_row by done. by rewrite decide_True.
  - exists (a ∪ pd.nan_row (columns (df_to_merge master_df df))). split_and!.
    + apply elem_of_rows_merged. right; left. exists a. split_and!; try done.
      intros b Hb Hk. apply Hno, Exists_exists. by exists b.
    + apply team_eq_lookup. rewrite lookup_left_only_row by done.
      by rewrite decide_True.
    + intros c Hc. rewrite lookup_left_only_row by done.
      by rewrite decide_True.
Qed.

(** Every team of the incoming frame has a row in the step's frame. *)
Lemma merged_covers (master_df df : DataFrame) (b : Row) :
  wf_frame master_df → wf_frame df →
  "Team" ∈ columns master_df → "Team" ∈ columns df →
  b ∈ rows df →
  ∃ m, m ∈ rows (merged master_df df) ∧ team m = team b.
Proof.
  intros Hwm Hwd Htm Htd Hb.
  pose proof (wf_frame_row _ _ Hwd Hb) as Hrb.
  destruct (decide (Exists (λ a, team a = team b) (rows master_df)))
    as [Hex|Hno].
  - apply Exists_exists in Hex as (a & Ha & Hk).
    destruct (merged_extends master_df df a) as (m & Hm & Hkm & _); try done.
    exists m. split; [done|]. by rewrite Hkm.
  - exists (pd.drop_row (dup_cols master_df df) b
              ∪ pd.nan_row (columns master_df)). split.
    + apply elem_of_rows_merged. right; right. exists b. split_and!; try done.
      intros a Ha Hk. apply Hno, Exists_exists. by exists a.
    + apply team_eq_lookup. rewrite lookup_right_only_row by done.
      by rewrite decide_True.
Qed.

(** A row of the incoming frame is found in the step's frame with its
    team and its values in the columns that are new to the master
    frame. *)
Lemma merged_brings (master_df df : DataFrame) (b : Row) :
  wf_frame master_df → wf_frame df →
  "Team" ∈ columns master_df → "Team" ∈ columns df →
  b ∈ rows df →
  ∃ m, m ∈ rows (merged master_df df) ∧ team m = team b ∧
       ∀ c, c ∈ columns df → c ∉ columns master_df → m !! c = b !! c.
Proof.
  intros Hwm Hwd Htm Htd Hb.
  pose proof (wf_frame_row _ _ Hwd Hb) as Hrb.
  destruct (decide (Exists (λ a, team a = team b) (rows master_df)))
    as [Hex|Hno].
  - apply Exists_exists in Hex as (a & Ha & Hk).
    pose proof (wf_frame_row _ _ Hwm Ha) as Hra.
    exists (a ∪ pd.drop_row (dup_cols master_df df) b). split_and!.
    + apply elem_of_rows_merged. left. by exists a, b.
    + rewrite <- Hk. apply team_eq_lookup.
      rewrite lookup_matched_row by done. by rewrite decide_True.
    + intros c Hc Hnc. rewrite lookup_matched_row by done.
      by rewrite decide_False.
  - exists (pd.drop_row (dup_cols master_df df) b
              ∪ pd.nan_row (columns master_df)). split_and!.
    + apply elem_of_rows_merged. right; right. exists b. split_and!; try done.
      intros a Ha Hk. apply Hno, Exists_exists. by exists a.
    + apply team_eq_lookup. rewrite lookup_right_only_row by done.
      by rewrite decide_True.
    + intros c Hc Hnc. rewrite lookup_right_only_row by done.
      destruct (decide (c = "Team")); [done|]. by rewrite decide_False.
Qed.

(** A step keeps the frame well formed and its keys strings. *)
Lemma row_over_merged (master_df df : DataFrame) (m : Row) :
  wf_frame master_df → wf_frame df →
  "Team" ∈ columns master_df → "Team" ∈ columns df →
  m ∈ rows (merged master_df df) →
  row_over (columns (merged master_df df)) m.
Proof.
  intros Hwm Hwd Htm Htd Hm c. rewrite elem_of_columns_merged by done.
  apply elem_of_rows_merged in Hm.
  destruct Hm as [(a & b & Ha & Hb & Hk & ->)|[(a & Ha & Hno & ->)|(b & Hb & Hno & ->)]].
  - pose proof (wf_frame_row _ _ Hwm Ha) as Hra.
    pose proof (wf_frame_row _ _ Hwd Hb) as Hrb.
    rewrite lookup_matched_row by done.
    destruct (decide (c ∈ columns master_df)) as [Hc|Hc].
    + rewrite (Hra c). tauto.
    + rewrite (Hrb c). tauto.
  - pose proof (wf_frame_row _ _ Hwm Ha) as Hra.
    rewrite lookup_left_only_row by done.
    destruct (decide (c ∈ columns master_df)) as [Hc|Hc].
    + rewrite (Hra c). tauto.
    + destruct (decide (c ∈ columns df)).
      * split; [tauto|]. by eexists.
      * split; [by intros [? ?]|tauto].
  - pose proof (wf_frame_row _ _ Hwd Hb) as Hrb.
    rewrite lookup_right_only_row by done.
    destruct (decide (c = "Team")) as [->|Hne].
    + rewrite (Hrb "Team"). tauto.
    + destruct (decide (c ∈ columns master_df)) as [Hc|Hc].
      * split; [tauto|]. by eexists.
      * rewrite (Hrb c). tauto.
Qed.

Lemma category_table_merged (master_df df : DataFrame) :
  category_table master_df → category_table df →
  category_table (merged master_df df).
Proof.
  intros (Hwm & Htm & Hsm) (Hwd & Htd & Hsd). split_and!.
  - split.
    + apply NoDup_columns_merged; [done|apply Hwm|apply Hwd].
    + apply Forall_forall. intros m Hm. by apply row_over_merged.
  - apply elem_of_columns_merged; tauto.
  - apply Forall_forall. intros m Hm.
    assert (∀ (df' : DataFrame) (r : Row),
      Forall (λ r : Row, ∃ s, r !! "Team" = Some (CStr s)) (rows df') →
      r ∈ rows df' → ∃ s, team r = CStr s) as Hstr.
    { intros df' r Hall Hr. eapply Forall_forall in Hall as [s Hs]; [|done].
      exists s. unfold team. by apply at_col_lookup. }
    pose proof (row_over_merged _ _ _ Hwm Hwd Htm Htd Hm) as Hrm.
    assert (is_Some (m !! "Team")) as [v Hv].
    { apply Hrm, elem_of_columns_merged; tauto. }
    assert (team m = v) as Hkv by (by apply at_col_lookup).
    destruct (merged_row_inv _ _ _ Hwm Hwd Htm Htd Hm)
      as [(a & Ha & Hk & _)|(b & Hb & Hk & _)].
    + destruct (Hstr _ _ Hsm Ha) as [s Hs]. exists s. congruence.
    + destruct (Hstr _ _ Hsd Hb) as [s Hs]. exists s. congruence.
Qed.

(** ** The merge loops *)

(** On a frame whose keys are strings already, [astype(str)] changes
    nothing. *)
Lemma set_astype_str_id (df : DataFrame) :
  category_table df → pd.set_astype_str "Team" df = Ok df.
Proof.
  intros (_ & Ht & Hs). unfold pd.set_astype_str. rewrite decide_True by done.
  f_equal. destruct df as [cols rs]. cbn [columns rows] in *. f_equal.
  induction Hs as [|r rs [s Hr] Hs IH]; [done|].
  rewrite fmap_cons, IH. f_equal. unfold pd.astype_str_at.
  apply insert_id. rewrite Hr. by rewrite (at_col_lookup _ _ _ Hr).
Qed.

Lemma for_each_app {A S : Type} (body : S → A → result S) (s : S)
    (l1 l2 : list A) :
  for_each body s (l1 ++ l2) = s' ← for_each body s l1; for_each body s' l2.
Proof.
  revert s. induction l1 as [|x l1 IH]; intros s; simpl; [done|].
  destruct (body s x) as [s'|e]; simpl; [apply IH|done].
Qed.

Lemma category_table_foldl_merged (master_df : DataFrame)
    (rest : list DataFrame) :
  category_table master_df → Forall category_table rest →
  category_table (foldl merged master_df rest).
Proof.
  intros Hm Hrest. revert master_df Hm.
  induction Hrest as [|d rest Hd Hrest IH]; intros master_df Hm; simpl;
    [done|].
  by apply IH, category_table_merged.
Qed.

(** The loop of [get_full_stat_dataframe] never raises on category
    tables: it folds [merged] over them. *)
Lemma merge_loop_Ok (master_df : DataFrame) (rest : list DataFrame) :
  category_table master_df → Forall category_table rest →
  for_each NCAADataCollector.merge_step master_df rest
  = Ok (foldl merged master_df rest).
Proof.
  intros Hm Hrest. revert master_df Hm.
  induction Hrest as [|d rest Hd Hrest IH]; intros master_df Hm; simpl;
    [done|].
  rewrite merge_step_Ok; [|apply Hm|apply Hd]. simpl.
  by apply IH, category_table_merged.
Qed.

(** So does the loop of [get_full_data], with the same frame. *)
Lemma legacy_merge_step_Ok (master_df df : DataFrame) :
  category_table master_df → category_table df →
  Legacy.merge_step (Some master_df) df = Ok (Some (merged master_df df)).
Proof.
  intros Hm Hd. unfold Legacy.merge_step.
  rewrite set_astype_str_id by done. cbn -[pd.drop pd.merge].
  rewrite drop_raise_Ok. cbn -[pd.merge].
  rewrite merge_Ok; [done|apply Hm|apply Team_in_df_to_merge, Hd].
Qed.

Lemma legacy_merge_step_None (df : DataFrame) :
  category_table df → Legacy.merge_step None df = Ok (Some df).
Proof.
  intros Hd. unfold Legacy.merge_step. by rewrite set_astype_str_id.
Qed.

Lemma legacy_merge_loop_Ok (master_df : DataFrame) (rest : list DataFrame) :
  category_table master_df → Forall category_table rest →
  for_each Legacy.merge_step (Some master_df) rest
  = Ok (Some (foldl merged master_df rest)).
Proof.
  intros Hm Hrest. revert master_df Hm.
  induction Hrest as [|d rest Hd Hrest IH]; intros master_df Hm; simpl;
    [done|].
  rewrite legacy_merge_step_Ok by done. simpl.
  by apply IH, category_table_merged.
Qed.

Lemma master_of_cons (first : DataFrame) (rest : list DataFrame) :
  Forall category_table (first :: rest) →
  master_of (first :: rest)
    (pd.fillna (CNum 0) (foldl merged first rest)).
Proof.
  intros [Hf Hrest]%Forall_cons. split.
  - unfold NCAADataCollector.merge_all. by rewrite merge_loop_Ok.
  - unfold Legacy.merge_all.
    change (for_each Legacy.merge_step None (first :: rest))
      with (s' ← Legacy.merge_step None first;
            for_each Legacy.merge_step s' rest).
    rewrite legacy_merge_step_None by done. cbn [mbind result_bind].
    by rewrite legacy_merge_loop_Ok.
Qed.

(** The columns and the teams of the folded frame. *)
Lemma elem_of_columns_foldl_merged (master_df : DataFrame)
    (rest : list DataFrame) (c : string) :
  category_table master_df → Forall category_table rest →
  c ∈ columns (foldl merged master_df rest) ↔
    c ∈ columns master_df ∨ ∃ df, df ∈ rest ∧ c ∈ columns df.
Proof.
  intros Hm Hrest. revert master_df Hm.
  induction Hrest as [|d rest Hd Hrest IH]; intros master_df Hm; simpl.
  - set_solver.
  - rewrite IH by (by apply category_table_merged).
    rewrite elem_of_columns_merged by apply Hm. set_solver.
Qed.

Lemma foldl_merged_extends (master_df : DataFrame) (rest : list DataFrame)
    (a : Row) :
  category_table master_df → Forall category_table rest →
  a ∈ rows master_df →
  ∃ m, m ∈ rows (foldl merged master_df rest) ∧ team m = team a ∧
       ∀ c, c ∈ columns master_df → m !! c = a !! c.
Proof.
  intros Hm Hrest. revert master_df Hm a.
  induction Hrest as [|d rest Hd Hrest IH]; intros master_df Hm a Ha; simpl.
  - by exists a.
  - destruct (merged_extends master_df d a) as (m1 & Hm1 & Hk1 & Hc1);
      [apply Hm|apply Hd|apply Hm|apply Hd|done|].
    destruct (IH (merged master_df d)) with (a := m1)
      as (m & Hin & Hk & Hc); [by apply category_table_merged|done|].
    exists m. split_and!; [done|congruence|].
    intros c Hc'. rewrite Hc; [by apply Hc1|].
    apply elem_of_columns_merged; [apply Hm|tauto].
Qed.

Lemma foldl_merged_covers (master_df : DataFrame) (rest : list DataFrame)
    (df : DataFrame) (r : Row) :
  category_table master_df → Forall category_table rest →
  df ∈ master_df :: rest → r ∈ rows df →
  ∃ m, m ∈ rows (foldl merged master_df rest) ∧ team m = team r.
Proof.
  intros Hm Hrest. revert master_df Hm.
  induction Hrest as [|d rest Hd Hrest IH]; intros master_df Hm Hdf Hr.
  - apply list_elem_of_singleton in Hdf as ->. by exists r.
  - simpl. apply elem_of_cons in Hdf as [->|Hdf].
    + destruct (foldl_merged_extends master_df (d :: rest) r)
        as (m & Hin & Hk & _); [done|by constructor|done|].
      by exists m.
    + apply elem_of_cons in Hdf as [->|Hdf].
      * destruct (merged_covers master_df d r) as (m1 & Hm1 & Hk1);
          [apply Hm|apply Hd|apply Hm|apply Hd|done|].
        destruct (foldl_merged_extends (merged master_df d) rest m1)
          as (m & Hin & Hk & _); [by apply category_table_merged|done|done|].
        exists m. split; [done|congruence].
      * apply IH; [by apply category_table_merged|set_solver|done].
Qed.

(** ** Whose value a column holds *)

(** The step that brings the column in. *)
Lemma won_by_intro (master_df A : DataFrame) (c : string) (m : Row) :
  category_table master_df → category_table A →
  c ∈ columns A → c ∉ columns master_df →
  m ∈ rows (merged master_df A) → won_by A c m.
Proof.
  intros Hm HA Hc Hnc Hin.
  destruct (merged_row_inv master_df A m) as
    [(a0 & Ha0 & Hk & _ & [(b & Hb & Hkb & Hv)|[Hno Hv]])
    |(b & Hb & Hk & _ & _ & Hv)];
    [apply Hm|apply HA|apply Hm|apply HA|done| | |].
  - left. exists b. split_and!; [done|congruence|by apply Hv].
  - right. split; [|by apply Hv]. intros a Ha. rewrite Hk. by apply Hno.
  - left. exists b. split_and!; [done|congruence|by apply Hv].
Qed.

(** The later steps leave it alone. *)
Lemma won_by_keep (master_df df A : DataFrame) (c : string) (m : Row) :
  category_table master_df → category_table df →
  c ∈ columns master_df → c ≠ "Team" →
  (∀ a, a ∈ rows A → ∃ m0, m0 ∈ rows master_df ∧ team m0 = team a) →
  (∀ m0, m0 ∈ rows master_df → won_by A c m0) →
  m ∈ rows (merged master_df df) → won_by A c m.
Proof.
  intros Hm Hd Hc Hne Hcov Hwon Hin.
  destruct (merged_row_inv master_df df m) as
    [(a0 & Ha0 & Hk & Hsame & _)|(b & Hb & Hk & Hno & Hnan & _)];
    [apply Hm|apply Hd|apply Hm|apply Hd|done| |].
  - destruct (Hwon a0 Ha0) as [(a & Ha & Hka & Hv)|[Hnone Hv]].
    + left. exists a. split_and!; [done|congruence|].
      rewrite Hsame by done. done.
    + right. split; [|by rewrite Hsame].
      intros a Ha. rewrite Hk. by apply Hnone.
  - right. split; [|by apply Hnan].
    intros a Ha Hka. destruct (Hcov a Ha) as (m0 & Hm0 & Hk0).
    apply (Hno m0 Hm0). congruence.
Qed.

Lemma won_by_foldl (master_df A : DataFrame) (rest : list DataFrame)
    (c : string) :
  category_table master_df → Forall category_table rest →
  c ∈ columns master_df → c ≠ "Team" →
  (∀ a, a ∈ rows A → ∃ m0, m0 ∈ rows master_df ∧ team m0 = team a) →
  (∀ m0, m0 ∈ rows master_df → won_by A c m0) →
  ∀ m, m ∈ rows (foldl merged master_df rest) → won_by A c m.
Proof.
  intros Hm Hrest. revert master_df Hm.
  induction Hrest as [|d rest Hd Hrest IH];
    intros master_df Hm Hc Hne Hcov Hwon m Hin; simpl in Hin.
  - by apply Hwon.
  - eapply (IH (merged master_df d)); try done.
    + by apply category_table_merged.
    + apply elem_of_columns_merged; [apply Hm|tauto].
    + intros a Ha. destruct (Hcov a Ha) as (m0 & Hm0 & Hk0).
      destruct (merged_extends master_df d m0) as (m1 & Hm1 & Hk1 & _);
        [apply Hm|apply Hd|apply Hm|apply Hd|done|].
      exists m1. split; [done|congruence].
    + intros m0 Hm0. by apply (won_by_keep master_df d).
Qed.

(** The frame folded over [pre ++ A :: post], when [A] is the first to
    have the column [c]. *)
Lemma won_by_first_seen (first : DataFrame) (rest pre post : list DataFrame)
    (A : DataFrame) (c : string) :
  first :: rest = pre ++ A :: post →
  Forall category_table (first :: rest) →
  c ≠ "Team" → c ∈ columns A → Forall (λ df, c ∉ columns df) pre →
  ∀ m, m ∈ rows (foldl merged first rest) → won_by A c m.
Proof.
  intros Heq Hall Hne Hc Hpre.
  destruct pre as [|p pre]; simpl in Heq; simplify_eq.
  - apply Forall_cons in Hall as [HA Hpost].
    apply won_by_foldl; try done.
    + intros a Ha. by exists a.
    + intros m0 Hm0. left. by exists m0.
  - apply Forall_cons in Hall as [Hp Hall].
    apply Forall_app in Hall as [Hpre' Hall].
    apply Forall_cons in Hall as [HA Hpost].
    apply Forall_cons in Hpre as [Hcp Hpre].
    rewrite foldl_app. simpl.
    pose proof (category_table_foldl_merged p pre Hp Hpre') as Hmid.
    assert (c ∉ columns (foldl merged p pre)) as Hfresh.
    { rewrite elem_of_columns_foldl_merged by done.
      intros [?|(df & Hdf & Hcdf)]; [done|].
      by eapply Forall_forall in Hpre. }
    apply won_by_foldl; try done.
    + by apply category_table_merged.
    + apply elem_of_columns_merged; [apply Hmid|tauto].
    + intros a Ha. apply merged_covers; try done;
        [apply Hmid|apply HA|apply Hmid|apply HA].
    + intros m0 Hm0. by apply (won_by_intro (foldl merged p pre)).
Qed.

(** ... and every row of [A] is in it, with its value in [c]. *)
Lemma kept_first_seen (first : DataFrame) (rest pre post : list DataFrame)
    (A : DataFrame) (c : string) :
  first :: rest = pre ++ A :: post →
  Forall category_table (first :: rest) →
  c ∈ columns A → Forall (λ df, c ∉ columns df) pre →
  c ∈ columns (foldl merged first rest) ∧
  ∀ a, a ∈ rows A →
    ∃ m, m ∈ rows (foldl merged first rest) ∧ team m = team a ∧
         m !! c = a !! c.
Proof.
  intros Heq Hall Hc Hpre.
  destruct pre as [|p pre]; simpl in Heq; simplify_eq.
  - apply Forall_cons in Hall as [HA Hpost]. split.
    + apply elem_of_columns_foldl_merged; [done|done|by left].
    + intros a Ha.
      destruct (foldl_merged_extends A post a) as (m & Hm & Hk & Hv);
        [done|done|done|].
      exists m. split_and!; [done|done|by apply Hv].
  - apply Forall_cons in Hall as [Hp Hall].
    apply Forall_app in Hall as [Hpre' Hall].
    apply Forall_cons in Hall as [HA Hpost].
    apply Forall_cons in Hpre as [Hcp Hpre].
    rewrite foldl_app. simpl.
    pose proof (category_table_foldl_merged p pre Hp Hpre') as Hmid.
    assert (c ∉ columns (foldl merged p pre)) as Hfresh.
    { rewrite elem_of_columns_foldl_merged by done.
      intros [?|(df & Hdf & Hcdf)]; [done|].
      by eapply Forall_forall in Hpre. }
    assert (c ∈ columns (merged (foldl merged p pre) A)) as Hin.
    { apply elem_of_columns_merged; [apply Hmid|tauto]. }
    pose proof (category_table_merged _ _ Hmid HA) as Hstep.
    split.
    + apply elem_of_columns_foldl_merged; [done|done|by left].
    + intros a Ha.
      destruct (merged_brings (foldl merged p pre) A a)
        as (m1 & Hm1 & Hk1 & Hv1);
        [apply Hmid|apply HA|apply Hmid|apply HA|done|].
      destruct (foldl_merged_extends _ post m1 Hstep Hpost Hm1)
        as (m & Hm & Hk & Hv).
      exists m. split_and!; [done|congruence|].
      rewrite (Hv c Hin). by apply Hv1.
Qed.

(** ** The fill *)

Lemma elem_of_rows_fillna (v : cell) (df : DataFrame) (m : Row) :
  m ∈ rows (pd.fillna v df) ↔ ∃ m0, m0 ∈ rows df ∧ m = pd.fill v <$> m0.
Proof. unfold pd.fillna. cbn [rows]. rewrite list_elem_of_fmap. naive_solver. Qed.

Lemma team_fill (v : cell) (m0 : Row) (s : string) :
  m0 !! "Team" = Some (CStr s) → team (pd.fill v <$> m0) = team m0.
Proof.
  intros H. unfold team, at_col. by rewrite lookup_fmap, H.
Qed.

Lemma category_table_team (df : DataFrame) (r : Row) :
  category_table df → r ∈ rows df → ∃ s, r !! "Team" = Some (CStr s).
Proof. intros (_ & _ & Hs) Hr. by eapply Forall_forall in Hs. Qed.

Lemma fill_zero_not_nan (c : cell) : pd.fill (CNum 0) c ≠ CNaN.
Proof. by destruct c. Qed.

Lemma first_seen_master (pre post : list DataFrame) (A : DataFrame)
    (c : string) :
  Forall category_table (pre ++ A :: post) →
  c ≠ "Team" → c ∈ columns A → Forall (λ df, c ∉ columns df) pre →
  ∃ master_df,
    master_of (pre ++ A :: post) master_df ∧
    first_seen_value A c master_df ∧ first_seen_kept A c master_df.
Proof.
  intros Hall Hne Hc Hpre.
  destruct (pre ++ A :: post) as [|first rest] eqn:Heq;
    [by destruct pre|].
  exists (pd.fillna (CNum 0) (foldl merged first rest)). split.
  { by apply master_of_cons. }
  pose proof Hall as [Hf Hrest]%Forall_cons.
  pose proof (category_table_foldl_merged first rest Hf Hrest) as Hcat.
  split.
  - intros m (m0 & Hm0 & ->)%elem_of_rows_fillna.
    destruct (category_table_team (foldl merged first rest) m0) as [s Hs];
      [done|done|].
    rewrite (team_fill _ _ _ Hs), lookup_fmap.
    destruct (won_by_first_seen first rest pre post A c) with (m := m0)
      as [(a & Ha & Hk & Hv)|[Hno Hv]]; try done.
    + left. exists a. by rewrite Hv.
    + right. by rewrite Hv.
  - destruct (kept_first_seen first rest pre post A c) as [Hin Hrows];
      try done.
    split_and!; [done|apply Hcat|].
    intros a Ha. destruct (Hrows a Ha) as (m0 & Hm0 & Hk & Hv).
    destruct (category_table_team (foldl merged first rest) m0) as [s Hs];
      [done|done|].
    exists (pd.fill (CNum 0) <$> m0). split_and!.
    + apply elem_of_rows_fillna. by exists m0.
    + by rewrite (team_fill _ _ _ Hs).
    + by rewrite lookup_fmap, Hv.
Qed.

(** ** Checking the frame predicates by computation *)

Lemma row_over_dom (cols : list string) (r : Row) :
  row_over cols r ↔ dom r = (list_to_set cols : gset string).
Proof.
  unfold row_over. split.
  - intros H. apply set_eq. intros c.
    rewrite elem_of_dom, elem_of_list_to_set. apply H.
  - intros H c. by rewrite <- elem_of_dom, H, elem_of_list_to_set.
Qed.

Lemma check_frame_sound (df : DataFrame) :
  check_frame df = true → wf_frame df.
Proof.
  unfold check_frame. intros [Hnd Hrows]%andb_true_iff. split.
  - by apply bool_decide_eq_true in Hnd.
  - apply Forall_forall. intros r Hr%list_elem_of_In.
    rewrite forallb_forall in Hrows. apply Hrows in Hr.
    apply bool_decide_eq_true in Hr. by apply row_over_dom.
Qed.

Lemma check_table_sound (df : DataFrame) :
  check_table df = true → category_table df.
Proof.
  unfold check_table.
  intros [[Hwf Ht]%andb_true_iff Hs]%andb_true_iff. split_and!.
  - by apply check_frame_sound.
  - by apply bool_decide_eq_true in Ht.
  - apply Forall_forall. intros r Hr%list_elem_of_In.
    rewrite forallb_forall in Hs. apply Hs in Hr.
    destruct (r !! "Team") as [[s| |]|]; try done. by exists s.
Qed.


(** * The claims *)

(** C1.  Column collisions are resolved first-seen-wins, by processing
    order.  Let two categories [A] and [B] of a run both have a column [c]
    other than [Team], [A] being processed before [B] and no category
    before [A] having [c].  Then both scripts return a master frame that
    has the column [c], once (no column label is repeated), in which
    every row of [A] has a row of its team that holds its value in [c],
    and in which column [c] holds, for every row, the value of [A]'s row
    of that team (zero if [A] does not have the team): [B]'s column was
    dropped.  With the two categories swapped in the list, the same holds
    with [B]'s rows and values instead. *)
Theorem first_seen_wins (pre mid post : list DataFrame) (A B : DataFrame)
    (c : string) :
  Forall category_table (pre ++ A :: mid ++ B :: post) →
  c ≠ "Team" → c ∈ columns A → c ∈ columns B →
  Forall (λ df, c ∉ columns df) pre →
  (∃ master_df,
     master_of (pre ++ A :: mid ++ B :: post) master_df ∧
     first_seen_value A c master_df ∧ first_seen_kept A c master_df)
  ∧ (∃ master_df,
       master_of (pre ++ B :: mid ++ A :: post) master_df ∧
       first_seen_value B c master_df ∧ first_seen_kept B c master_df).
Proof.
  intros Hall Hne HcA HcB Hpre. split.
  - by apply first_seen_master.
  - apply first_seen_master; try done.
    apply Forall_app in Hall as [Hp Hall].
    apply Forall_cons in Hall as [HA Hall].
    apply Forall_app in Hall as [Hmid Hall].
    apply Forall_cons in Hall as [HB Hpost].
    apply Forall_app. split; [done|].
    apply Forall_cons. split; [done|].
    apply Forall_app. split; [done|].
    by apply Forall_cons.
Qed.


(** C7.  Merging a further category does not change what the first one
    contributed.  For two category tables [A] and [B], every row of the
    master frame of [[A; B]] whose team the master frame of [[A]] has
    agrees, on all columns of [A], with a row of that team in the master
    frame of [[A]]; and every row of the master frame of [[A]] is found
    again, unchanged on the columns of [A], in the master frame of
    [[A; B]]. *)
Theorem merge_prefix_stable (A B : DataFrame) :
  category_table A → category_table B →
  ∃ master_A master_AB,
    master_of [A] master_A ∧ master_of [A; B] master_AB ∧
    (∀ m', m' ∈ rows master_AB →
       (∃ m0, m0 ∈ rows master_A ∧ team m0 = team m') →
       ∃ m, m ∈ rows master_A ∧ team m = team m' ∧
            ∀ c, c ∈ columns A → m' !! c = m !! c) ∧
    (∀ m, m ∈ rows master_A →
       ∃ m', m' ∈ rows master_AB ∧ team m' = team m ∧
             ∀ c, c ∈ columns A → m' !! c = m !! c).
Proof.
  intros HA HB.
  pose proof (category_table_merged A B HA HB) as HAB.
  exists (pd.fillna (CNum 0) A), (pd.fillna (CNum 0) (merged A B)).
  split_and!.
  - apply (master_of_cons A []). by apply Forall_singleton.
  - apply (master_of_cons A [B]). apply Forall_cons. split; [done|].
    by apply Forall_singleton.
  - intros m' (m1 & Hm1 & ->)%elem_of_rows_fillna
      (m0 & (a0 & Ha0 & ->)%elem_of_rows_fillna & Hk0).
    destruct (category_table_team _ m1 HAB Hm1) as [s1 Hs1].
    destruct (category_table_team _ a0 HA Ha0) as [s0 Hs0].
    rewrite (team_fill _ _ _ Hs1). rewrite (team_fill _ _ _ Hs0),
      (team_fill _ _ _ Hs1) in Hk0.
    destruct (merged_row_inv A B m1) as
      [(a & Ha & Hk & Hsame & _)|(b & Hb & Hk & Hno & _)];
      [apply HA|apply HB|apply HA|apply HB|done| |].
    + destruct (category_table_team _ a HA Ha) as [s Hs].
      exists (pd.fill (CNum 0) <$> a). split_and!.
      * apply elem_of_rows_fillna. by exists a.
      * by rewrite (team_fill _ _ _ Hs).
      * intros c Hc. by rewrite !lookup_fmap, Hsame.
    + destruct (Hno a0 Ha0). congruence.
  - intros m (a & Ha & ->)%elem_of_rows_fillna.
    destruct (category_table_team _ a HA Ha) as [s Hs].
    destruct (merged_extends A B a) as (m1 & Hm1 & Hk1 & Hsame);
      [apply HA|apply HB|apply HA|apply HB|done|].
    destruct (category_table_team _ m1 HAB Hm1) as [s1 Hs1].
    exists (pd.fill (CNum 0) <$> m1). split_and!.
    + apply elem_of_rows_fillna. by exists m1.
    + by rewrite (team_fill _ _ _ Hs), (team_fill _ _ _ Hs1).
    + intros c Hc. by rewrite !lookup_fmap, Hsame.
Qed.

(** ** Unique keys *)

Lemma filter_unique {A B} `{EqDecision B} (f : A → B) (k : B) (l : list A) :
  NoDup (f <$> l) →
  filter (λ x, f x = k) l = [] ∨ ∃ x, filter (λ x, f x = k) l = [x].
Proof.
  induction l as [|x l IH]; [by left|].
  rewrite fmap_cons. intros [Hx Hl]%NoDup_cons.
  destruct (decide (f x = k)) as [Hk|Hk].
  - right. exists x. rewrite filter_cons_True by done. f_equal.
    apply filter_eq_nil. intros y Hy Hfy. apply Hx.
    apply list_elem_of_fmap. exists y. split; [congruence|done].
  - rewrite filter_cons_False by done. by apply IH.
Qed.

Lemma bind_singletons {A} (f : A → list A) (l : list A) :
  (∀ x, x ∈ l → f x = [x]) → l ≫= f = l.
Proof.
  induction l as [|x l IH]; intros H; [done|].
  rewrite bind_cons, H by set_solver. simpl. f_equal.
  apply IH. intros y Hy. apply H. set_solver.
Qed.

Lemma fmap_bind_list {A B C} (g : B → C) (f : A → list B) (l : list A) :
  g <$> (l ≫= f) = l ≫= (λ x, g <$> f x).
Proof.
  induction l as [|x l IH]; [done|].
  by rewrite !bind_cons, fmap_app, IH.
Qed.

(** With unique keys on both sides, an outer merge has one row per key. *)
Lemma merge_key_unique (on : string) (left right : DataFrame) (k : cell) :
  NoDup (at_col on <$> rows left) → NoDup (at_col on <$> rows right) →
  (∀ a, a ∈ rows left → is_Some (a !! on)) →
  (∀ b, b ∈ rows right → is_Some (b !! on)) →
  k ∈ pd.merge_keys on left right →
  at_col on <$> pd.merge_key on left right k = [k].
Proof.
  intros Hl Hr Hsl Hsr Hk. unfold pd.merge_key.
  assert (∀ a, a ∈ filter (λ a : Row, at_col on a = k) (rows left) →
               at_col on a = k ∧ is_Some (a !! on)) as Hinl.
  { intros a [? ?]%list_elem_of_filter. split; [done|by apply Hsl]. }
  assert (∀ b, b ∈ filter (λ b : Row, at_col on b = k) (rows right) →
               at_col on b = k ∧ is_Some (b !! on)) as Hinr.
  { intros b [? ?]%list_elem_of_filter. split; [done|by apply Hsr]. }
  destruct (filter_unique (at_col on) k (rows left) Hl) as [Hls|[a Hls]];
  destruct (filter_unique (at_col on) k (rows right) Hr) as [Hrs|[b Hrs]];
    rewrite Hls, Hrs in *.
  - apply elem_of_merge_keys in Hk as [(a & Ha & Hka)|(b & Hb & Hkb)].
    + rewrite filter_eq_nil in Hls. by destruct (Hls a).
    + rewrite filter_eq_nil in Hrs. by destruct (Hrs b).
  - destruct (Hinr b) as [Hkb Hsb]; [set_solver|]. simpl.
    by rewrite at_col_union_l, Hkb.
  - destruct (Hinl a) as [Hka Hsa]; [set_solver|]. simpl.
    by rewrite at_col_union_l, Hka.
  - destruct (Hinl a) as [Hka Hsa]; [set_solver|]. simpl.
    by rewrite at_col_union_l, Hka.
Qed.

Lemma NoDup_merge_keys (on : string) (left right : DataFrame) :
  NoDup (pd.merge_keys on left right).
Proof.
  unfold pd.merge_keys. rewrite merge_sort_Permutation.
  apply NoDup_remove_dups.
Qed.

Lemma NoDup_team_merged (master_df df : DataFrame) :
  category_table master_df → category_table df →
  NoDup (team <$> rows master_df) → NoDup (team <$> rows df) →
  NoDup (team <$> rows (merged master_df df)).
Proof.
  intros Hm Hd Hum Hud. unfold merged. cbn [rows].
  rewrite fmap_bind_list, bind_singletons; [apply NoDup_merge_keys|].
  intros k Hk. apply merge_key_unique; try done.
  - unfold df_to_merge. cbn [rows]. rewrite <- list_fmap_compose.
    erewrite list_fmap_ext; [exact Hud|].
    intros i b _. simpl. apply team_drop_row.
  - intros a Ha. destruct (category_table_team _ a Hm Ha) as [s ->].
    by eexists.
  - unfold df_to_merge. cbn [rows].
    intros b' (b & -> & Hb)%list_elem_of_fmap.
    destruct (category_table_team _ b Hd Hb) as [s Hs].
    rewrite lookup_drop_row, decide_False, Hs; [by eexists|].
    rewrite elem_of_dup_cols. naive_solver.
Qed.

Lemma NoDup_team_foldl_merged (master_df : DataFrame)
    (rest : list DataFrame) :
  category_table master_df → Forall category_table rest →
  NoDup (team <$> rows master_df) →
  Forall (λ df, NoDup (team <$> rows df)) rest →
  NoDup (team <$> rows (foldl merged master_df rest)).
Proof.
  intros Hm Hrest. revert master_df Hm.
  induction Hrest as [|d rest Hd Hrest IH]; intros master_df Hm Hum Hur;
    simpl; [done|].
  apply Forall_cons in Hur as [Hud Hur].
  apply IH; [by apply category_table_merged| |done].
  by apply NoDup_team_merged.
Qed.

Lemma team_fmap_fillna (df : DataFrame) :
  category_table df →
  team <$> rows (pd.fillna (CNum 0) df) = team <$> rows df.
Proof.
  intros Hd. unfold pd.fillna. cbn [rows]. rewrite <- list_fmap_compose.
  apply Forall_fmap_ext, Forall_forall. intros r Hr. simpl.
  destruct (category_table_team _ r Hd Hr) as [s Hs].
  by apply (team_fill _ _ s).
Qed.

(** C9, as the scripts have it.  The merge does not remove repeated
    teams: it keeps the keys unique when every category table has each
    team once.  Then, for every non-empty run, both scripts return a
    master frame in which no two rows have the same team; and, in any
    case, every column of every category is a column of the master frame,
    whose column labels are pairwise distinct. *)
Theorem master_keys_unique (all_dfs : list DataFrame) :
  all_dfs ≠ [] → Forall category_table all_dfs →
  ∃ master_df,
    master_of all_dfs master_df ∧
    NoDup (columns master_df) ∧
    (∀ df c, df ∈ all_dfs → c ∈ columns df → c ∈ columns master_df) ∧
    (Forall (λ df, NoDup (team <$> rows df)) all_dfs →
     NoDup (team <$> rows master_df)).
Proof.
  intros Hne Hall. destruct all_dfs as [|first rest]; [done|].
  pose proof Hall as [Hf Hrest]%Forall_cons.
  pose proof (category_table_foldl_merged first rest Hf Hrest) as Hcat.
  exists (pd.fillna (CNum 0) (foldl merged first rest)). split_and!.
  - by apply master_of_cons.
  - apply Hcat.
  - intros df c Hdf Hc. unfold pd.fillna. cbn [columns].
    apply elem_of_columns_foldl_merged; try done.
    apply elem_of_cons in Hdf as [->|Hdf]; [by left|].
    right. by exists df.
  - intros [Huf Hur]%Forall_cons. rewrite team_fmap_fillna by done.
    by apply NoDup_team_foldl_merged.
Qed.

(** ** Concatenating the pages of a category *)

Lemma bind_fmap_id_rows (cols : list string) (df_list : list DataFrame) :
  Forall (λ df, Forall (row_over cols) (rows df)) df_list →
  (df ← df_list; pd.reindex cols <$> rows df) = (df ← df_list; rows df).
Proof.
  induction 1 as [|df df_list Hdf _ IH]; [done|].
  rewrite !bind_cons, IH. f_equal.
  induction Hdf as [|r rs Hr _ IHr]; [done|].
  by rewrite fmap_cons, IHr, reindex_id.
Qed.

(** C6, as the scripts have it.  [pd.concat] does not drop the rows of a
    page whose columns differ.  For every non-empty list of page frames
    the concatenation is made (such a page is not fatal); its columns are
    those of all pages, each once; its rows are the rows of every page, in
    discovery order, each put over these columns: a row keeps its values
    in the columns of its page and has the missing value in the others.
    When every page has the column set of the first page the rows are
    those of the pages, unchanged and in order. *)
Theorem concat_keeps_every_page (df_list : list DataFrame) :
  df_list ≠ [] → Forall wf_frame df_list →
  ∃ combined,
    pd.concat df_list = Ok combined ∧
    NCAADataCollector.combined_df_for_stat df_list
      = pd.set_astype_str "Team" combined ∧
    NoDup (columns combined) ∧
    (∀ c, c ∈ columns combined ↔ ∃ df, df ∈ df_list ∧ c ∈ columns df) ∧
    rows combined
      = (df ← df_list; pd.reindex (columns combined) <$> rows df) ∧
    (∀ df r c, df ∈ df_list → r ∈ rows df →
       pd.reindex (columns combined) r !! c
       = if decide (c ∈ columns df) then r !! c
         else if decide (c ∈ columns combined) then Some CNaN else None) ∧
    (∀ first rest, df_list = first :: rest →
       Forall (λ df, (list_to_set (columns df) : gset string)
                     = list_to_set (columns first)) rest →
       columns combined = columns first ∧
       rows combined = (df ← df_list; rows df) ∧
       rows combined = spec_concat_rows df_list).
Proof.
  intros Hne Hwf.
  exists (mkDataFrame (pd.concat_columns df_list)
            (df ← df_list; pd.reindex (pd.concat_columns df_list) <$> rows df)).
  pose proof (concat_Ok df_list Hne) as Hcat. split_and!; try done.
  - unfold NCAADataCollector.combined_df_for_stat. by rewrite Hcat.
  - apply NoDup_concat_columns.
  - apply elem_of_concat_columns.
  - intros df r c Hdf Hr. cbn [columns]. rewrite lookup_reindex.
    eapply Forall_forall in Hwf; [|done].
    pose proof (wf_frame_row _ _ Hwf Hr) as Hrow.
    destruct (decide (c ∈ columns df)) as [Hc|Hc].
    + rewrite decide_True by (apply elem_of_concat_columns; by exists df).
      apply Hrow in Hc as [v Hv]. by rewrite Hv, (at_col_lookup _ _ _ Hv).
    + assert (r !! c = None) as Hnone.
      { apply eq_None_not_Some. by rewrite (Hrow c). }
      unfold at_col. rewrite Hnone. simpl.
      by destruct (decide (c ∈ pd.concat_columns df_list)).
  - intros first rest -> Hsame. cbn [columns rows].
    pose proof Hwf as [Hwf1 Hwfr]%Forall_cons.
    assert (pd.concat_columns (first :: rest) = columns first) as Hcols.
    { apply concat_columns_same; [apply Hwf1|].
      eapply Forall_impl; [exact Hsame|]. intros df Heq c Hc. simpl in Heq.
      apply (elem_of_list_to_set (C:=gset string)). rewrite <- Heq.
      by apply elem_of_list_to_set. }
    assert ((df ← first :: rest;
             pd.reindex (pd.concat_columns (first :: rest)) <$> rows df)
            = (df ← first :: rest; rows df)) as Hrows.
    { rewrite Hcols. apply bind_fmap_id_rows.
      apply Forall_cons. split; [apply Hwf1|].
      apply Forall_forall. intros df Hdf.
      eapply Forall_forall in Hsame; [|done].
      eapply Forall_forall in Hwfr; [|done].
      eapply Forall_impl; [apply Hwfr|]. intros r Hr.
      apply row_over_dom. apply row_over_dom in Hr. by rewrite Hr. }
    split_and!; [done|done|]. rewrite Hrows.
    unfold spec_concat_rows. rewrite !bind_cons.
    rewrite decide_True by done. f_equal.
    clear -Hsame. induction Hsame as [|df rest Hdf _ IH]; [done|].
    rewrite !bind_cons, IH. by rewrite decide_True.
Qed.

(** ** The join key *)

Lemma team_astype_str_at (r : Row) :
  team (pd.astype_str_at "Team" r) = CStr (py_str (team r)).
Proof.
  unfold team, pd.astype_str_at, at_col at 1. by rewrite lookup_insert_eq.
Qed.


Lemma astype_str_at_idemp (r : Row) :
  pd.astype_str_at "Team" (pd.astype_str_at "Team" r)
  = pd.astype_str_at "Team" r.
Proof.
  unfold pd.astype_str_at at 1. apply insert_id.
  pose proof (team_astype_str_at r) as H. unfold team in H. rewrite H.
  unfold pd.astype_str_at. by rewrite lookup_insert_eq.
Qed.


(** ** Link discovery and page collection in [NCAADataCollector] *)

Lemma unique_loop_snoc (l : list string) (x : string) :
  NCAADataCollector.unique_loop (l ++ [x])
  = let '(unique_links, seen) := NCAADataCollector.unique_loop l in
    if decide (x ∈ seen) then (unique_links, seen)
    else (unique_links ++ [x], seen ∪ {[ x ]}).
Proof.
  unfold NCAADataCollector.unique_loop. rewrite foldl_app. simpl.
  by destruct (foldl _ _ l).
Qed.

(** The loop keeps one copy of every link, in the order of the first
    copies, and [seen] is the set of the links kept. *)
Lemma unique_loop_spec (l : list string) :
  NoDup (NCAADataCollector.unique_loop l).1 ∧
  (∀ x, x ∈ (NCAADataCollector.unique_loop l).2
        ↔ x ∈ (NCAADataCollector.unique_loop l).1) ∧
  (∀ x, x ∈ (NCAADataCollector.unique_loop l).1 ↔ x ∈ l) ∧
  (NCAADataCollector.unique_loop l).1 `sublist_of` l.
Proof.
  induction l as [|x l IH] using rev_ind.
  - split_and!; [apply NoDup_nil_2|set_solver|set_solver|done].
  - rewrite unique_loop_snoc.
    destruct (NCAADataCollector.unique_loop l) as [u seen].
    cbn [fst snd] in *. destruct IH as (Hnd & Hseen & Hin & Hsub).
    destruct (decide (x ∈ seen)) as [Hx|Hx]; cbn [fst snd].
    + split_and!; [done|done| |].
      * intros y. rewrite elem_of_app, list_elem_of_singleton, Hin.
        split; [tauto|]. intros [?| ->]; [done|]. by apply Hin, Hseen.
      * by apply sublist_inserts_r.
    + split_and!.
      * apply NoDup_app. split_and!; [done| |apply NoDup_singleton].
        intros y Hy ->%list_elem_of_singleton. by apply Hx, Hseen.
      * intros y. rewrite elem_of_union, elem_of_singleton, elem_of_app,
          list_elem_of_singleton, Hseen. tauto.
      * intros y. rewrite !elem_of_app, Hin. tauto.
      * by apply sublist_app.
Qed.

Lemma unique_loop_prefix (l1 l2 : list string) :
  (NCAADataCollector.unique_loop l1).1
    `prefix_of` (NCAADataCollector.unique_loop (l1 ++ l2)).1.
Proof.
  induction l2 as [|x l2 IH] using rev_ind.
  - by rewrite app_nil_r.
  - rewrite app_assoc, unique_loop_snoc.
    destruct (NCAADataCollector.unique_loop (l1 ++ l2)) as [u seen].
    cbn [fst] in *. destruct (decide (x ∈ seen)); cbn [fst]; [done|].
    by apply prefix_app_r.
Qed.

Lemma _get_subsequent_links_Ok
    (re_compile : string → option (string → bool)) (soup : Soup)
    (base_url_prefix : string) (search : string → bool) :
  re_compile ("^" +:+ base_url_prefix +:+ ".*stats") = Some search →
  NCAADataCollector._get_subsequent_links re_compile soup base_url_prefix
  = Ok (NCAADataCollector.unique_loop
          (NCAADataCollector.links search soup base_url_prefix)).1.
Proof.
  intros H. unfold NCAADataCollector._get_subsequent_links. rewrite H.
  by destruct (NCAADataCollector.unique_loop _).
Qed.

Lemma _get_subsequent_links_Raise
    (re_compile : string → option (string → bool)) (soup : Soup)
    (base_url_prefix : string) :
  re_compile ("^" +:+ base_url_prefix +:+ ".*stats") = None →
  NCAADataCollector._get_subsequent_links re_compile soup base_url_prefix
  = Raise ReError.
Proof.
  intros H. unfold NCAADataCollector._get_subsequent_links. by rewrite H.
Qed.

(** When the links are returned, the pattern was compiled. *)
Lemma _get_subsequent_links_inv
    (re_compile : string → option (string → bool)) (soup : Soup)
    (base_url_prefix : string) (found : list string) :
  NCAADataCollector._get_subsequent_links re_compile soup base_url_prefix
  = Ok found →
  ∃ search,
    re_compile ("^" +:+ base_url_prefix +:+ ".*stats") = Some search ∧
    found = (NCAADataCollector.unique_loop
               (NCAADataCollector.links search soup base_url_prefix)).1.
Proof.
  unfold NCAADataCollector._get_subsequent_links.
  destruct (re_compile _) as [search|]; [|done].
  destruct (NCAADataCollector.unique_loop _) as [u seen] eqn:Hu.
  intros [= <-]. exists search. by rewrite Hu.
Qed.

(** The links [_get_subsequent_links] returns: every link its first loop
    kept, once, in the order of first appearance. *)
Lemma discovered_links_unique
    (re_compile : string → option (string → bool)) (soup : Soup)
    (base_url_prefix : string) (search : string → bool) :
  re_compile ("^" +:+ base_url_prefix +:+ ".*stats") = Some search →
  let kept := NCAADataCollector.links search soup base_url_prefix in
  ∃ found,
    NCAADataCollector._get_subsequent_links re_compile soup base_url_prefix
    = Ok found ∧
    NoDup found ∧ (∀ x, x ∈ found ↔ x ∈ kept) ∧ found `sublist_of` kept.
Proof.
  intros H. cbn zeta. eexists. split; [by apply _get_subsequent_links_Ok|].
  destruct (unique_loop_spec
              (NCAADataCollector.links search soup base_url_prefix))
    as (? & _ & ? & ?).
  done.
Qed.

(** The pages of a statistic hold the first page exactly once, and no
    page twice. *)
Lemma pages_hold_initial_url_once
    (re_compile : string → option (string → bool)) (initial_soup : Soup)
    (stat_id : string) (pages : list string) :
  NCAADataCollector.subsequent_links re_compile initial_soup stat_id
  = Ok pages →
  NoDup pages ∧ NCAADataCollector.initial_url stat_id ∈ pages.
Proof.
  unfold NCAADataCollector.subsequent_links.
  destruct (NCAADataCollector._get_subsequent_links _ _ _)
    as [found|e] eqn:Hfound; [|done].
  cbn [mbind result_bind].
  apply _get_subsequent_links_inv in Hfound as (search & _ & ->).
  destruct (unique_loop_spec
              (NCAADataCollector.links search initial_soup
                 (NCAADataCollector.base_url
                    +:+ "/stats/basketball-men/d1/current/team/" +:+ stat_id
                    +:+ "/"))) as (Hnd & _ & _ & _).
  destruct (decide _) as [Hin|Hin]; intros [= <-].
  - done.
  - split; [by apply NoDup_cons|set_solver].
Qed.

(** The inner loop keeps the frames of the pages that give one. *)
Lemma df_list_for_stat_omap (web : string → option Soup)
    (links : list string) :
  NCAADataCollector.df_list_for_stat web links
  = omap (NCAADataCollector.get_team_stats_data web) links.
Proof.
  unfold NCAADataCollector.df_list_for_stat.
  induction links as [|x links IH] using rev_ind; [done|].
  rewrite foldl_app, omap_app, IH. simpl.
  destruct (NCAADataCollector.get_team_stats_data web x); simpl;
    by rewrite ?app_nil_r.
Qed.

Lemma get_team_stats_data_None (web : string → option Soup) (url : string) :
  NCAADataCollector.get_team_stats_data web url = None ↔
    web url = None
    ∨ ∃ soup, web url = Some soup ∧
              (first_table soup = None ∨ first_table soup = Some None).
Proof.
  unfold NCAADataCollector.get_team_stats_data, NCAADataCollector._get_soup.
  destruct (web url) as [soup|]; [|by split; [left|]].
  destruct (first_table soup) as [[df|]|] eqn:Ht.
  - split; [done|]. intros [?|(soup' & [= <-] & [?|?])]; congruence.
  - split; [|done]. intros _. right. exists soup. split; [done|by right].
  - split; [|done]. intros _. right. exists soup. split; [done|by left].
Qed.

(** A page that cannot be fetched, has no table or has one that cannot be
    read adds nothing and stops nothing: the frames are those of the other
    pages. *)
Lemma failed_page_is_skipped (web : string → option Soup)
    (l1 l2 : list string) (url : string) :
  NCAADataCollector.get_team_stats_data web url = None →
  NCAADataCollector.df_list_for_stat web (l1 ++ url :: l2)
  = NCAADataCollector.df_list_for_stat web (l1 ++ l2).
Proof.
  intros Hnone. rewrite !df_list_for_stat_omap, !omap_app. simpl.
  by rewrite Hnone.
Qed.

(** A statistic whose first page links to no other page is collected from
    that page alone. *)
Lemma single_page_category (web : string → option Soup)
    (re_compile : string → option (string → bool))
    (all_dfs : list DataFrame) (stat_id : string) (initial_soup : Soup)
    (search : string → bool) (df : DataFrame) :
  web (NCAADataCollector.initial_url stat_id) = Some initial_soup →
  re_compile (stat_pattern stat_id) = Some search →
  NCAADataCollector.links search initial_soup
    (NCAADataCollector.base_url
       +:+ "/stats/basketball-men/d1/current/team/" +:+ stat_id +:+ "/")
  = [] →
  first_table initial_soup = Some (Some df) →
  "Team" ∈ columns df → wf_frame df →
  NCAADataCollector.subsequent_links re_compile initial_soup stat_id
  = Ok [NCAADataCollector.initial_url stat_id] ∧
  NCAADataCollector.collect_stat web re_compile all_dfs stat_id
  = Ok (all_dfs ++ [mkDataFrame (columns df)
                      (pd.astype_str_at "Team" <$> rows df)]).
Proof.
  intros Hweb Hre Hlinks Htable Hteam Hwf.
  assert (NCAADataCollector.subsequent_links re_compile initial_soup stat_id
          = Ok [NCAADataCollector.initial_url stat_id]) as Hpages.
  { unfold NCAADataCollector.subsequent_links.
    rewrite (_get_subsequent_links_Ok _ _ _ search Hre), Hlinks.
    cbn [mbind result_bind].
    unfold NCAADataCollector.unique_loop. cbn [foldl fst].
    by rewrite decide_False by set_solver. }
  split; [done|].
  unfold NCAADataCollector.collect_stat, NCAADataCollector._get_soup.
  rewrite Hweb, Hpages. cbn [mbind result_bind].
  assert (NCAADataCollector.df_list_for_stat web
            [NCAADataCollector.initial_url stat_id] = [df]) as ->.
  { unfold NCAADataCollector.df_list_for_stat. cbn [foldl].
    unfold NCAADataCollector.get_team_stats_data,
      NCAADataCollector._get_soup. by rewrite Hweb, Htable. }
  rewrite decide_True by done.
  unfold NCAADataCollector.combined_df_for_stat.
  rewrite concat_Ok by done. cbn [mbind result_bind].
  assert (pd.concat_columns [df] = columns df) as Hcols.
  { apply (concat_columns_same df []); [apply Hwf|done]. }
  unfold pd.set_astype_str. cbn [columns rows].
  rewrite Hcols, decide_True by done. cbn [mbind result_bind].
  do 5 f_equal. cbn [list_bind]. rewrite app_nil_r.
  rewrite <- (list_fmap_id (rows df)) at 2.
  apply Forall_fmap_ext, Forall_forall. intros r Hr. simpl.
  apply reindex_id. by apply wf_frame_row.
Qed.

Lemma get_team_stats_data_Some (web : string → option Soup) (url : string)
    (df : DataFrame) :
  NCAADataCollector.get_team_stats_data web url = Some df →
  ∃ soup, web url = Some soup ∧ first_table soup = Some (Some df).
Proof.
  unfold NCAADataCollector.get_team_stats_data, NCAADataCollector._get_soup.
  destruct (web url) as [soup|]; [|done].
  destruct (first_table soup) as [[df'|]|] eqn:Ht; try done.
  intros [= <-]. by exists soup.
Qed.

Lemma row_over_astype_str_at (cols : list string) (r : Row) :
  "Team" ∈ cols → row_over cols r →
  row_over cols (pd.astype_str_at "Team" r).
Proof.
  intros Ht Hr c. unfold pd.astype_str_at.
  rewrite lookup_insert_is_Some. rewrite (Hr c).
  destruct (decide ("Team" = c)) as [<-|Hne]; naive_solver.
Qed.

(** The table of a statistic one of whose pages has a [Team] column is
    made, and is a category table. *)
Lemma combined_category_table (df_list : list DataFrame) :
  Exists (λ df, "Team" ∈ columns df) df_list →
  ∃ combined,
    NCAADataCollector.combined_df_for_stat df_list = Ok combined ∧
    category_table combined.
Proof.
  intros Hex. assert (df_list ≠ []) as Hne by (by destruct Hex).
  assert ("Team" ∈ pd.concat_columns df_list) as Ht.
  { apply elem_of_concat_columns. by apply Exists_exists in Hex. }
  unfold NCAADataCollector.combined_df_for_stat.
  rewrite concat_Ok by done. cbn [mbind result_bind].
  unfold pd.set_astype_str. cbn [columns rows].
  rewrite decide_True by done. eexists. split; [done|].
  split_and!; cbn [columns rows].
  - split; cbn [columns rows]; [apply NoDup_concat_columns|].
    apply Forall_forall. intros r (r0 & -> & Hr0)%list_elem_of_fmap.
    apply row_over_astype_str_at; [done|].
    apply list_elem_of_bind in Hr0 as (df & (r1 & -> & _)%list_elem_of_fmap & _).
    apply row_over_reindex.
  - done.
  - apply Forall_forall. intros r (r0 & -> & _)%list_elem_of_fmap.
    eexists. unfold pd.astype_str_at. apply lookup_insert_eq.
Qed.



(** ** The join key of the category tables *)

















(** * The claims on the example inputs, and where the scripts differ *)

Lemma first_seen_wins_witness :
  Forall category_table ([] ++ ex_A :: [] ++ ex_B :: []) ∧
  (∃ master_df,
     master_of ([] ++ ex_A :: [] ++ ex_B :: []) master_df ∧
     first_seen_value ex_A "Pts" master_df ∧
     first_seen_kept ex_A "Pts" master_df)
  ∧ (∃ master_df,
       master_of ([] ++ ex_B :: [] ++ ex_A :: []) master_df ∧
       first_seen_value ex_B "Pts" master_df ∧
       first_seen_kept ex_B "Pts" master_df).
Proof.
  assert (Forall category_table ([] ++ ex_A :: [] ++ ex_B :: [])) as H
    by by_check check_table_sound.
  split; [exact H|].
  apply (first_seen_wins [] [] [] ex_A ex_B "Pts" H).
  - discriminate.
  - by_compute.
  - by_compute.
  - constructor.
Defined.


Lemma merge_prefix_stable_witness :
  category_table ex_A ∧ category_table ex_B ∧
  ∃ master_A master_AB,
    master_of [ex_A] master_A ∧ master_of [ex_A; ex_B] master_AB ∧
    (∀ m', m' ∈ rows master_AB →
       (∃ m0, m0 ∈ rows master_A ∧ team m0 = team m') →
       ∃ m, m ∈ rows master_A ∧ team m = team m' ∧
            ∀ c, c ∈ columns ex_A → m' !! c = m !! c) ∧
    (∀ m, m ∈ rows master_A →
       ∃ m', m' ∈ rows master_AB ∧ team m' = team m ∧
             ∀ c, c ∈ columns ex_A → m' !! c = m !! c).
Proof.
  assert (category_table ex_A) as HA by by_check check_table_sound.
  assert (category_table ex_B) as HB by by_check check_table_sound.
  split; [exact HA|]. split; [exact HB|].
  exact (merge_prefix_stable ex_A ex_B HA HB).
Defined.

(** C9 as stated fails: a team that a category lists twice is twice in
    the master frame. *)
Lemma repeated_team_survives :
  ∃ master_df,
    master_of [ex_dup] master_df ∧ ¬ NoDup (team <$> rows master_df).
Proof.
  exists (pd.fillna (CNum 0) ex_dup). split.
  - split; vm_compute; reflexivity.
  - by_compute.
Qed.

Lemma master_keys_unique_witness :
  Forall category_table [ex_A; ex_B] ∧
  Forall (λ df, NoDup (team <$> rows df)) [ex_A; ex_B] ∧
  ∃ master_df,
    master_of [ex_A; ex_B] master_df ∧
    NoDup (columns master_df) ∧
    (∀ df c, df ∈ [ex_A; ex_B] → c ∈ columns df → c ∈ columns master_df) ∧
    NoDup (team <$> rows master_df).
Proof.
  assert (Forall category_table [ex_A; ex_B]) as H
    by by_check check_table_sound.
  assert (Forall (λ df, NoDup (team <$> rows df)) [ex_A; ex_B]) as Hu
    by by_compute.
  split; [exact H|]. split; [exact Hu|].
  destruct (master_keys_unique [ex_A; ex_B]) as (m & Hm & Hc & Hin & Hk);
    [discriminate|exact H|].
  exists m. split; [exact Hm|]. split; [exact Hc|]. split; [exact Hin|].
  exact (Hk Hu).
Defined.

(** C6 as stated fails: the rows of a page with another column set are in
    the concatenation. *)
Lemma drifted_page_is_kept :
  ∃ combined,
    pd.concat [ex_page1; ex_page2] = Ok combined ∧
    rows combined ≠ spec_concat_rows [ex_page1; ex_page2] ∧
    Exists (λ r, team r = CStr "UNC" ∧ r !! "Value" = Some CNaN)
           (rows combined) ∧
    ∃ table,
      NCAADataCollector.combined_df_for_stat [ex_page1; ex_page2] = Ok table ∧
      team <$> rows table = [CStr "Duke"; CStr "UNC"].
Proof.
  eexists. split; [reflexivity|]. split; [by_compute|]. split; [by_compute|].
  eexists. split; [reflexivity|]. vm_compute. reflexivity.
Qed.

Lemma concat_keeps_every_page_witness :
  Forall wf_frame [ex_page1; ex_page2] ∧
  ∃ combined,
    pd.concat [ex_page1; ex_page2] = Ok combined ∧
    (∀ c, c ∈ columns combined ↔
          ∃ df, df ∈ [ex_page1; ex_page2] ∧ c ∈ columns df) ∧
    rows combined
    = (df ← [ex_page1; ex_page2]; pd.reindex (columns combined) <$> rows df).
Proof.
  assert (Forall wf_frame [ex_page1; ex_page2]) as H
    by by_check check_frame_sound.
  split; [exact H|].
  destruct (concat_keeps_every_page [ex_page1; ex_page2])
    as (c & Hc & _ & _ & Hcols & Hrows & _); [discriminate|exact H|].
  exists c. split; [exact Hc|]. split; [exact Hcols|exact Hrows].
Defined.



(** C2 on the first scripts: [get_subsequent_links] returns the link of
    page 2 twice, and [get_df], which leaves the last link out, reads page
    2 twice and page 3 never. *)
Theorem legacy_links_repeat :
  Legacy.get_subsequent_links ex_soup_dupe "https://www.ncaa.com"
  = [ex_url "p2"; ex_url "p2"; ex_url "p3"] ∧
  ¬ NoDup (Legacy.get_subsequent_links ex_soup_dupe "https://www.ncaa.com") ∧
  removelast (Legacy.get_subsequent_links ex_soup_dupe "https://www.ncaa.com")
  = [ex_url "p2"; ex_url "p2"].
Proof.
  split; [vm_compute; reflexivity|]. split; [by_compute|].
  vm_compute; reflexivity.
Qed.

(** C4 on the first scripts: a page that cannot be fetched, or that has no
    table, ends [get_df] with the exception, although the updated
    collector's loop returns the frame of the other page on the same
    sites. *)
Theorem legacy_failed_page_aborts :
  Legacy.get_df ex_web_fetch_fails ex_start = Raise RequestException ∧
  Legacy.get_df ex_web_no_table ex_start = Raise AttributeError ∧
  NCAADataCollector.df_list_for_stat ex_web_fetch_fails
    [ex_url "p2"; ex_url "p3"] = [ex_A] ∧
  NCAADataCollector.df_list_for_stat ex_web_no_table
    [ex_url "p2"; ex_url "p3"] = [ex_A].
Proof. repeat split; vm_compute; reflexivity. Qed.

(** C5 on the first scripts: a first page with a table and no pagination
    link makes [get_df] fail on the empty concatenation; and where there
    are links, the first page is read only if it is linked. *)
Theorem legacy_single_page_fails :
  Legacy.get_df ex_web_single ex_start = Raise ValueError ∧
  ex_start ∉ removelast
    (Legacy.get_subsequent_links ex_soup_three "https://www.ncaa.com").
Proof. split; [vm_compute; reflexivity|by_compute]. Qed.

(** C10.  [get_full_data] does not read its argument: whatever [urls] is,
    it collects the statistics of the global [all_stats] and merges
    them. *)
Theorem get_full_data_ignores_urls (web : string → option Soup)
    (urls1 urls2 : list string) :
  Legacy.get_full_data web urls1 = Legacy.get_full_data web urls2 ∧
  Legacy.get_full_data web urls1
  = (all_dfs ← for_each (Legacy.collect_stat web) [] Legacy.all_stats;
     Legacy.merge_all all_dfs).
Proof. split; reflexivity. Qed.

(** * Further properties of the scripts *)

(** ** The tournament bracket *)

Lemma tournament_data_omap (py_int : string → option Z) (year : Z)
    (blocks : list GameBlock) :
  NCAADataCollector.tournament_data py_int year blocks
  = omap (NCAADataCollector.game_record py_int year) blocks.
Proof.
  unfold NCAADataCollector.tournament_data.
  induction blocks as [|b blocks IH] using rev_ind; [done|].
  rewrite foldl_app, omap_app, IH. simpl.
  destruct (NCAADataCollector.game_record py_int year b); simpl;
    by rewrite ?app_nil_r.
Qed.

Lemma game_record_Some (py_int : string → option Z) (year : Z)
    (block : GameBlock) (r : Row) :
  NCAADataCollector.game_record py_int year block = Some r →
  ∃ t1 t2 s1 s2 z1 z2,
    team_names block = [t1; t2] ∧ scores block = [s1; s2] ∧
    py_int s1 = Some z1 ∧ py_int s2 = Some z2 ∧
    r = list_to_map
          [ ("Year", CNum year);
            ("Round", CStr (default "Unknown Round" (round_info block)));
            ("Region", CStr (default "Unknown Region" (region_info block)));
            ("Team1", CStr t1); ("Team2", CStr t2);
            ("Score1", CNum z1); ("Score2", CNum z2);
            ("Winner", CStr (if (z1 >? z2)%Z then t1 else t2));
            ("Loser", CStr (if (z1 >? z2)%Z then t2 else t1)) ].
Proof.
  unfold NCAADataCollector.game_record.
  destruct (team_names block) as [|t1 [|t2 [|? ?]]]; try done.
  destruct (scores block) as [|s1 [|s2 [|? ?]]]; try done.
  destruct (py_int s1) as [z1|] eqn:H1; [|done].
  destruct (py_int s2) as [z2|] eqn:H2; [|done].
  intros [= <-]. by exists t1, t2, s1, s2, z1, z2.
Qed.

Lemma game_record_None (py_int : string → option Z) (year : Z)
    (block : GameBlock) :
  NCAADataCollector.game_record py_int year block = None
  ↔ malformed_block py_int block.
Proof.
  unfold NCAADataCollector.game_record, malformed_block.
  destruct (team_names block) as [|t1 [|t2 [|? ?]]]; simpl;
    try (split; [intros _; left; lia | done]).
  destruct (scores block) as [|s1 [|s2 [|? ?]]]; simpl;
    try (split; [intros _; right; left; lia | done]).
  destruct (py_int s1) as [z1|] eqn:H1.
  - destruct (py_int s2) as [z2|] eqn:H2.
    + split; [done|]. intros [?|[?|(s & Hs & Hn)]]; [lia|lia|].
      apply elem_of_cons in Hs as [->|Hs]; [congruence|].
      apply list_elem_of_singleton in Hs as ->. congruence.
    + split; [|done]. intros _. right; right. exists s2. split; [set_solver|done].
  - split; [|done]. intros _. right; right. exists s1. split; [set_solver|done].
Qed.

Lemma lookup_game_row (year z1 z2 : Z) (rn gn t1 t2 w l : string) :
  let r : Row :=
    list_to_map
      [ ("Year", CNum year); ("Round", CStr rn); ("Region", CStr gn);
        ("Team1", CStr t1); ("Team2", CStr t2);
        ("Score1", CNum z1); ("Score2", CNum z2);
        ("Winner", CStr w); ("Loser", CStr l) ] in
  r !! "Year" = Some (CNum year) ∧
  r !! "Team1" = Some (CStr t1) ∧ r !! "Team2" = Some (CStr t2) ∧
  r !! "Score1" = Some (CNum z1) ∧ r !! "Score2" = Some (CNum z2) ∧
  r !! "Winner" = Some (CStr w) ∧ r !! "Loser" = Some (CStr l).
Proof. cbn zeta. repeat split; reflexivity. Qed.

Lemma bracket_data_cases (bracket_page : string → option BracketSoup)
    (py_int : string → option Z) (year : Z) (soup : BracketSoup) :
  bracket_page (NCAADataCollector.bracket_url year) = Some soup →
  let data :=
    NCAADataCollector.tournament_data py_int year (game_blocks soup) in
  (data ≠ [] ∧
   NCAADataCollector.get_tournament_bracket_data bracket_page py_int year
   = Some (mkDataFrame NCAADataCollector.game_columns data))
  ∨ (data = [] ∧
     NCAADataCollector.get_tournament_bracket_data bracket_page py_int year
     = Some (NCAADataCollector._get_tournament_seeds_and_teams soup year)).
Proof.
  intros Hpage. cbn zeta.
  unfold NCAADataCollector.get_tournament_bracket_data. rewrite Hpage.
  destruct (decide (game_blocks soup = [])) as [Hnil|Hnil].
  - right. by rewrite Hnil.
  - destruct (decide (NCAADataCollector.tournament_data py_int year
                        (game_blocks soup) = [])) as [Hd|Hd].
    + by right.
    + left. split; [done|]. unfold DataFrame_of_records.
      by destruct (NCAADataCollector.tournament_data _ _ _).
Qed.

Lemma seeds_frame_columns (soup : BracketSoup) (year : Z) :
  columns (NCAADataCollector._get_tournament_seeds_and_teams soup year)
    ⊆ NCAADataCollector.seed_columns.
Proof.
  unfold NCAADataCollector._get_tournament_seeds_and_teams,
    DataFrame_of_records.
  destruct (NCAADataCollector.seed_data _ _); simpl; set_solver.
Qed.

(** X1.  In the frame of games that [get_tournament_bracket_data]
    returns (the one with a [Winner] column), every row names the first
    team as winner and the second as loser when the first score is the
    greater one, and the second as winner and the first as loser
    otherwise: on equal scores the second team is the winner. *)
Theorem game_rows_name_winner_and_loser
    (bracket_page : string → option BracketSoup)
    (py_int : string → option Z) (year : Z) (df : DataFrame) (r : Row) :
  NCAADataCollector.get_tournament_bracket_data bracket_page py_int year
    = Some df →
  "Winner" ∈ columns df → r ∈ rows df →
  ∃ t1 t2 z1 z2,
    r !! "Year" = Some (CNum year) ∧
    r !! "Team1" = Some (CStr t1) ∧ r !! "Team2" = Some (CStr t2) ∧
    r !! "Score1" = Some (CNum z1) ∧ r !! "Score2" = Some (CNum z2) ∧
    (((z1 > z2)%Z ∧
      r !! "Winner" = Some (CStr t1) ∧ r !! "Loser" = Some (CStr t2))
     ∨ ((z1 ≤ z2)%Z ∧
        r !! "Winner" = Some (CStr t2) ∧ r !! "Loser" = Some (CStr t1))).
Proof.
  intros Hres Hcol Hr.
  destruct (bracket_page (NCAADataCollector.bracket_url year))
    as [soup|] eqn:Hpage.
  2:{ unfold NCAADataCollector.get_tournament_bracket_data in Hres.
      by rewrite Hpage in Hres. }
  destruct (bracket_data_cases bracket_page py_int year soup Hpage)
    as [[Hd Heq]|[Hd Heq]]; rewrite Heq in Hres; injection Hres as <-.
  - cbn [rows] in Hr. rewrite tournament_data_omap in Hr.
    apply list_elem_of_omap in Hr as (b & Hb & Hrec).
    apply game_record_Some in Hrec
      as (t1 & t2 & s1 & s2 & z1 & z2 & _ & _ & _ & _ & ->).
    exists t1, t2, z1, z2.
    destruct (lookup_game_row year z1 z2
                (default "Unknown Round" (round_info b))
                (default "Unknown Region" (region_info b)) t1 t2
                (if (z1 >? z2)%Z then t1 else t2)
                (if (z1 >? z2)%Z then t2 else t1))
      as (Hy & H1 & H2 & Hs1 & Hs2 & Hw & Hl).
    split_and!; try done.
    destruct (Z.gtb_spec z1 z2) as [Hgt|Hle].
    + left. split_and!; [lia|done|done].
    + right. split_and!; [lia|done|done].
  - apply seeds_frame_columns in Hcol.
    unfold NCAADataCollector.seed_columns in Hcol. set_solver.
Qed.

(** X2.  A game block that has not exactly two team names and two scores,
    or one of whose scores is no integer, is skipped and changes nothing:
    the bracket page with the block and the page without it give the same
    result. *)
Theorem malformed_block_is_skipped
    (page1 page2 : string → option BracketSoup)
    (py_int : string → option Z) (year : Z) (l1 l2 : list GameBlock)
    (b : GameBlock) (elements : list TeamSeedElement) :
  page1 (NCAADataCollector.bracket_url year)
    = Some (mkBracketSoup (l1 ++ b :: l2) elements) →
  page2 (NCAADataCollector.bracket_url year)
    = Some (mkBracketSoup (l1 ++ l2) elements) →
  malformed_block py_int b →
  NCAADataCollector.get_tournament_bracket_data page1 py_int year
  = NCAADataCollector.get_tournament_bracket_data page2 py_int year.
Proof.
  intros H1 H2 Hb. apply (game_record_None py_int year) in Hb.
  assert (NCAADataCollector.tournament_data py_int year (l1 ++ b :: l2)
          = NCAADataCollector.tournament_data py_int year (l1 ++ l2)) as Hd.
  { rewrite !tournament_data_omap, !omap_app. simpl. by rewrite Hb. }
  destruct (bracket_data_cases page1 py_int year _ H1) as [[Hd1 ->]|[Hd1 ->]];
  destruct (bracket_data_cases page2 py_int year _ H2) as [[Hd2 ->]|[Hd2 ->]];
    cbn [game_blocks] in *.
  - by rewrite Hd.
  - rewrite Hd in Hd1. done.
  - rewrite Hd in Hd1. done.
  - done.
Qed.

Lemma omap_length_le {A B} (f : A → option B) (l : list A) :
  (length (omap f l) ≤ length l)%nat.
Proof.
  induction l as [|x l IH]; simpl; [done|].
  destruct (f x); simpl; fold (omap f l); lia.
Qed.

(** X3.  The tiers of [get_tournament_bracket_data].  It returns [None]
    only when the page cannot be fetched.  On a fetched page it returns
    the frame of games, which then has at least one row and at most one
    per block, when some block is well formed; and when none is (or there
    is no block) it returns what [_get_tournament_seeds_and_teams] makes
    of the page: a frame of games without rows is never returned. *)
Theorem bracket_result_tiers (bracket_page : string → option BracketSoup)
    (py_int : string → option Z) (year : Z) :
  (bracket_page (NCAADataCollector.bracket_url year) = None ↔
   NCAADataCollector.get_tournament_bracket_data bracket_page py_int year
   = None)
  ∧ ∀ soup,
      bracket_page (NCAADataCollector.bracket_url year) = Some soup →
      ∃ df,
        NCAADataCollector.get_tournament_bracket_data bracket_page py_int year
        = Some df ∧
        ((Exists (λ b, ¬ malformed_block py_int b) (game_blocks soup) ∧
          columns df = NCAADataCollector.game_columns ∧
          rows df ≠ [] ∧ (length (rows df) ≤ length (game_blocks soup))%nat)
         ∨ (Forall (malformed_block py_int) (game_blocks soup) ∧
            df = NCAADataCollector._get_tournament_seeds_and_teams soup year)).
Proof.
  split.
  - unfold NCAADataCollector.get_tournament_bracket_data.
    destruct (bracket_page _) as [soup|]; [|done].
    split; [done|]. by repeat destruct (decide _).
  - intros soup Hpage.
    destruct (bracket_data_cases bracket_page py_int year soup Hpage)
      as [[Hd ->]|[Hd ->]]; eexists; (split; [done|]).
    + left. rewrite tournament_data_omap in Hd. cbn [columns rows].
      rewrite tournament_data_omap. split_and!; [|done|done|].
      * destruct (omap _ (game_blocks soup)) as [|r rs] eqn:Ho; [done|].
        assert (r ∈ omap (NCAADataCollector.game_record py_int year)
                       (game_blocks soup)) as Hr by (rewrite Ho; set_solver).
        apply list_elem_of_omap in Hr as (b & Hb & Hrec).
        apply Exists_exists. exists b. split; [done|].
        intros Hm%(game_record_None py_int year). congruence.
      * apply omap_length_le.
    + right. split; [|done]. rewrite tournament_data_omap in Hd.
      apply Forall_forall. intros b Hb.
      apply (game_record_None py_int year).
      destruct (NCAADataCollector.game_record py_int year b) as [r|] eqn:Hrec;
        [|done].
      assert (r ∈ omap (NCAADataCollector.game_record py_int year)
                     (game_blocks soup)) as Hr.
      { apply list_elem_of_omap. by exists b. }
      rewrite Hd in Hr. set_solver.
Qed.

Lemma elem_of_seed_data (year : Z) (elements : list TeamSeedElement)
    (r : Row) :
  r ∈ NCAADataCollector.seed_data year elements ↔
    ∃ e seed name,
      e ∈ elements ∧ seed_text e = Some seed ∧ team_name_text e = Some name ∧
      seed ≠ "" ∧ name ≠ "" ∧
      r = list_to_map
            [("Year", CNum year); ("Team", CStr name); ("Seed", CStr seed)].
Proof.
  unfold NCAADataCollector.seed_data.
  induction elements as [|e elements IH] using rev_ind.
  - simpl. split; [set_solver|]. intros (e & ? & ? & He & _). set_solver.
  - rewrite foldl_app. cbn [foldl].
    destruct (seed_text e) as [seed|] eqn:Hs;
      [destruct (team_name_text e) as [name|] eqn:Hn|].
    + destruct (bool_decide (seed ≠ "") && bool_decide (name ≠ ""))
        eqn:Hok.
      * apply andb_true_iff in Hok as [Hs1%bool_decide_eq_true
                                        Hn1%bool_decide_eq_true].
        rewrite elem_of_app, list_elem_of_singleton, IH. split.
        -- intros [(e' & s' & n' & He' & Hrest)| ->].
           ++ exists e', s', n'. split; [set_solver|done].
           ++ exists e, seed, name. split_and!; try done. set_solver.
        -- intros (e' & s' & n' & He' & Hs' & Hn' & Hne1 & Hne2 & ->).
           apply elem_of_app in He' as [He'|He'%list_elem_of_singleton].
           ++ left. by exists e', s', n'.
           ++ subst e'. right. congruence.
      * rewrite IH. split.
        -- intros (e' & s' & n' & He' & Hrest).
           exists e', s', n'. split; [set_solver|done].
        -- intros (e' & s' & n' & He' & Hs' & Hn' & Hne1 & Hne2 & ->).
           apply elem_of_app in He' as [He'|He'%list_elem_of_singleton].
           ++ by exists e', s', n'.
           ++ subst e'. simplify_eq.
              apply andb_false_iff in Hok
                as [Hk%bool_decide_eq_false|Hk%bool_decide_eq_false];
                by destruct Hk.
    + rewrite IH. split.
      * intros (e' & s' & n' & He' & Hrest).
        exists e', s', n'. split; [set_solver|done].
      * intros (e' & s' & n' & He' & Hs' & Hn' & Hrest).
        apply elem_of_app in He' as [He'|He'%list_elem_of_singleton].
        -- by exists e', s', n'.
        -- subst e'. congruence.
    + rewrite IH. split.
      * intros (e' & s' & n' & He' & Hrest).
        exists e', s', n'. split; [set_solver|done].
      * intros (e' & s' & n' & He' & Hs' & Hn' & Hrest).
        apply elem_of_app in He' as [He'|He'%list_elem_of_singleton].
        -- by exists e', s', n'.
        -- subst e'. congruence.
Qed.

(** X4.  [_get_tournament_seeds_and_teams] keeps exactly the team
    elements that have both a seed and a team name, neither empty: the
    rows of its frame are the records [Year], [Team], [Seed] of these
    elements, and the frame has no column at all when there is none. *)
Theorem seed_rows_have_seed_and_team (soup : BracketSoup) (year : Z) :
  (∀ r : Row,
     r ∈ rows (NCAADataCollector._get_tournament_seeds_and_teams soup year) ↔
       ∃ e seed name,
         e ∈ team_seed_elements soup ∧
         seed_text e = Some seed ∧ team_name_text e = Some name ∧
         seed ≠ "" ∧ name ≠ "" ∧
         r = list_to_map
               [("Year", CNum year); ("Team", CStr name); ("Seed", CStr seed)])
  ∧ (rows (NCAADataCollector._get_tournament_seeds_and_teams soup year) = [] →
     NCAADataCollector._get_tournament_seeds_and_teams soup year = pd.empty)
  ∧ (rows (NCAADataCollector._get_tournament_seeds_and_teams soup year) ≠ [] →
     columns (NCAADataCollector._get_tournament_seeds_and_teams soup year)
     = ["Year"; "Team"; "Seed"]).
Proof.
  unfold NCAADataCollector._get_tournament_seeds_and_teams. split_and!.
  - intros r. rewrite <- elem_of_seed_data. unfold DataFrame_of_records.
    destruct (NCAADataCollector.seed_data year (team_seed_elements soup));
      [|done].
    simpl. set_solver.
  - unfold DataFrame_of_records.
    by destruct (NCAADataCollector.seed_data year (team_seed_elements soup)).
  - unfold DataFrame_of_records.
    by destruct (NCAADataCollector.seed_data year (team_seed_elements soup)).
Qed.

(** ** The pages of a statistic *)

Lemma string_length_app (a b : string) :
  String.length (a +:+ b) = (String.length a + String.length b)%nat.
Proof. induction a as [|x a IH]; simpl; [done|]. by rewrite IH. Qed.

Lemma prefix_length (p s : string) :
  String.prefix p s = true → (String.length p ≤ String.length s)%nat.
Proof.
  revert s. induction p as [|x p IH]; intros s; simpl.
  - lia.
  - destruct s as [|y s]; simpl.
    + done.
    + destruct (Ascii.ascii_dec x y); [|done].
      intros H%IH. lia.
Qed.

(** What the first loop of [_get_subsequent_links] keeps: [href]s of
    anchors of the page, not empty, that start with the prefix. *)
Lemma elem_of_links (search : string → bool) (soup : Soup)
    (base_url_prefix : string) (x : string) :
  x ∈ NCAADataCollector.links search soup base_url_prefix →
  Some x ∈ a_tags soup ∧ x ≠ "" ∧ String.prefix base_url_prefix x = true.
Proof.
  unfold NCAADataCollector.links.
  set (tags := find_all_a _ soup).
  assert (∀ item, item ∈ tags → item ∈ a_tags soup) as Htags.
  { intros item Hitem. unfold tags, find_all_a in Hitem.
    by apply list_elem_of_filter in Hitem as [_ ?]. }
  clearbody tags.
  induction tags as [|item tags IH] using rev_ind; [set_solver|].
  rewrite foldl_app. cbn [foldl].
  destruct item as [href|].
  - destruct (bool_decide (href ≠ "") && String.prefix base_url_prefix href)
      eqn:Hok.
    + intros [Hin| ->%list_elem_of_singleton]%elem_of_app.
      * apply IH; [|done]. intros i Hi. apply Htags. set_solver.
      * apply andb_true_iff in Hok as [Hne%bool_decide_eq_true Hp].
        split_and!; [|done|done]. apply Htags. set_solver.
    + intros Hin. apply IH; [|done]. intros i Hi. apply Htags. set_solver.
  - intros Hin. apply IH; [|done]. intros i Hi. apply Htags. set_solver.
Qed.

Lemma first_occurrences_snoc (l : list string) (x : string) :
  first_occurrences (l ++ [x])
  = if decide (x ∈ l) then first_occurrences l
    else first_occurrences l ++ [x].
Proof.
  induction l as [|a l IH]; [done|].
  cbn [app first_occurrences]. rewrite IH.
  destruct (decide (x ∈ l)) as [Hx|Hx].
  - by rewrite decide_True by set_solver.
  - rewrite filter_app. destruct (decide (x = a)) as [->|Hne].
    + rewrite decide_True by set_solver.
      rewrite filter_cons_False by (by intros ?). by rewrite app_nil_r.
    + rewrite decide_False by set_solver.
      by rewrite filter_cons_True by done.
Qed.

Lemma unique_loop_first_occurrences (l : list string) :
  (NCAADataCollector.unique_loop l).1 = first_occurrences l.
Proof.
  induction l as [|x l IH] using rev_ind; [done|].
  rewrite unique_loop_snoc, first_occurrences_snoc.
  destruct (unique_loop_spec l) as (_ & Hseen & Hin & _).
  destruct (NCAADataCollector.unique_loop l) as [u seen].
  cbn [fst snd] in *. subst u.
  destruct (decide (x ∈ seen)) as [Hx|Hx]; cbn [fst].
  - rewrite decide_True; [done|]. by apply Hin, Hseen.
  - rewrite decide_False; [done|]. intros H. by apply Hx, Hseen, Hin.
Qed.

(** X5.  [_get_subsequent_links] raises [re.error] when its pattern is
    no regular expression; otherwise it returns the links its first loop
    keeps without their repetitions, every link once and in the order of
    the first occurrences; each of them is the [href] of an anchor of the
    page and starts with the prefix asked for. *)
Theorem discovered_links_first_occurrences
    (re_compile : string → option (string → bool)) (soup : Soup)
    (base_url_prefix : string) :
  match re_compile ("^" +:+ base_url_prefix +:+ ".*stats") with
  | None =>
      NCAADataCollector._get_subsequent_links re_compile soup base_url_prefix
      = Raise ReError
  | Some search =>
      ∃ found,
        NCAADataCollector._get_subsequent_links re_compile soup
          base_url_prefix = Ok found ∧
        found
        = first_occurrences
            (NCAADataCollector.links search soup base_url_prefix) ∧
        NoDup found ∧
        ∀ x, x ∈ found →
             Some x ∈ a_tags soup ∧ x ≠ "" ∧
             String.prefix base_url_prefix x = true
  end.
Proof.
  destruct (re_compile _) as [search|] eqn:Hre;
    [|by apply _get_subsequent_links_Raise].
  eexists. split; [by apply _get_subsequent_links_Ok|].
  destruct (unique_loop_spec
              (NCAADataCollector.links search soup base_url_prefix))
    as (Hnd & _ & Hin & _).
  split_and!; [apply unique_loop_first_occurrences|done|].
  intros x Hx%Hin. by apply elem_of_links in Hx.
Qed.

Lemma initial_url_not_found (re_compile : string → option (string → bool))
    (soup : Soup) (stat_id : string) (found : list string) :
  NCAADataCollector._get_subsequent_links re_compile soup
    (NCAADataCollector.base_url
       +:+ "/stats/basketball-men/d1/current/team/" +:+ stat_id +:+ "/")
  = Ok found →
  NCAADataCollector.initial_url stat_id ∉ found.
Proof.
  intros Hfound Hin.
  apply _get_subsequent_links_inv in Hfound as (search & _ & ->).
  destruct (unique_loop_spec
              (NCAADataCollector.links search soup
                 (NCAADataCollector.base_url
                    +:+ "/stats/basketball-men/d1/current/team/" +:+ stat_id
                    +:+ "/"))) as (_ & _ & Hkept & _).
  apply Hkept in Hin. apply elem_of_links in Hin as (_ & _ & Hp).
  apply prefix_length in Hp. unfold NCAADataCollector.initial_url in Hp.
  rewrite !string_length_app in Hp. simpl in Hp. lia.
Qed.

(** X6.  The test [initial_url not in subsequent_links] of
    [get_full_stat_dataframe] always succeeds: every link found starts
    with the prefix, which is [initial_url] and a slash, so that none of
    them is [initial_url].  Whenever the links are found, the list that
    the inner loop goes through is therefore [initial_url] followed by the
    links found, and no URL is twice in this list.  (This is the list of
    the inner loop only: the first page has been requested once before,
    to find the links, so that it is requested twice in all.) *)
Theorem initial_url_is_always_first
    (re_compile : string → option (string → bool)) (initial_soup : Soup)
    (stat_id : string) (found : list string) :
  NCAADataCollector._get_subsequent_links re_compile initial_soup
    (NCAADataCollector.base_url
       +:+ "/stats/basketball-men/d1/current/team/" +:+ stat_id +:+ "/")
  = Ok found →
  (NCAADataCollector.initial_url stat_id ∉ found) ∧
  NCAADataCollector.subsequent_links re_compile initial_soup stat_id
  = Ok (NCAADataCollector.initial_url stat_id :: found) ∧
  NoDup (NCAADataCollector.initial_url stat_id :: found).
Proof.
  intros Hfound.
  pose proof (initial_url_not_found _ _ _ _ Hfound) as Hnot.
  assert (NCAADataCollector.subsequent_links re_compile initial_soup stat_id
          = Ok (NCAADataCollector.initial_url stat_id :: found)) as Hpages.
  { unfold NCAADataCollector.subsequent_links. rewrite Hfound.
    cbn [mbind result_bind]. by rewrite decide_False. }
  split_and!; [done|done|].
  by apply (pages_hold_initial_url_once re_compile initial_soup stat_id).
Qed.

(** ** The loop over the statistics *)

Lemma collect_stat_unchanged (web : string → option Soup)
    (re_compile : string → option (string → bool))
    (all_dfs : list DataFrame) (stat_id : string) :
  web (NCAADataCollector.initial_url stat_id) = None
  ∨ (∃ soup pages,
       web (NCAADataCollector.initial_url stat_id) = Some soup ∧
       NCAADataCollector.subsequent_links re_compile soup stat_id
       = Ok pages ∧
       Forall (λ url, NCAADataCollector.get_team_stats_data web url = None)
              pages) →
  NCAADataCollector.collect_stat web re_compile all_dfs stat_id = Ok all_dfs.
Proof.
  unfold NCAADataCollector.collect_stat, NCAADataCollector._get_soup.
  intros [->|(soup & pages & -> & -> & Hnone)]; [done|].
  cbn [mbind result_bind]. rewrite df_list_for_stat_omap.
  assert (omap (NCAADataCollector.get_team_stats_data web) pages = [])
    as ->; [|done].
  induction Hnone as [|url urls Hurl _ IH]; [done|].
  simpl. rewrite Hurl. apply IH.
Qed.

(** X7.  A statistic whose first page cannot be fetched, or whose links
    are found and none of whose pages gives a table, is passed over:
    [get_full_stat_dataframe] returns what it returns for the list of ids
    without it. *)
Theorem empty_category_is_passed_over (web : string → option Soup)
    (re_compile : string → option (string → bool))
    (ids1 ids2 : list string) (stat_id : string) :
  web (NCAADataCollector.initial_url stat_id) = None
  ∨ (∃ soup pages,
       web (NCAADataCollector.initial_url stat_id) = Some soup ∧
       NCAADataCollector.subsequent_links re_compile soup stat_id
       = Ok pages ∧
       Forall (λ url, NCAADataCollector.get_team_stats_data web url = None)
              pages) →
  NCAADataCollector.get_full_stat_dataframe web re_compile
    (ids1 ++ stat_id :: ids2)
  = NCAADataCollector.get_full_stat_dataframe web re_compile (ids1 ++ ids2).
Proof.
  intros H. unfold NCAADataCollector.get_full_stat_dataframe.
  rewrite !for_each_app.
  destruct (for_each (NCAADataCollector.collect_stat web re_compile) [] ids1)
    as [all_dfs|e]; [|done].
  cbn [mbind result_bind for_each].
  by rewrite (collect_stat_unchanged web re_compile all_dfs stat_id H).
Qed.

(** The links of a statistic are not found only when its pattern is no
    regular expression. *)
Lemma subsequent_links_Raise (re_compile : string → option (string → bool))
    (soup : Soup) (stat_id : string) (e : exn) :
  NCAADataCollector.subsequent_links re_compile soup stat_id = Raise e ↔
    e = ReError ∧ re_compile (stat_pattern stat_id) = None.
Proof.
  unfold NCAADataCollector.subsequent_links,
    NCAADataCollector._get_subsequent_links, stat_pattern.
  destruct (re_compile _) as [search|].
  - destruct (NCAADataCollector.unique_loop _) as [u seen].
    cbn [mbind result_bind]. destruct (decide _); naive_solver.
  - cbn [mbind result_bind]. naive_solver.
Qed.




Lemma collect_stat_tables (web : string → option Soup)
    (re_compile : string → option (string → bool))
    (all_dfs : list DataFrame) (stat_id : string) :
  (∀ url soup df, web url = Some soup → first_table soup = Some (Some df) →
                  "Team" ∈ columns df) →
  Forall category_table all_dfs →
  (bad_pattern web re_compile stat_id ∧
   NCAADataCollector.collect_stat web re_compile all_dfs stat_id
   = Raise ReError)
  ∨ (¬ bad_pattern web re_compile stat_id ∧
     ∃ all_dfs',
       NCAADataCollector.collect_stat web re_compile all_dfs stat_id
       = Ok all_dfs' ∧
       Forall category_table all_dfs').
Proof.
  intros Hweb Hall.
  unfold NCAADataCollector.collect_stat, NCAADataCollector._get_soup,
    bad_pattern.
  destruct (web (NCAADataCollector.initial_url stat_id)) as [soup|];
    [|right; split; [by intros [[? [=]] _]|by exists all_dfs]].
  destruct (NCAADataCollector.subsequent_links re_compile soup stat_id)
    as [pages|e] eqn:Hp; cbn [mbind result_bind].
  2:{ apply subsequent_links_Raise in Hp as [-> Hre]. left. by repeat split. }
  right. split.
  { intros [_ Hre].
    assert (NCAADataCollector.subsequent_links re_compile soup stat_id
            = Raise ReError) as Hr by (by apply subsequent_links_Raise).
    congruence. }
  destruct (decide _) as [Hne|]; [|by exists all_dfs].
  destruct (combined_category_table
              (NCAADataCollector.df_list_for_stat web pages))
    as (combined & -> & Hcat).
  - rewrite df_list_for_stat_omap in *.
    destruct (omap _ _) as [|df dfs] eqn:Ho; [done|].
    apply Exists_cons_hd.
    assert (df ∈ omap (NCAADataCollector.get_team_stats_data web) pages)
      as Hdf by (rewrite Ho; set_solver).
    apply list_elem_of_omap in Hdf as (url & _ & Hurl).
    apply get_team_stats_data_Some in Hurl as (soup' & Hs & Ht).
    by eapply Hweb.
  - cbn [mbind result_bind]. eexists. split; [done|].
    apply Forall_app. split; [done|]. by apply Forall_singleton.
Qed.

Lemma for_each_collect_stat_tables (web : string → option Soup)
    (re_compile : string → option (string → bool))
    (all_dfs : list DataFrame) (stat_ids : list string) :
  (∀ url soup df, web url = Some soup → first_table soup = Some (Some df) →
                  "Team" ∈ columns df) →
  Forall category_table all_dfs →
  ((∃ stat_id, stat_id ∈ stat_ids ∧ bad_pattern web re_compile stat_id) ∧
   for_each (NCAADataCollector.collect_stat web re_compile) all_dfs stat_ids
   = Raise ReError)
  ∨ ((∀ stat_id, stat_id ∈ stat_ids → ¬ bad_pattern web re_compile stat_id) ∧
     ∃ all_dfs',
       for_each (NCAADataCollector.collect_stat web re_compile) all_dfs
         stat_ids = Ok all_dfs' ∧
       Forall category_table all_dfs').
Proof.
  intros Hweb. revert all_dfs.
  induction stat_ids as [|x stat_ids IH]; intros all_dfs Hall.
  - right. split; [set_solver|]. by exists all_dfs.
  - cbn [for_each].
    destruct (collect_stat_tables web re_compile all_dfs x Hweb Hall)
      as [[Hbad ->]|(Hgood & all_dfs1 & -> & Hall1)];
      cbn [mbind result_bind].
    + left. split; [|done]. exists x. split; [set_solver|done].
    + destruct (IH all_dfs1 Hall1)
        as [[(id & Hid & Hbad) ->]|(Hrest & all_dfs' & -> & Hall')].
      * left. split; [|done]. exists id. split; [set_solver|done].
      * right. split; [|by exists all_dfs'].
        intros id [->|Hid]%elem_of_cons; [done|by apply Hrest].
Qed.

(** X9.  When every table of the site has a [Team] column, the run of
    [get_full_stat_dataframe] depends on the patterns only.  If no
    statistic whose first page is fetched has a pattern that is no regular
    expression, nothing is raised: every statistic that has a table is
    collected into a category table, and a master frame is returned, with
    pairwise distinct column labels and no missing value; it is the empty
    frame when no statistic gave a table.  If there is such a statistic,
    the run ends with [re.error]. *)
Theorem run_succeeds_when_tables_have_Team (web : string → option Soup)
    (re_compile : string → option (string → bool))
    (stat_ids : list string) :
  (∀ url soup df, web url = Some soup → first_table soup = Some (Some df) →
                  "Team" ∈ columns df) →
  ((∀ stat_id, stat_id ∈ stat_ids → ¬ bad_pattern web re_compile stat_id) →
   ∃ all_dfs master_df,
     for_each (NCAADataCollector.collect_stat web re_compile) [] stat_ids
       = Ok all_dfs ∧
     Forall category_table all_dfs ∧
     NCAADataCollector.get_full_stat_dataframe web re_compile stat_ids
       = Ok master_df ∧
     NoDup (columns master_df) ∧
     (∀ m c, m ∈ rows master_df → m !! c ≠ Some CNaN) ∧
     (all_dfs = [] → master_df = pd.empty))
  ∧ ((∃ stat_id, stat_id ∈ stat_ids ∧ bad_pattern web re_compile stat_id) →
     NCAADataCollector.get_full_stat_dataframe web re_compile stat_ids
     = Raise ReError).
Proof.
  intros Hweb.
  destruct (for_each_collect_stat_tables web re_compile [] stat_ids Hweb)
    as [[(id & Hid & Hbad) Hloop]|(Hgood & all_dfs & Hloop & Hall)]; [done| |].
  { split.
    - intros Hno. by destruct (Hno id Hid).
    - intros _. unfold NCAADataCollector.get_full_stat_dataframe.
      by rewrite Hloop. }
  split; [|intros (id & Hid & Hbad); by destruct (Hgood id Hid)].
  intros _.
  exists all_dfs. unfold NCAADataCollector.get_full_stat_dataframe.
  rewrite Hloop. cbn [mbind result_bind].
  destruct all_dfs as [|first rest].
  - exists pd.empty. split_and!; try done.
    + apply NoDup_nil_2.
    + intros m c Hm. cbn in Hm. set_solver.
  - pose proof Hall as [Hf Hrest]%Forall_cons.
    exists (pd.fillna (CNum 0) (foldl merged first rest)).
    unfold NCAADataCollector.merge_all. rewrite merge_loop_Ok by done.
    split_and!; try done.
    + apply (category_table_foldl_merged first rest Hf Hrest).
    + intros m c (m0 & Hm0 & ->)%elem_of_rows_fillna. rewrite lookup_fmap.
      destruct (m0 !! c) as [v|]; simpl; [|done].
      intros [=H]. by apply fill_zero_not_nan in H.
Qed.

(** ** More on the master frame *)

Lemma filter_ext_in {A} (P Q : A → Prop) `{∀ x, Decision (P x)}
    `{∀ x, Decision (Q x)} (l : list A) :
  (∀ x, x ∈ l → P x ↔ Q x) → filter P l = filter Q l.
Proof.
  induction l as [|x l IH]; intros Hext; [done|].
  assert (filter P l = filter Q l) as Hl.
  { apply IH. intros y Hy. apply Hext. set_solver. }
  destruct (decide (P x)) as [HP|HP].
  - rewrite !filter_cons_True, Hl; [done| |done]. apply Hext; [set_solver|done].
  - rewrite !filter_cons_False, Hl; [done| |done].
    intros HQ. apply HP, Hext; [set_solver|done].
Qed.

Lemma union_index_filter (acc new : list string) :
  NoDup new →
  pd.union_index acc new = acc ++ filter (λ c, c ∉ acc) new.
Proof.
  unfold pd.union_index. revert acc.
  induction new as [|x new IH]; intros acc Hnd; simpl.
  - by rewrite app_nil_r.
  - apply NoDup_cons in Hnd as [Hx Hnd].
    destruct (decide (x ∈ acc)) as [Hin|Hin].
    + rewrite IH by done. by rewrite filter_cons_False by tauto.
    + rewrite IH by done. rewrite filter_cons_True by done.
      rewrite <- app_assoc. simpl. do 2 f_equal.
      apply filter_ext_in. intros y Hy. rewrite elem_of_app.
      rewrite list_elem_of_singleton. split; [tauto|].
      intros Hya [?| ->]; done.
Qed.

Lemma columns_merged_union (master_df df : DataFrame) :
  "Team" ∈ columns master_df → NoDup (columns df) →
  columns (merged master_df df)
  = pd.union_index (columns master_df) (columns df).
Proof.
  intros Ht Hnd. rewrite union_index_filter by done.
  unfold merged, df_to_merge. cbn [columns]. f_equal.
  rewrite list_filter_filter. apply filter_ext_in. intros c Hc.
  rewrite elem_of_dup_cols. split.
  - intros [Hne Hno] Hin. apply Hno. tauto.
  - intros Hno. split; [by intros ->|]. tauto.
Qed.

Lemma columns_foldl_merged (master_df : DataFrame) (rest : list DataFrame) :
  category_table master_df → Forall category_table rest →
  columns (foldl merged master_df rest)
  = foldl (λ acc df, pd.union_index acc (columns df)) (columns master_df) rest.
Proof.
  intros Hm Hrest. revert master_df Hm.
  induction Hrest as [|d rest Hd Hrest IH]; intros master_df Hm; simpl;
    [done|].
  rewrite IH by (by apply category_table_merged).
  by rewrite columns_merged_union by (apply Hm || apply Hd).
Qed.

Lemma columns_foldl_merged_concat (first : DataFrame) (rest : list DataFrame) :
  Forall category_table (first :: rest) →
  columns (foldl merged first rest) = pd.concat_columns (first :: rest).
Proof.
  intros [Hf Hrest]%Forall_cons. rewrite columns_foldl_merged by done.
  unfold pd.concat_columns. cbn [foldl].
  by rewrite union_index_nil by apply Hf.
Qed.

(** X10.  The columns of the master frame are those of the categories in
    the order in which the categories first bring them: the column index
    of the merge is the column index [pd.concat] gives the same frames.
    Both scripts. *)
Theorem master_columns_in_first_seen_order (all_dfs : list DataFrame) :
  all_dfs ≠ [] → Forall category_table all_dfs →
  ∃ master_df,
    master_of all_dfs master_df ∧
    columns master_df = pd.concat_columns all_dfs.
Proof.
  intros Hne Hall. destruct all_dfs as [|first rest]; [done|].
  exists (pd.fillna (CNum 0) (foldl merged first rest)).
  split; [by apply master_of_cons|].
  unfold pd.fillna. cbn [columns]. by apply columns_foldl_merged_concat.
Qed.

Lemma merged_team_from (master_df df : DataFrame) (m : Row) :
  category_table master_df → category_table df →
  m ∈ rows (merged master_df df) →
  (∃ a, a ∈ rows master_df ∧ team a = team m)
  ∨ (∃ b, b ∈ rows df ∧ team b = team m).
Proof.
  intros Hm Hd Hin.
  destruct (merged_row_inv master_df df m) as
    [(a & Ha & Hk & _)|(b & Hb & Hk & _)];
    [apply Hm|apply Hd|apply Hm|apply Hd|done| |].
  - left. by exists a.
  - right. by exists b.
Qed.

Lemma foldl_merged_team_from (master_df : DataFrame) (rest : list DataFrame)
    (m : Row) :
  category_table master_df → Forall category_table rest →
  m ∈ rows (foldl merged master_df rest) →
  ∃ df r, df ∈ master_df :: rest ∧ r ∈ rows df ∧ team r = team m.
Proof.
  intros Hm Hrest. revert master_df Hm.
  induction Hrest as [|d rest Hd Hrest IH]; intros master_df Hm Hin;
    simpl in Hin.
  - exists master_df, m. split_and!; [set_solver|done|done].
  - destruct (IH (merged master_df d)) as (df & r & Hdf & Hr & Hk);
      [by apply category_table_merged|done|].
    apply elem_of_cons in Hdf as [->|Hdf].
    + destruct (merged_team_from master_df d r Hm Hd Hr)
        as [(a & Ha & Hka)|(b & Hb & Hkb)].
      * exists master_df, a. split_and!; [set_solver|done|congruence].
      * exists d, b. split_and!; [set_solver|done|congruence].
    + exists df, r. split_and!; [set_solver|done|done].
Qed.

(** X11.  The merge invents no team: every row of the master frame has
    the team of a row of one of the categories.  Both scripts. *)
Theorem master_teams_come_from_categories (all_dfs : list DataFrame) :
  all_dfs ≠ [] → Forall category_table all_dfs →
  ∃ master_df,
    master_of all_dfs master_df ∧
    ∀ m, m ∈ rows master_df →
         ∃ df r, df ∈ all_dfs ∧ r ∈ rows df ∧ team r = team m.
Proof.
  intros Hne Hall. destruct all_dfs as [|first rest]; [done|].
  pose proof Hall as [Hf Hrest]%Forall_cons.
  exists (pd.fillna (CNum 0) (foldl merged first rest)).
  split; [by apply master_of_cons|].
  intros m (m0 & Hm0 & ->)%elem_of_rows_fillna.
  destruct (category_table_team (foldl merged first rest) m0) as [s Hs];
    [by apply category_table_foldl_merged|done|].
  rewrite (team_fill _ _ _ Hs).
  by apply foldl_merged_team_from.
Qed.

Lemma columns_foldl_merged_prefix (master_df : DataFrame)
    (rest : list DataFrame) :
  category_table master_df → Forall category_table rest →
  columns master_df `prefix_of` columns (foldl merged master_df rest).
Proof.
  intros Hm Hrest. revert master_df Hm.
  induction Hrest as [|d rest Hd Hrest IH]; intros master_df Hm; simpl;
    [done|].
  etrans; [|apply IH; by apply category_table_merged].
  unfold merged. cbn [columns]. by apply prefix_app_r.
Qed.

(** X12.  The first category seeds the master frame: its columns open
    the column index of the master frame, in their order, and each of its
    rows is found there with its team and, on all columns of the first
    category, its values (zero for a missing one), however many
    categories follow.  Both scripts. *)
Theorem first_category_seeds_master (first : DataFrame)
    (rest : list DataFrame) :
  Forall category_table (first :: rest) →
  ∃ master_df,
    master_of (first :: rest) master_df ∧
    columns first `prefix_of` columns master_df ∧
    ∀ a, a ∈ rows first →
         ∃ m, m ∈ rows master_df ∧ team m = team a ∧
              ∀ c, c ∈ columns first →
                   m !! c = pd.fill (CNum 0) <$> a !! c.
Proof.
  intros Hall. pose proof Hall as [Hf Hrest]%Forall_cons.
  exists (pd.fillna (CNum 0) (foldl merged first rest)). split_and!.
  - by apply master_of_cons.
  - unfold pd.fillna. cbn [columns]. by apply columns_foldl_merged_prefix.
  - intros a Ha.
    destruct (foldl_merged_extends first rest a Hf Hrest Ha)
      as (m0 & Hm0 & Hk & Hsame).
    destruct (category_table_team (foldl merged first rest) m0) as [s Hs];
      [by apply category_table_foldl_merged|done|].
    exists (pd.fill (CNum 0) <$> m0). split_and!.
    + apply elem_of_rows_fillna. by exists m0.
    + by rewrite (team_fill _ _ _ Hs).
    + intros c Hc. by rewrite lookup_fmap, Hsame.
Qed.

(** X13.  The updated merge returns what the first script's merge and
    fill returned: on every non-empty list of category tables,
    [get_full_data]'s second loop followed by [fillna(0)] and the second
    half of [get_full_stat_dataframe] give the same master frame.  They
    differ on the empty list, where the first script fails on [None] and
    the updated one returns the empty frame. *)
Theorem updated_merge_agrees_with_first_script (all_dfs : list DataFrame) :
  (all_dfs ≠ [] → Forall category_table all_dfs →
   ∃ master_df,
     NCAADataCollector.merge_all all_dfs = Ok master_df ∧
     Legacy.merge_all all_dfs ≫= Legacy.fill_master = Ok master_df)
  ∧ Legacy.merge_all [] ≫= Legacy.fill_master = Raise AttributeError
  ∧ NCAADataCollector.merge_all [] = Ok pd.empty.
Proof.
  split_and!; [|done|done].
  intros Hne Hall. destruct all_dfs as [|first rest]; [done|].
  exists (pd.fillna (CNum 0) (foldl merged first rest)).
  by apply master_of_cons.
Qed.

(** ** The first scripts *)

Lemma for_each_ext {A S : Type} (f g : S → A → result S) (s : S)
    (l : list A) :
  (∀ s' x, x ∈ l → f s' x = g s' x) → for_each f s l = for_each g s l.
Proof.
  revert s. induction l as [|x l IH]; intros s Hext; [done|].
  cbn [for_each]. rewrite Hext by set_solver.
  destruct (g s x) as [s'|e]; [|done]. cbn [mbind result_bind].
  apply IH. intros s'' y Hy. apply Hext. set_solver.
Qed.

(** X14.  [get_df] never reads the page of the last link: its result
    depends only on the first page and on the pages of the links but the
    last.  On two sites that agree on these it returns the same, whatever
    the last link leads to. *)
Theorem last_link_is_never_read (web web' : string → option Soup)
    (url : string) (text : Soup) :
  web url = Some text → web' url = Some text →
  (∀ link,
     link ∈ removelast
              (Legacy.get_subsequent_links text "https://www.ncaa.com") →
     web' link = web link) →
  Legacy.get_df web' url = Legacy.get_df web url.
Proof.
  intros Hw Hw' Hsame. unfold Legacy.get_df, Legacy.get_text.
  rewrite Hw, Hw'. cbn [mbind result_bind].
  rewrite (for_each_ext
             (λ df_list link, df ← Legacy.get_data web' link;
                              Ok (df_list ++ [df]))
             (λ df_list link, df ← Legacy.get_data web link;
                              Ok (df_list ++ [df]))); [done|].
  intros df_list link Hlink. unfold Legacy.get_data.
  by rewrite (Hsame link Hlink).
Qed.

(** X15.  A first page with fewer than two links to statistics pages
    makes [get_df] fail: no page is read, and the concatenation of no
    frame raises [ValueError]. *)
Theorem get_df_needs_two_links (web : string → option Soup) (url : string)
    (text : Soup) :
  web url = Some text →
  (length (Legacy.get_subsequent_links text "https://www.ncaa.com") ≤ 1)%nat →
  Legacy.get_df web url = Raise ValueError.
Proof.
  intros Hw Hlen. unfold Legacy.get_df, Legacy.get_text. rewrite Hw.
  cbn [mbind result_bind].
  destruct (Legacy.get_subsequent_links text "https://www.ncaa.com")
    as [|l1 [|l2 ls]]; [done|done|]. simpl in Hlen. lia.
Qed.

Lemma for_each_raises_some {A S : Type} (body : S → A → result S) (s : S)
    (l : list A) (x : A) :
  x ∈ l → (∀ s', ∃ e, body s' x = Raise e) →
  ∃ e, for_each body s l = Raise e.
Proof.
  intros Hx Hbad. revert s.
  induction l as [|y l IH]; intros s; [set_solver|].
  cbn [for_each]. destruct (body s y) as [s'|e] eqn:Hy.
  - cbn [mbind result_bind].
    apply elem_of_cons in Hx as [->|Hx].
    + destruct (Hbad s) as [e He]. congruence.
    + by apply IH.
  - by exists e.
Qed.

(** X16.  One statistic that cannot be collected stops
    [get_full_data]: when [get_df] raises for a statistic of [all_stats],
    or its table has no [Team] column, [get_full_data] raises and returns
    no frame, whatever the other statistics give. *)
Theorem one_failed_statistic_stops_get_full_data
    (web : string → option Soup) (urls : list string) (num : string) :
  num ∈ Legacy.all_stats →
  (∃ e, Legacy.get_df web
          ("https://www.ncaa.com/stats/basketball-men/d1/current/team/"
             +:+ num) = Raise e)
  ∨ (∃ df, Legacy.get_df web
             ("https://www.ncaa.com/stats/basketball-men/d1/current/team/"
                +:+ num) = Ok df ∧ "Team" ∉ columns df) →
  ∃ e, Legacy.get_full_data web urls = Raise e.
Proof.
  intros Hnum Hbad. unfold Legacy.get_full_data.
  destruct (for_each_raises_some (Legacy.collect_stat web) []
              Legacy.all_stats num Hnum) as [e ->]; [|by exists e].
  intros all_dfs. unfold Legacy.collect_stat.
  destruct Hbad as [[e ->]|(df & -> & Hno)].
  - by exists e.
  - exists KeyError. cbn [mbind result_bind]. unfold pd.set_astype_str.
    by rewrite decide_False.
Qed.

Lemma legacy_collect_grows (web : string → option Soup)
    (all_dfs all_dfs' : list DataFrame) (nums : list string) :
  for_each (Legacy.collect_stat web) all_dfs nums = Ok all_dfs' →
  length all_dfs' = (length all_dfs + length nums)%nat.
Proof.
  revert all_dfs. induction nums as [|num nums IH]; intros all_dfs.
  - intros [= <-]. simpl. lia.
  - cbn [for_each].
    destruct (Legacy.collect_stat web all_dfs num) as [all_dfs1|e] eqn:Hc;
      [|done].
    cbn [mbind result_bind]. intros H%IH. rewrite H.
    unfold Legacy.collect_stat in Hc.
    destruct (Legacy.get_df web _) as [df|]; [|done].
    cbn [mbind result_bind] in Hc.
    destruct (pd.set_astype_str "Team" df) as [df'|]; [|done].
    injection Hc as <-. rewrite length_app. simpl. lia.
Qed.

Lemma legacy_merge_step_Some (master_df : option DataFrame) (df : DataFrame)
    (s : option DataFrame) :
  Legacy.merge_step master_df df = Ok s → is_Some s.
Proof.
  unfold Legacy.merge_step.
  destruct (pd.set_astype_str "Team" df) as [df1|]; [|done].
  cbn [mbind result_bind]. destruct master_df as [m|].
  - destruct (pd.drop _ _ _) as [df2|]; [|done]. cbn [mbind result_bind].
    destruct (pd.merge _ _ _) as [m'|]; [|done].
    intros [= <-]. by eexists.
  - intros [= <-]. by eexists.
Qed.

Lemma legacy_merge_loop_Some (master_df : option DataFrame)
    (all_dfs : list DataFrame) (s : option DataFrame) :
  is_Some master_df ∨ all_dfs ≠ [] →
  for_each Legacy.merge_step master_df all_dfs = Ok s → is_Some s.
Proof.
  revert master_df. induction all_dfs as [|df all_dfs IH];
    intros master_df Hor.
  - intros [= <-]. by destruct Hor.
  - cbn [for_each].
    destruct (Legacy.merge_step master_df df) as [s1|] eqn:Hstep; [|done].
    cbn [mbind result_bind]. apply IH. left.
    by eapply legacy_merge_step_Some.
Qed.

(** X17.  [get_full_data] never returns [None]: when it returns, it
    returns a frame, so that the [fillna] after it in the script is always
    applied to a frame; the run ends with the filled frame or with the
    exception [get_full_data] raised. *)
Theorem get_full_data_never_returns_None (web : string → option Soup)
    (urls : list string) :
  Legacy.get_full_data web urls ≠ Ok None ∧
  (∀ master_df,
     Legacy.get_full_data web Legacy.all_stats = Ok (Some master_df) →
     Legacy.master_df web = Ok (pd.fillna (CNum 0) master_df)) ∧
  (∀ e, Legacy.get_full_data web Legacy.all_stats = Raise e →
        Legacy.master_df web = Raise e).
Proof.
  split_and!.
  - unfold Legacy.get_full_data.
    destruct (for_each (Legacy.collect_stat web) [] Legacy.all_stats)
      as [all_dfs|e] eqn:Hloop; [|done].
    cbn [mbind result_bind]. intros Hnone.
    apply legacy_collect_grows in Hloop.
    apply legacy_merge_loop_Some in Hnone; [by destruct Hnone|].
    right. intros ->. simpl in Hloop. lia.
  - intros m Hm. unfold Legacy.master_df. by rewrite Hm.
  - intros e He. unfold Legacy.master_df. by rewrite He.
Qed.

(** ** How many rows a team has *)

Lemma filter_all {A} (P : A → Prop) `{∀ x, Decision (P x)} (l : list A) :
  (∀ x, x ∈ l → P x) → filter P l = l.
Proof.
  induction l as [|x l IH]; intros Hall; [done|].
  rewrite filter_cons_True by (apply Hall; set_solver). f_equal.
  apply IH. intros y Hy. apply Hall. set_solver.
Qed.

Lemma filter_bind_keyed (f : cell → list Row) (k : cell) (l : list cell) :
  NoDup l → (∀ k' r, k' ∈ l → r ∈ f k' → team r = k') →
  filter (λ r : Row, team r = k) (l ≫= f)
  = if decide (k ∈ l) then f k else [].
Proof.
  induction l as [|x l IH]; intros Hnd Hkey.
  - rewrite decide_False; [done|apply not_elem_of_nil].
  - apply NoDup_cons in Hnd as [Hx Hnd].
    rewrite bind_cons, filter_app, IH; [|done|].
    2:{ intros k' r Hk'. apply Hkey. by apply elem_of_cons; right. }
    destruct (decide (x = k)) as [->|Hne].
    + destruct (decide (k ∈ l)) as [?|_]; [done|].
      destruct (decide (k ∈ k :: l)) as [_|Hno].
      2:{ destruct Hno. by apply elem_of_cons; left. }
      rewrite app_nil_r. apply filter_all. intros r Hr.
      apply (Hkey k r); [by apply elem_of_cons; left|done].
    + assert (filter (λ r : Row, team r = k) (f x) = []) as ->.
      { apply filter_eq_nil. intros r Hr Hk.
        apply Hne. rewrite <- Hk. symmetry.
        apply (Hkey x r); [by apply elem_of_cons; left|done]. }
      simpl. destruct (decide (k ∈ l)) as [Hin|Hin];
        destruct (decide (k ∈ x :: l)) as [Hin'|Hin']; try done.
      * destruct Hin'. by apply elem_of_cons; right.
      * apply elem_of_cons in Hin' as [?|?]; [by destruct Hne|done].
Qed.

Lemma length_pairs {A B C} (g : A → B → C) (ls : list A) (rs : list B) :
  length (a ← ls; b ← rs; [g a b]) = (length ls * length rs)%nat.
Proof.
  induction ls as [|a ls IH]; [done|].
  rewrite bind_cons, length_app, IH. simpl. f_equal.
  clear. induction rs as [|b rs IH]; [done|].
  rewrite bind_cons. simpl. by rewrite IH.
Qed.

Lemma length_merge_key (on : string) (left right : DataFrame) (k : cell) :
  length (pd.merge_key on left right k)
  = let m := length (filter (λ a : Row, at_col on a = k) (rows left)) in
    let n := length (filter (λ b : Row, at_col on b = k) (rows right)) in
    if decide (m = 0%nat) then n
    else if decide (n = 0%nat) then m else (m * n)%nat.
Proof.
  unfold pd.merge_key. cbn zeta.
  destruct (filter (λ a : Row, at_col on a = k) (rows left)) as [|a ls].
  - by rewrite length_fmap.
  - destruct (filter (λ b : Row, at_col on b = k) (rows right)) as [|b rs].
    + by rewrite length_fmap.
    + by rewrite (length_pairs (λ a b : Row, a ∪ b)).
Qed.

Lemma team_merge_key (master_df df : DataFrame) (k : cell) (m : Row) :
  category_table master_df → category_table df →
  m ∈ pd.merge_key "Team" master_df (df_to_merge master_df df) k →
  team m = k.
Proof.
  intros Hm Hd Hin.
  assert (∀ a, a ∈ rows master_df → is_Some (a !! "Team")) as Hsm.
  { intros a Ha. destruct (category_table_team _ a Hm Ha) as [s ->].
    by eexists. }
  assert (∀ b, b ∈ rows (df_to_merge master_df df) → is_Some (b !! "Team"))
    as Hsd.
  { unfold df_to_merge. cbn [rows].
    intros b' (b & -> & Hb)%list_elem_of_fmap.
    destruct (category_table_team _ b Hd Hb) as [s Hs].
    rewrite lookup_drop_row, decide_False, Hs; [by eexists|].
    rewrite elem_of_dup_cols. naive_solver. }
  apply elem_of_merge_key in Hin
    as [(a & b & Ha & Hb & Hka & _ & ->)
       |[(a & Ha & Hka & _ & ->)|(b & Hb & Hkb & _ & ->)]];
    unfold team; rewrite at_col_union_l; auto.
Qed.

Lemma team_count_df_to_merge (master_df df : DataFrame) (k : cell) :
  team_count k (df_to_merge master_df df) = team_count k df.
Proof.
  unfold team_count, df_to_merge. cbn [rows].
  induction (rows df) as [|b bs IH]; [done|].
  rewrite fmap_cons.
  destruct (decide (team b = k)) as [Hk|Hk].
  - rewrite !filter_cons_True; [|done|by rewrite team_drop_row].
    simpl. by rewrite IH.
  - rewrite !filter_cons_False; [done|done|by rewrite team_drop_row].
Qed.

Lemma team_count_merged (master_df df : DataFrame) (k : cell) :
  category_table master_df → category_table df →
  team_count k (merged master_df df)
  = let m := team_count k master_df in
    let n := team_count k df in
    if decide (m = 0%nat) then n
    else if decide (n = 0%nat) then m else (m * n)%nat.
Proof.
  intros Hm Hd. cbn zeta.
  rewrite <- (team_count_df_to_merge master_df df k).
  unfold team_count at 1. unfold merged. cbn [rows].
  rewrite filter_bind_keyed; [|apply NoDup_merge_keys|].
  2:{ intros k' r _ Hr. exact (team_merge_key master_df df k' r Hm Hd Hr). }
  destruct (decide (k ∈ pd.merge_keys "Team" master_df
                         (df_to_merge master_df df))) as [Hk|Hk].
  - apply length_merge_key.
  - assert (team_count k master_df = 0%nat) as ->.
    { unfold team_count. apply length_zero_iff_nil, filter_eq_nil.
      intros a Ha Hka. apply Hk, elem_of_merge_keys. left. by exists a. }
    assert (team_count k (df_to_merge master_df df) = 0%nat) as ->.
    { unfold team_count. apply length_zero_iff_nil, filter_eq_nil.
      intros b Hb Hkb. apply Hk, elem_of_merge_keys. right. by exists b. }
    done.
Qed.

(** X18.  Repeated teams multiply.  One step of either merge loop, on a
    master frame in which a team has [m] rows and a category table in
    which it has [n] rows, leaves the team [m * n] rows when it is on both
    sides, and the [m], resp. [n], rows it has when it is on one side
    only. *)
Theorem repeated_teams_multiply (master_df df : DataFrame) :
  category_table master_df → category_table df →
  ∃ master_df',
    NCAADataCollector.merge_step master_df df = Ok master_df' ∧
    Legacy.merge_step (Some master_df) df = Ok (Some master_df') ∧
    ∀ k,
      team_count k master_df'
      = if decide (team_count k master_df = 0%nat) then team_count k df
        else if decide (team_count k df = 0%nat)
             then team_count k master_df
             else (team_count k master_df * team_count k df)%nat.
Proof.
  intros Hm Hd. exists (merged master_df df). split_and!.
  - apply merge_step_Ok; [apply Hm|apply Hd].
  - by apply legacy_merge_step_Ok.
  - intros k. by apply team_count_merged.
Qed.

Lemma elem_of_teams_foldl_merged (first : DataFrame) (rest : list DataFrame)
    (k : cell) :
  Forall category_table (first :: rest) →
  k ∈ team <$> rows (foldl merged first rest) ↔
    k ∈ (df ← first :: rest; team <$> rows df).
Proof.
  intros [Hf Hrest]%Forall_cons.
  rewrite list_elem_of_fmap, list_elem_of_bind. split.
  - intros (m & -> & Hm).
    destruct (foldl_merged_team_from first rest m Hf Hrest Hm)
      as (df & r & Hdf & Hr & Hk).
    exists df. split; [|done]. apply list_elem_of_fmap. by exists r.
  - intros (df & (r & -> & Hr)%list_elem_of_fmap & Hdf).
    destruct (foldl_merged_covers first rest df r Hf Hrest Hdf Hr)
      as (m & Hm & Hk).
    by exists m.
Qed.

(** X19.  One row per team.  When every category table has each team
    once, the teams of the master frame are the teams of the categories,
    each once: the master frame has as many rows as there are distinct
    teams.  Both scripts. *)
Theorem one_row_per_team (all_dfs : list DataFrame) :
  all_dfs ≠ [] → Forall category_table all_dfs →
  Forall (λ df, NoDup (team <$> rows df)) all_dfs →
  ∃ master_df,
    master_of all_dfs master_df ∧
    team <$> rows master_df
      ≡ₚ remove_dups (df ← all_dfs; team <$> rows df) ∧
    length (rows master_df)
    = length (remove_dups (df ← all_dfs; team <$> rows df)).
Proof.
  intros Hne Hall Hu. destruct all_dfs as [|first rest]; [done|].
  pose proof Hall as [Hf Hrest]%Forall_cons.
  pose proof Hu as [Huf Hur]%Forall_cons.
  exists (pd.fillna (CNum 0) (foldl merged first rest)).
  assert (team <$> rows (pd.fillna (CNum 0) (foldl merged first rest))
          ≡ₚ remove_dups (df ← first :: rest; team <$> rows df)) as Hperm.
  { rewrite team_fmap_fillna by (by apply category_table_foldl_merged).
    apply NoDup_Permutation.
    - by apply NoDup_team_foldl_merged.
    - apply NoDup_remove_dups.
    - intros k. rewrite elem_of_remove_dups.
      by apply elem_of_teams_foldl_merged. }
  split_and!; [by apply master_of_cons|done|].
  rewrite <- Hperm. by rewrite length_fmap.
Qed.

(** X20.  In the updated collector a page that cannot be fetched, has no
    table or has one that cannot be read adds nothing and stops nothing:
    the frames collected for a statistic are those of its other pages, in
    order. *)
Theorem unreadable_page_is_skipped (web : string → option Soup)
    (links1 links2 : list string) (url : string) :
  web url = None
  ∨ (∃ soup, web url = Some soup ∧
             (first_table soup = None ∨ first_table soup = Some None)) →
  NCAADataCollector.df_list_for_stat web (links1 ++ url :: links2)
  = NCAADataCollector.df_list_for_stat web links1
      ++ NCAADataCollector.df_list_for_stat web links2.
Proof.
  intros Hbad%get_team_stats_data_None.
  rewrite !df_list_for_stat_omap, omap_app. simpl. by rewrite Hbad.
Qed.

(** X21.  In the updated collector a statistic of one page is collected
    from it: when the pattern of the statistic is a regular expression,
    and the first page has a table with a [Team] column and no link
    below it that the pattern finds, the page is the only one the inner
    loop reads and its table, the [Team] cells printed, is what is added to
    [all_dfs]. *)
Theorem one_page_statistic_is_collected (web : string → option Soup)
    (re_compile : string → option (string → bool))
    (all_dfs : list DataFrame) (stat_id : string) (initial_soup : Soup)
    (search : string → bool) (df : DataFrame) :
  web (NCAADataCollector.initial_url stat_id) = Some initial_soup →
  re_compile (stat_pattern stat_id) = Some search →
  NCAADataCollector.links search initial_soup
    (NCAADataCollector.base_url
       +:+ "/stats/basketball-men/d1/current/team/" +:+ stat_id +:+ "/")
  = [] →
  first_table initial_soup = Some (Some df) →
  "Team" ∈ columns df → wf_frame df →
  NCAADataCollector.subsequent_links re_compile initial_soup stat_id
  = Ok [NCAADataCollector.initial_url stat_id] ∧
  NCAADataCollector.collect_stat web re_compile all_dfs stat_id
  = Ok (all_dfs ++ [mkDataFrame (columns df)
                      (pd.astype_str_at "Team" <$> rows df)]).
Proof. apply single_page_category. Qed.

(** * The further properties on the example inputs *)

Lemma game_rows_name_winner_and_loser_witness :
  NCAADataCollector.get_tournament_bracket_data ex_bracket ex_int 2024
  = Some (mkDataFrame NCAADataCollector.game_columns
            (NCAADataCollector.tournament_data ex_int 2024
               [ex_game; ex_half_block; ex_level_game])) ∧
  ex_level_row
    ∈ NCAADataCollector.tournament_data ex_int 2024
        [ex_game; ex_half_block; ex_level_game] ∧
  ∃ t1 t2 z1 z2,
    ex_level_row !! "Year" = Some (CNum 2024) ∧
    ex_level_row !! "Team1" = Some (CStr t1) ∧
    ex_level_row !! "Team2" = Some (CStr t2) ∧
    ex_level_row !! "Score1" = Some (CNum z1) ∧
    ex_level_row !! "Score2" = Some (CNum z2) ∧
    (((z1 > z2)%Z ∧ ex_level_row !! "Winner" = Some (CStr t1) ∧
      ex_level_row !! "Loser" = Some (CStr t2))
     ∨ ((z1 ≤ z2)%Z ∧ ex_level_row !! "Winner" = Some (CStr t2) ∧
        ex_level_row !! "Loser" = Some (CStr t1))).
Proof.
  assert (NCAADataCollector.get_tournament_bracket_data ex_bracket ex_int 2024
          = Some (mkDataFrame NCAADataCollector.game_columns
                    (NCAADataCollector.tournament_data ex_int 2024
                       [ex_game; ex_half_block; ex_level_game]))) as H
    by (vm_compute; reflexivity).
  assert (ex_level_row
            ∈ NCAADataCollector.tournament_data ex_int 2024
                [ex_game; ex_half_block; ex_level_game]) as Hr by by_compute.
  split; [exact H|]. split; [exact Hr|].
  apply (game_rows_name_winner_and_loser ex_bracket ex_int 2024 _ _ H);
    [by_compute|exact Hr].
Defined.

Lemma malformed_block_is_skipped_witness :
  malformed_block ex_int ex_half_block ∧
  NCAADataCollector.get_tournament_bracket_data ex_bracket ex_int 2024
  = NCAADataCollector.get_tournament_bracket_data ex_bracket_short ex_int 2024.
Proof.
  assert (malformed_block ex_int ex_half_block) as Hb
    by (left; vm_compute; discriminate).
  split; [exact Hb|].
  apply (malformed_block_is_skipped ex_bracket ex_bracket_short ex_int 2024
           [ex_game] [ex_level_game] ex_half_block ex_elements);
    [vm_compute; reflexivity|vm_compute; reflexivity|exact Hb].
Defined.

Lemma bracket_result_tiers_witness :
  ∃ df,
    NCAADataCollector.get_tournament_bracket_data ex_bracket ex_int 2024
    = Some df ∧
    ((Exists (λ b, ¬ malformed_block ex_int b)
        [ex_game; ex_half_block; ex_level_game] ∧
      columns df = NCAADataCollector.game_columns ∧
      rows df ≠ [] ∧ (length (rows df) ≤ 3)%nat)
     ∨ (Forall (malformed_block ex_int)
          [ex_game; ex_half_block; ex_level_game] ∧
        df = NCAADataCollector._get_tournament_seeds_and_teams
               (mkBracketSoup [ex_game; ex_half_block; ex_level_game]
                  ex_elements) 2024)).
Proof.
  apply (proj2 (bracket_result_tiers ex_bracket ex_int 2024)
           (mkBracketSoup [ex_game; ex_half_block; ex_level_game]
              ex_elements)).
  vm_compute; reflexivity.
Defined.

Lemma initial_url_is_always_first_witness :
  NCAADataCollector._get_subsequent_links ex_re_compile
    (mkSoup [ Some (ex_href "stats-p3"); Some (ex_url "stats-p2") ]
            (Some (Some ex_A)))
    (NCAADataCollector.base_url
       +:+ "/stats/basketball-men/d1/current/team/" +:+ "474" +:+ "/")
  = Ok [ex_url "stats-p2"] ∧
  (NCAADataCollector.initial_url "474" ∉ [ex_url "stats-p2"]) ∧
  NCAADataCollector.subsequent_links ex_re_compile
    (mkSoup [ Some (ex_href "stats-p3"); Some (ex_url "stats-p2") ]
            (Some (Some ex_A))) "474"
  = Ok [NCAADataCollector.initial_url "474"; ex_url "stats-p2"] ∧
  NoDup [NCAADataCollector.initial_url "474"; ex_url "stats-p2"].
Proof.
  assert (NCAADataCollector._get_subsequent_links ex_re_compile
            (mkSoup [ Some (ex_href "stats-p3"); Some (ex_url "stats-p2") ]
                    (Some (Some ex_A)))
            (NCAADataCollector.base_url
               +:+ "/stats/basketball-men/d1/current/team/" +:+ "474"
               +:+ "/")
          = Ok [ex_url "stats-p2"]) as H by (vm_compute; reflexivity).
  split; [exact H|].
  exact (initial_url_is_always_first ex_re_compile _ "474" _ H).
Defined.

Lemma empty_category_is_passed_over_witness :
  ex_web_bare (NCAADataCollector.initial_url "999")
  = Some (mkSoup [] None) ∧
  NCAADataCollector.subsequent_links ex_re_compile (mkSoup [] None) "999"
  = Ok [NCAADataCollector.initial_url "999"] ∧
  NCAADataCollector.get_full_stat_dataframe ex_web_bare ex_re_compile
    (["474"] ++ "999" :: [])
  = NCAADataCollector.get_full_stat_dataframe ex_web_bare ex_re_compile
      (["474"] ++ []).
Proof.
  assert (ex_web_bare (NCAADataCollector.initial_url "999")
          = Some (mkSoup [] None)) as Hweb by (vm_compute; reflexivity).
  assert (NCAADataCollector.subsequent_links ex_re_compile (mkSoup [] None)
            "999" = Ok [NCAADataCollector.initial_url "999"]) as Hpages
    by (vm_compute; reflexivity).
  split; [exact Hweb|]. split; [exact Hpages|].
  apply (empty_category_is_passed_over ex_web_bare ex_re_compile
           ["474"] [] "999").
  right. exists (mkSoup [] None), [NCAADataCollector.initial_url "999"].
  split; [exact Hweb|]. split; [exact Hpages|].
  apply Forall_singleton. vm_compute. reflexivity.
Defined.


Lemma ex_web_any_tables_have_Team (url : string) (soup : Soup)
    (df : DataFrame) :
  ex_web_any url = Some soup → first_table soup = Some (Some df) →
  "Team" ∈ columns df.
Proof. unfold ex_web_any. intros [= <-] [= <-]. by_compute. Qed.

Lemma run_succeeds_when_tables_have_Team_witness :
  (∃ all_dfs master_df,
     for_each (NCAADataCollector.collect_stat ex_web_any ex_re_compile) []
       ["474"; "216"] = Ok all_dfs ∧
     Forall category_table all_dfs ∧
     NCAADataCollector.get_full_stat_dataframe ex_web_any ex_re_compile
       ["474"; "216"] = Ok master_df ∧
     NoDup (columns master_df) ∧
     (∀ m c, m ∈ rows master_df → m !! c ≠ Some CNaN) ∧
     (all_dfs = [] → master_df = pd.empty))
  ∧ bad_pattern ex_web_any ex_re_compile "("
  ∧ NCAADataCollector.get_full_stat_dataframe ex_web_any ex_re_compile
      ["474"; "("] = Raise ReError.
Proof.
  assert (bad_pattern ex_web_any ex_re_compile "(") as Hbad
    by (split; [by eexists|vm_compute; reflexivity]).
  split_and!; [|exact Hbad|].
  - apply (proj1 (run_succeeds_when_tables_have_Team ex_web_any
                    ex_re_compile ["474"; "216"]
                    ex_web_any_tables_have_Team)).
    intros stat_id Hin [_ Hre].
    apply elem_of_cons in Hin as [->|Hin];
      [vm_compute in Hre; discriminate|].
    apply list_elem_of_singleton in Hin as ->.
    vm_compute in Hre. discriminate.
  - apply (proj2 (run_succeeds_when_tables_have_Team ex_web_any
                    ex_re_compile ["474"; "("]
                    ex_web_any_tables_have_Team)).
    exists "(". split; [by_compute|exact Hbad].
Defined.

Lemma master_columns_in_first_seen_order_witness :
  Forall category_table [ex_A; ex_B] ∧
  ∃ master_df,
    master_of [ex_A; ex_B] master_df ∧
    columns master_df = pd.concat_columns [ex_A; ex_B].
Proof.
  assert (Forall category_table [ex_A; ex_B]) as H
    by by_check check_table_sound.
  split; [exact H|].
  apply (master_columns_in_first_seen_order [ex_A; ex_B]);
    [discriminate|exact H].
Defined.

Lemma master_teams_come_from_categories_witness :
  Forall category_table [ex_A; ex_B] ∧
  ∃ master_df,
    master_of [ex_A; ex_B] master_df ∧
    ∀ m, m ∈ rows master_df →
         ∃ df r, df ∈ [ex_A; ex_B] ∧ r ∈ rows df ∧ team r = team m.
Proof.
  assert (Forall category_table [ex_A; ex_B]) as H
    by by_check check_table_sound.
  split; [exact H|].
  apply (master_teams_come_from_categories [ex_A; ex_B]);
    [discriminate|exact H].
Defined.

Lemma first_category_seeds_master_witness :
  Forall category_table [ex_A; ex_B] ∧
  ∃ master_df,
    master_of [ex_A; ex_B] master_df ∧
    columns ex_A `prefix_of` columns master_df ∧
    ∀ a, a ∈ rows ex_A →
         ∃ m, m ∈ rows master_df ∧ team m = team a ∧
              ∀ c, c ∈ columns ex_A →
                   m !! c = pd.fill (CNum 0) <$> a !! c.
Proof.
  assert (Forall category_table [ex_A; ex_B]) as H
    by by_check check_table_sound.
  split; [exact H|].
  exact (first_category_seeds_master ex_A [ex_B] H).
Defined.

Lemma updated_merge_agrees_with_first_script_witness :
  Forall category_table [ex_A; ex_B] ∧
  ∃ master_df,
    NCAADataCollector.merge_all [ex_A; ex_B] = Ok master_df ∧
    Legacy.merge_all [ex_A; ex_B] ≫= Legacy.fill_master = Ok master_df.
Proof.
  assert (Forall category_table [ex_A; ex_B]) as H
    by by_check check_table_sound.
  split; [exact H|].
  apply (proj1 (updated_merge_agrees_with_first_script [ex_A; ex_B]));
    [discriminate|exact H].
Defined.

Lemma last_link_is_never_read_witness :
  ex_web_ok (ex_url "p4") ≠ ex_web_p4 (ex_url "p4") ∧
  Legacy.get_df ex_web_p4 ex_start = Legacy.get_df ex_web_ok ex_start.
Proof.
  split; [vm_compute; discriminate|].
  apply (last_link_is_never_read ex_web_ok ex_web_p4 ex_start ex_soup_three);
    [vm_compute; reflexivity|vm_compute; reflexivity|].
  apply Forall_forall.
  repeat constructor; vm_compute; reflexivity.
Defined.

Lemma get_df_needs_two_links_witness :
  ex_web_single ex_start = Some (mkSoup [Some "/about"] (Some (Some ex_A))) ∧
  Legacy.get_df ex_web_single ex_start = Raise ValueError.
Proof.
  assert (ex_web_single ex_start
          = Some (mkSoup [Some "/about"] (Some (Some ex_A)))) as H
    by (vm_compute; reflexivity).
  split; [exact H|].
  apply (get_df_needs_two_links ex_web_single ex_start _ H).
  vm_compute. lia.
Defined.

Lemma one_failed_statistic_stops_get_full_data_witness :
  "474" ∈ Legacy.all_stats ∧
  ∃ e, Legacy.get_full_data ex_web_single [] = Raise e.
Proof.
  assert ("474" ∈ Legacy.all_stats) as Hin by by_compute.
  split; [exact Hin|].
  apply (one_failed_statistic_stops_get_full_data ex_web_single [] "474" Hin).
  left. exists ValueError. vm_compute. reflexivity.
Defined.

Lemma repeated_teams_multiply_witness :
  category_table ex_dup ∧ category_table ex_dup2 ∧
  ∃ master_df',
    NCAADataCollector.merge_step ex_dup ex_dup2 = Ok master_df' ∧
    Legacy.merge_step (Some ex_dup) ex_dup2 = Ok (Some master_df') ∧
    team_count (CStr "Duke") master_df' = 4%nat.
Proof.
  assert (category_table ex_dup) as H1 by by_check check_table_sound.
  assert (category_table ex_dup2) as H2 by by_check check_table_sound.
  split; [exact H1|]. split; [exact H2|].
  destruct (repeated_teams_multiply ex_dup ex_dup2 H1 H2)
    as (m & Hn & Hl & Hcount).
  exists m. split; [exact Hn|]. split; [exact Hl|].
  rewrite (Hcount (CStr "Duke")). vm_compute. reflexivity.
Defined.

Lemma one_row_per_team_witness :
  Forall category_table [ex_A; ex_B] ∧
  Forall (λ df, NoDup (team <$> rows df)) [ex_A; ex_B] ∧
  ∃ master_df,
    master_of [ex_A; ex_B] master_df ∧
    team <$> rows master_df
      ≡ₚ remove_dups (df ← [ex_A; ex_B]; team <$> rows df) ∧
    length (rows master_df)
    = length (remove_dups (df ← [ex_A; ex_B]; team <$> rows df)).
Proof.
  assert (Forall category_table [ex_A; ex_B]) as H
    by by_check check_table_sound.
  assert (Forall (λ df, NoDup (team <$> rows df)) [ex_A; ex_B]) as Hu
    by by_compute.
  split; [exact H|]. split; [exact Hu|].
  apply (one_row_per_team [ex_A; ex_B]); [discriminate|exact H|exact Hu].
Defined.

Lemma unreadable_page_is_skipped_witness :
  ex_web_fetch_fails (ex_url "p3") = None ∧
  NCAADataCollector.df_list_for_stat ex_web_fetch_fails
    ([ex_url "p2"] ++ ex_url "p3" :: [ex_url "p2"])
  = NCAADataCollector.df_list_for_stat ex_web_fetch_fails [ex_url "p2"]
      ++ NCAADataCollector.df_list_for_stat ex_web_fetch_fails [ex_url "p2"].
Proof.
  assert (ex_web_fetch_fails (ex_url "p3") = None) as H
    by (vm_compute; reflexivity).
  split; [exact H|].
  apply (unreadable_page_is_skipped ex_web_fetch_fails [ex_url "p2"]
           [ex_url "p2"] (ex_url "p3")).
  left. exact H.
Defined.

Lemma one_page_statistic_is_collected_witness :
  ex_web_single (NCAADataCollector.initial_url "474")
  = Some (mkSoup [Some "/about"] (Some (Some ex_A))) ∧
  ∃ search,
    ex_re_compile (stat_pattern "474") = Some search ∧
    NCAADataCollector.links search
      (mkSoup [Some "/about"] (Some (Some ex_A)))
      (NCAADataCollector.base_url
         +:+ "/stats/basketball-men/d1/current/team/" +:+ "474" +:+ "/")
    = [] ∧
    NCAADataCollector.subsequent_links ex_re_compile
      (mkSoup [Some "/about"] (Some (Some ex_A))) "474"
    = Ok [NCAADataCollector.initial_url "474"] ∧
    NCAADataCollector.collect_stat ex_web_single ex_re_compile [] "474"
    = Ok ([] ++ [mkDataFrame (columns ex_A)
                   (pd.astype_str_at "Team" <$> rows ex_A)]).
Proof.
  assert (ex_web_single (NCAADataCollector.initial_url "474")
          = Some (mkSoup [Some "/about"] (Some (Some ex_A)))) as H
    by (vm_compute; reflexivity).
  split; [exact H|].
  destruct (ex_re_compile (stat_pattern "474")) as [search|] eqn:Hre;
    [|vm_compute in Hre; discriminate].
  assert (NCAADataCollector.links search
            (mkSoup [Some "/about"] (Some (Some ex_A)))
            (NCAADataCollector.base_url
               +:+ "/stats/basketball-men/d1/current/team/" +:+ "474"
               +:+ "/") = []) as Hlinks.
  { vm_compute in Hre. injection Hre as <-. vm_compute. reflexivity. }
  exists search. split; [reflexivity|]. split; [exact Hlinks|].
  apply (one_page_statistic_is_collected ex_web_single ex_re_compile []
           "474" _ search ex_A H Hre Hlinks).
  - reflexivity.
  - by_compute.
  - by_check check_frame_sound.
Defined.
